(** * Realestate voice agent: session bridge, transcoder and tool dispatcher

    A shallow embedding of [app.py] and [real_estate_tools.py], and the
    properties of the design document that concern them.

    Definitions: Python values and exceptions ([Py]); the CPython [audioop]
    routines the transcoder calls ([audioop]) and the transcoder itself
    ([transcoder]); the runtime the sources depend on ([runtime]); the search
    tools ([real_estate_tools]); sockets, log and spawned tasks as effects
    ([effects]); the tool dispatcher ([dispatcher]); the two session bridges
    and the interleaving of their coroutines ([bridge]); one concrete runtime
    ([example]).  The theorems follow. *)

From Stdlib Require Import ZArith QArith List String Ascii Bool Lia.
From Stdlib Require Import DecimalString.
From Stdlib.Floats Require Import SpecFloat.
From Stdlib.Strings Require Import Byte.
Import ListNotations.

Set Warnings "-register-all".

Local Open Scope string_scope.
Local Open Scope Z_scope.

(* ================================================================== *)
(** ** Python values, exceptions and the few built-ins the sources use *)
(* ================================================================== *)

Module Py.

(** Python's [float] is IEEE 754 binary64.  Its operations are those of
    the Standard Library's specification of the format, which round to
    nearest, ties to even. *)
Definition float : Type := spec_float.

Definition prec : Z := 53.
Definition emax : Z := 1024.

(** [float(z)] for an int, as the arithmetic operators convert an int
    operand. *)
Definition float_of_int (z : Z) : float := binary_normalize prec emax z 0 false.

(** [x - y], [x < y] and [x == y] on floats. *)
Definition float_sub (x y : float) : float := SFsub prec emax x y.
Definition float_lt (x y : float) : bool := SFltb x y.
Definition float_eq (x y : float) : bool := SFeqb x y.

(** A JSON-decoded Python object.  A [dict] keeps its items in insertion
    order; keys are unique, as [json.loads] produces them. *)
Inductive value : Type :=
| PNone
| PBool (b : bool)
| PInt (z : Z)
| PFloat (x : float)
| PStr (s : string)
| PList (l : list value)
| PDict (items : list (string * value)).

Definition bytes := list byte.

(** The part of the [Exception] hierarchy that the sources and their
    collaborators can raise.  Task cancellation ([CancelledError], a
    [BaseException]) is not a fault of the program and is not modelled. *)
Inductive exn_class : Type :=
| JSONDecodeError | AttributeError | TypeError | KeyError | IndexError
| ValueError | binascii_Error | audioop_error | WebSocketDisconnect
| RequestException | ConnectionClosed | RuntimeError.

Record exn : Type := mkExn { exn_cls : exn_class; exn_msg : string }.

Definition exn_class_eqb (a b : exn_class) : bool :=
  match a, b with
  | JSONDecodeError, JSONDecodeError | AttributeError, AttributeError
  | TypeError, TypeError | KeyError, KeyError | IndexError, IndexError
  | ValueError, ValueError | binascii_Error, binascii_Error
  | audioop_error, audioop_error | WebSocketDisconnect, WebSocketDisconnect
  | RequestException, RequestException | ConnectionClosed, ConnectionClosed
  | RuntimeError, RuntimeError => true
  | _, _ => false
  end.

(** The result of evaluating an expression that may raise. *)
Inductive outcome (A : Type) : Type :=
| Ok (a : A)
| Raise (e : exn).
Arguments Ok {A} a.
Arguments Raise {A} e.

Definition obind {A B} (c : outcome A) (k : A -> outcome B) : outcome B :=
  match c with
  | Ok a => k a
  | Raise e => Raise e
  end.

(** [try: c  except Exception as e: h e] for a computation without effects. *)
Definition otry {A} (c : outcome A) (h : exn -> outcome A) : outcome A :=
  match c with
  | Ok a => Ok a
  | Raise e => h e
  end.

Fixpoint omapM {A B} (f : A -> outcome B) (l : list A) : outcome (list B) :=
  match l with
  | [] => Ok []
  | x :: r => obind (f x) (fun y => obind (omapM f r) (fun ys => Ok (y :: ys)))
  end.

Definition type_name (v : value) : string :=
  match v with
  | PNone => "NoneType"
  | PBool _ => "bool"
  | PInt _ => "int"
  | PFloat _ => "float"
  | PStr _ => "str"
  | PList _ => "list"
  | PDict _ => "dict"
  end.

(** Truth value of an object, as [if x:] and [not x] test it. *)
Definition truthy (v : value) : bool :=
  match v with
  | PNone => false
  | PBool b => b
  | PInt z => negb (z =? 0)
  | PFloat x => negb (float_eq x (float_of_int 0))
  | PStr s => negb (String.eqb s EmptyString)
  | PList l => match l with [] => false | _ => true end
  | PDict d => match d with [] => false | _ => true end
  end.

Definition is_none (v : value) : bool :=
  match v with PNone => true | _ => false end.

Fixpoint lookup (k : string) (items : list (string * value)) : option value :=
  match items with
  | [] => None
  | (k', v) :: r => if String.eqb k k' then Some v else lookup k r
  end.

Definition has_key (k : string) (items : list (string * value)) : bool :=
  match lookup k items with Some _ => true | None => false end.

(** [d[k] = v] on a dict: replaces the value in place, or appends the key. *)
Fixpoint setitem (k : string) (v : value) (items : list (string * value))
  : list (string * value) :=
  match items with
  | [] => [(k, v)]
  | (k', v') :: r =>
      if String.eqb k k' then (k, v) :: r else (k', v') :: setitem k v r
  end.

Definition no_attribute (v : value) (attr : string) : exn :=
  mkExn AttributeError
        ("'" ++ type_name v ++ "' object has no attribute '" ++ attr ++ "'").

(** [obj.get(k, default)]: only a dict has the method. *)
Definition get (obj : value) (k : string) (default : value) : outcome value :=
  match obj with
  | PDict items =>
      Ok (match lookup k items with Some v => v | None => default end)
  | _ => Raise (no_attribute obj "get")
  end.

(** [obj[k]] with a string key. *)
Definition getitem (obj : value) (k : string) : outcome value :=
  match obj with
  | PDict items =>
      match lookup k items with
      | Some v => Ok v
      | None => Raise (mkExn KeyError ("'" ++ k ++ "'"))
      end
  | PList _ =>
      Raise (mkExn TypeError "list indices must be integers or slices, not str")
  | PStr _ =>
      Raise (mkExn TypeError "string indices must be integers, not 'str'")
  | _ =>
      Raise (mkExn TypeError
                   ("'" ++ type_name obj ++ "' object is not subscriptable"))
  end.

(** A [str] is held as its UTF-8 text.  A character (code point) of it
    starts at every byte that is not a continuation byte [10xxxxxx]. *)
Definition continuation (c : ascii) : bool :=
  match c with
  | Ascii _ _ _ _ _ _ b6 b7 => b7 && negb b6
  end.

Definition starts_in_continuation (s : string) : bool :=
  match s with
  | String c _ => continuation c
  | EmptyString => false
  end.

(** The characters of a [str], in order. *)
Fixpoint code_points (s : string) : list string :=
  match s with
  | EmptyString => []
  | String c r =>
      match code_points r with
      | p :: ps =>
          if starts_in_continuation r then String c p :: ps
          else String c EmptyString :: p :: ps
      | [] => [String c EmptyString]
      end
  end.

(** [obj[0]]. *)
Definition getitem0 (obj : value) : outcome value :=
  match obj with
  | PList (x :: _) => Ok x
  | PList [] => Raise (mkExn IndexError "list index out of range")
  | PStr s =>
      match code_points s with
      | p :: _ => Ok (PStr p)
      | [] => Raise (mkExn IndexError "string index out of range")
      end
  | PDict _ => Raise (mkExn KeyError "0")
  | _ =>
      Raise (mkExn TypeError
                   ("'" ++ type_name obj ++ "' object is not subscriptable"))
  end.

Definition chars (s : string) : list value := map PStr (code_points s).

(** The items a [for x in obj:] loop visits. *)
Definition iter (obj : value) : outcome (list value) :=
  match obj with
  | PList l => Ok l
  | PStr s => Ok (chars s)
  | PDict items => Ok (map (fun kv => PStr (fst kv)) items)
  | _ =>
      Raise (mkExn TypeError
                   ("'" ++ type_name obj ++ "' object is not iterable"))
  end.

(** [obj == 'literal']. *)
Definition eq_str (obj : value) (s : string) : bool :=
  match obj with
  | PStr s' => String.eqb s' s
  | _ => false
  end.

(** [obj > n] for an int literal [n], small enough to be a float. *)
Definition gt_int (obj : value) (n : Z) : outcome bool :=
  match obj with
  | PInt z => Ok (n <? z)
  | PBool b => Ok (n <? (if b then 1 else 0))
  | PFloat x => Ok (float_lt (float_of_int n) x)
  | _ =>
      Raise (mkExn TypeError
                   ("'>' not supported between instances of '"
                      ++ type_name obj ++ "' and 'int'"))
  end.

(** [obj - n] for an int literal [n]. *)
Definition sub_int (obj : value) (n : Z) : outcome value :=
  match obj with
  | PInt z => Ok (PInt (z - n))
  | PBool b => Ok (PInt ((if b then 1 else 0) - n))
  | PFloat x => Ok (PFloat (float_sub x (float_of_int n)))
  | _ =>
      Raise (mkExn TypeError
                   ("unsupported operand type(s) for -: '"
                      ++ type_name obj ++ "' and 'int'"))
  end.

(** [obj[:n]]. *)
Definition slice_to (n : nat) (obj : value) : outcome value :=
  match obj with
  | PStr s => Ok (PStr (String.concat EmptyString (firstn n (code_points s))))
  | PList l => Ok (PList (firstn n l))
  | PDict _ => Raise (mkExn TypeError "unhashable type: 'slice'")
  | _ =>
      Raise (mkExn TypeError
                   ("'" ++ type_name obj ++ "' object is not subscriptable"))
  end.

(** ["=" * n]. *)
Fixpoint repeat_str (s : string) (n : nat) : string :=
  match n with
  | O => EmptyString
  | S m => s ++ repeat_str s m
  end.

(** [sep.join(parts)]. *)
Fixpoint join (sep : string) (parts : list string) : string :=
  match parts with
  | [] => EmptyString
  | [p] => p
  | p :: r => p ++ sep ++ join sep r
  end.

(** [needle in obj] for a string literal [needle]. *)
Fixpoint infixb (needle s : string) : bool :=
  String.prefix needle s
  || match s with
     | EmptyString => false
     | String _ r => infixb needle r
     end.

Definition contains (needle : string) (obj : value) : outcome bool :=
  match obj with
  | PDict items => Ok (has_key needle items)
  | PList l => Ok (existsb (fun x => eq_str x needle) l)
  | PStr s => Ok (infixb needle s)
  | _ =>
      Raise (mkExn TypeError
                   ("argument of type '" ++ type_name obj
                      ++ "' is not iterable"))
  end.

(** A [str] built by [json.dumps].  It is represented by the object it
    serialises: [json.loads] gives that object back, and nothing else in the
    sources looks inside such a string.  The literal ["{}"] is
    [json_dumps (PDict [])]. *)
Inductive json_text : Type :=
| json_dumps (obj : value).

Definition json_loads_text (t : json_text) : value :=
  match t with json_dumps obj => obj end.

(** An environment value read with [os.getenv]: [None] or a string. *)
Definition env_value (o : option string) : value :=
  match o with Some s => PStr s | None => PNone end.

(** The same value inside an f-string. *)
Definition format_env (o : option string) : string :=
  match o with Some s => s | None => "None" end.

End Py.

Export Py.

Declare Scope py_scope.
Delimit Scope py_scope with py.
Notation "'let?' x ':=' c 'in' k" := (obind c (fun x => k))
  (at level 10, x name, c at level 100, k at level 200) : py_scope.
Local Open Scope py_scope.

(* ================================================================== *)
(** ** CPython's [audioop], as far as the transcoder calls it          *)
(* ================================================================== *)

(** [audioop] is the C extension of the Python standard library.  The two
    transcoding helpers of [app.py] call [ulaw2lin], [lin2ulaw] and [ratecv]
    with sample width 2, one channel, no carried-over state and the default
    filter weights.  The definitions below follow the C routines for exactly
    that use. *)
Module audioop.

Definition byte_of_Z (z : Z) : byte :=
  match Byte.of_N (Z.to_N (z mod 256)) with
  | Some b => b
  | None => x00
  end.

Definition Z_of_byte (b : byte) : Z := Z.of_N (Byte.to_N b).

(** A little-endian signed 16-bit sample. *)
Definition sample16 (lo hi : byte) : Z :=
  let u := Z_of_byte lo + 256 * Z_of_byte hi in
  if u <? 32768 then u else u - 65536.

Definition put16 (v : Z) : bytes :=
  let u := v mod 65536 in [byte_of_Z (u mod 256); byte_of_Z (u / 256)].

(** The fragment as 16-bit samples; a trailing odd byte is a size error. *)
Fixpoint samples16 (fragment : bytes) : option (list Z) :=
  match fragment with
  | [] => Some []
  | lo :: hi :: r =>
      match samples16 r with
      | Some l => Some (sample16 lo hi :: l)
      | None => None
      end
  | [_] => None
  end.

Definition not_whole_frames : exn :=
  mkExn audioop_error "not a whole number of frames".

(** Entry [b] of the table [st_ulaw2linear16]. *)
Definition st_ulaw2linear16 (b : byte) : Z :=
  let u := Z.lxor (Z_of_byte b) 255 in
  let t := Z.shiftl (Z.shiftl (Z.land u 15) 3 + 132)
                    (Z.shiftr (Z.land u 112) 4) in
  if Z.testbit u 7 then 132 - t else t - 132.

(** [audioop.ulaw2lin(fragment, 2)]: one 16-bit sample for each byte. *)
Definition ulaw2lin (fragment : bytes) : outcome bytes :=
  Ok (flat_map (fun b => put16 (st_ulaw2linear16 b)) fragment).

Definition seg_uend : list Z := [63; 127; 255; 511; 1023; 2047; 4095; 8191].

(** [search(val, table, size)]: the first index whose bound holds [val]. *)
Fixpoint search (val : Z) (table : list Z) (i : Z) : Z :=
  match table with
  | [] => i
  | bound :: r => if val <=? bound then i else search val r (i + 1)
  end.

(** [st_14linear2ulaw], on a sample already reduced to 14 bits. *)
Definition st_14linear2ulaw (pcm_val : Z) : byte :=
  let mask := if pcm_val <? 0 then 127 else 255 in
  let mag := if pcm_val <? 0 then - pcm_val else pcm_val in
  let mag := if 8159 <? mag then 8159 else mag in
  let mag := mag + 33 in
  let seg := search mag seg_uend 0 in
  if 8 <=? seg then byte_of_Z (Z.lxor 127 mask)
  else byte_of_Z
         (Z.lxor (Z.lor (Z.shiftl seg 4) (Z.land (Z.shiftr mag (seg + 1)) 15))
                 mask).

(** [audioop.lin2ulaw(fragment, 2)]. *)
Definition lin2ulaw (fragment : bytes) : outcome bytes :=
  match samples16 fragment with
  | None => Raise not_whole_frames
  | Some l => Ok (map (fun s => st_14linear2ulaw (Z.shiftr s 2)) l)
  end.

Section Ratecv.
(** Rates after division by their greatest common divisor. *)
Variables inrate outrate : Z.

(** The inner [while (d >= 0)] loop: it writes one interpolated sample and
    subtracts [inrate] until [d] is negative.  Samples are held in 32 bits
    (the 16-bit sample shifted left by 16); the C code computes the
    quotient in double precision and truncates it, which is exact at these
    magnitudes. *)
Fixpoint emit (fuel : nat) (d prev cur : Z) : list Z * Z :=
  match fuel with
  | O => ([], d)
  | S fuel' =>
      if d <? 0 then ([], d)
      else
        let cur_o := Z.quot (prev * d + cur * (outrate - d)) outrate in
        let '(out, d') := emit fuel' (d - inrate) prev cur in
        (Z.shiftr cur_o 16 :: out, d')
  end.

(** The outer loop: each input sample is read while [d < 0], moving the
    current sample to [prev] and adding [outrate] to [d]. *)
Fixpoint ratecv_loop (input : list Z) (d prev cur : Z) : list Z :=
  match input with
  | [] => []
  | s :: rest =>
      let prev' := cur in
      let cur' := Z.quot (1 * (s * 65536) + 0 * prev') (1 + 0) in
      let d1 := d + outrate in
      let '(out, d2) := emit (S (Z.to_nat d1)) d1 prev' cur' in
      (out ++ ratecv_loop rest d2 prev' cur')%list
  end.
End Ratecv.

(** [audioop.ratecv(fragment, 2, 1, inrate, outrate, None)[0]]. *)
Definition ratecv (fragment : bytes) (inrate outrate : Z) : outcome bytes :=
  match samples16 fragment with
  | None => Raise not_whole_frames
  | Some l =>
      if (inrate <=? 0) || (outrate <=? 0)
      then Raise (mkExn audioop_error "sampling rate not > 0")
      else
        let g := Z.gcd inrate outrate in
        let i := inrate / g in
        let o := outrate / g in
        Ok (flat_map put16 (ratecv_loop i o l (- o) 0 0))
  end.

End audioop.

(* ================================================================== *)
(** ** [app.py]: the audio transcoder                                  *)
(* ================================================================== *)

Module transcoder.

(** Twilio (mu-law 8k) -> Azure (PCM16 24k). *)
Definition resample_mulaw_8k_to_pcm_24k (mulaw_chunk : bytes) : outcome bytes :=
  let? pcm_8k := audioop.ulaw2lin mulaw_chunk in
  let? pcm_24k := audioop.ratecv pcm_8k 8000 24000 in
  Ok pcm_24k.

(** Azure (PCM16 24k) -> Twilio (mu-law 8k). *)
Definition resample_pcm_24k_to_mulaw_8k (pcm_chunk_24k : bytes) : outcome bytes :=
  let? pcm_8k := audioop.ratecv pcm_chunk_24k 24000 8000 in
  let? mulaw_code := audioop.lin2ulaw pcm_8k in
  Ok mulaw_code.

End transcoder.

(* ================================================================== *)
(** ** The Python runtime and the collaborators                        *)
(* ================================================================== *)

(** The reply of the search or embedding service to one request. *)
Record response : Type := mkResponse {
  status_code : Z;
  response_json : outcome value          (* [response.json()] *)
}.

(** What the sources take from outside: the process environment, library
    functions whose results they only pass on, and the HTTP collaborators.
    Every theorem holds for every runtime. *)
Record runtime : Type := mkRuntime {
  getenv : string -> option string;                    (* [os.getenv] *)
  str : value -> string;                               (* [str()], f-strings *)
  json_loads : string -> outcome value;                (* [json.loads] *)
  b64decode : string -> outcome bytes;                 (* [base64.b64decode] *)
  b64encode : bytes -> string;                         (* [base64.b64encode] *)
  requests_post :                                      (* [requests.post] *)
    string -> value -> value -> Z -> outcome response
}.

(* ================================================================== *)
(** ** [real_estate_tools.py]                                          *)
(* ================================================================== *)

Module real_estate_tools.
Section Tools.
Variable R : runtime.

Definition getenv_default (name default : string) : string :=
  match getenv R name with Some s => s | None => default end.

Definition SEARCH_ENDPOINT := getenv R "AZURE_SEARCH_ENDPOINT".
Definition SEARCH_API_KEY := getenv R "AZURE_SEARCH_API_KEY".
Definition INDEX_NAME :=
  getenv_default "AZURE_SEARCH_INDEX_NAME" "ezdan-properties".
Definition OPENAI_ENDPOINT := getenv R "AZURE_OPENAI_ENDPOINT".
Definition OPENAI_API_KEY := getenv R "AZURE_OPENAI_API_KEY".
Definition EMBEDDING_DEPLOYMENT :=
  getenv_default "AZURE_OPENAI_EMBEDDING_DEPLOYMENT" "text-embedding-3-large".

Definition SEARCH_API_VERSION := "2024-07-01".
Definition OPENAI_API_VERSION := "2024-02-01".
Definition EMBEDDING_DIMENSIONS := 3072.

(** [not X] on a configuration value. *)
Definition unset (o : option string) : bool := negb (truthy (env_value o)).

Definition _get_search_headers : value :=
  PDict [("Content-Type", PStr "application/json");
         ("api-key", env_value SEARCH_API_KEY)].

Definition _get_openai_headers : value :=
  PDict [("Content-Type", PStr "application/json");
         ("api-key", env_value OPENAI_API_KEY)].

(** The embedding vector of [text], or [None] on any failure. *)
Definition _generate_embedding (text : value) : value :=
  if unset OPENAI_ENDPOINT || unset OPENAI_API_KEY then PNone
  else
    let attempt :=
      let url :=
        format_env OPENAI_ENDPOINT ++ "/openai/deployments/"
          ++ EMBEDDING_DEPLOYMENT ++ "/embeddings?api-version="
          ++ OPENAI_API_VERSION in
      let payload :=
        PDict [("input", text); ("dimensions", PInt EMBEDDING_DIMENSIONS)] in
      let? response := requests_post R url _get_openai_headers payload 10 in
      if status_code response =? 200 then
        let? result := response_json response in
        let? data := getitem result "data" in
        let? first := getitem0 data in
        getitem first "embedding"
      else Ok PNone in
    match attempt with
    | Ok v => v
    | Raise _ => PNone
    end.

Definition search_url : string :=
  format_env SEARCH_ENDPOINT ++ "/indexes/" ++ INDEX_NAME
    ++ "/docs/search?api-version=" ++ SEARCH_API_VERSION.

Definition vector_queries (embedding : value) (k : Z) : value :=
  PList [PDict [("kind", PStr "vector");
                ("vector", embedding);
                ("fields", PStr "content_vector");
                ("k", PInt k)]].

(** One listing reduced to the fields read aloud. *)
Definition format_listing (prop : value) : outcome value :=
  let? reference := get prop "reference_number" PNone in
  let? title := get prop "title" PNone in
  let? type := get prop "property_type" PNone in
  let? location := get prop "location" PNone in
  let? price := get prop "price" PNone in
  let? bedrooms := get prop "bedrooms" PNone in
  let? bathrooms := get prop "bathrooms" PNone in
  Ok (PDict [("reference", reference); ("title", title); ("type", type);
             ("location", location); ("price_qar", price);
             ("bedrooms", bedrooms); ("bathrooms", bathrooms)]).

Definition search_filters
           (property_type location min_price max_price bedrooms : value)
  : list string :=
  let by_type :=
    if truthy property_type
    then ["property_type eq '" ++ str R property_type ++ "'"] else [] in
  let by_location :=
    if truthy location
    then ["search.ismatch('" ++ str R location ++ "', 'location')"]
    else [] in
  let by_min :=
    if is_none min_price then [] else ["price ge " ++ str R min_price] in
  let by_max :=
    if is_none max_price then [] else ["price le " ++ str R max_price] in
  let by_bedrooms :=
    if is_none bedrooms then [] else ["bedrooms eq " ++ str R bedrooms] in
  (by_type ++ by_location ++ by_min ++ by_max ++ by_bedrooms)%list.

Definition search_payload (query : value) (filters : list string) : value :=
  let payload :=
    [("search", query);
     ("top", PInt 10);
     ("select",
      PStr "id,reference_number,title,property_type,location,price,bedrooms,bathrooms,url");
     ("count", PBool true);
     ("queryType", PStr "simple")] in
  let query_embedding := _generate_embedding query in
  let payload :=
    if truthy query_embedding
    then setitem "vectorQueries" (vector_queries query_embedding 10) payload
    else payload in
  let payload :=
    match filters with
    | [] => payload
    | _ => setitem "filter" (PStr (join " and " filters)) payload
    end in
  PDict payload.

(** Hybrid search; the JSON text handed back to the agent. *)
Definition search_properties
           (query property_type location min_price max_price bedrooms : value)
  : outcome json_text :=
  if unset SEARCH_ENDPOINT || unset SEARCH_API_KEY
  then Ok (json_dumps (PDict [("error", PStr "Search service not configured")]))
  else
    let url := search_url in
    let filters :=
      search_filters property_type location min_price max_price bedrooms in
    let payload := search_payload query filters in
    otry
      (let? response := requests_post R url _get_search_headers payload 15 in
       if status_code response =? 200 then
         let? result := response_json response in
         let? properties := get result "value" (PList []) in
         let? total_count := get result "@odata.count" (PInt 0) in
         if negb (truthy properties) then
           Ok (json_dumps
                 (PDict [("found", PInt 0);
                         ("message",
                          PStr "No properties found matching your criteria.")]))
         else
           let? items := iter properties in
           let? formatted_properties := omapM format_listing items in
           Ok (json_dumps
                 (PDict [("found", total_count);
                         ("showing",
                          PInt (Z.of_nat (List.length formatted_properties)));
                         ("properties", PList formatted_properties)]))
       else
         Ok (json_dumps
               (PDict [("error",
                        PStr ("Search failed: "
                                ++ str R (PInt (status_code response))))])))
      (fun e =>
         Ok (json_dumps
               (PDict [("error", PStr ("Search error: " ++ exn_msg e))]))).

Definition details_payload (reference_number : value) : value :=
  let payload :=
    [("search", reference_number);
     ("searchFields", PStr "reference_number");
     ("top", PInt 1);
     ("select",
      PStr "id,reference_number,title,property_type,location,price,bedrooms,bathrooms,url,image_url")] in
  let query_embedding :=
    _generate_embedding
      (PStr ("property reference " ++ str R reference_number)) in
  PDict (if truthy query_embedding
         then setitem "vectorQueries" (vector_queries query_embedding 1) payload
         else payload).

Definition format_details (prop : value) : outcome value :=
  let? reference := get prop "reference_number" PNone in
  let? title := get prop "title" PNone in
  let? type := get prop "property_type" PNone in
  let? location := get prop "location" PNone in
  let? price := get prop "price" PNone in
  let? bedrooms := get prop "bedrooms" PNone in
  let? bathrooms := get prop "bathrooms" PNone in
  let? url := get prop "url" PNone in
  Ok (PDict [("reference", reference); ("title", title); ("type", type);
             ("location", location); ("price_qar", price);
             ("bedrooms", bedrooms); ("bathrooms", bathrooms);
             ("url", url)]).

(** Lookup of one listing by its reference number. *)
Definition get_property_details (reference_number : value)
  : outcome json_text :=
  if unset SEARCH_ENDPOINT || unset SEARCH_API_KEY
  then Ok (json_dumps (PDict [("error", PStr "Search service not configured")]))
  else
    let url := search_url in
    let payload := details_payload reference_number in
    otry
      (let? response := requests_post R url _get_search_headers payload 10 in
       if status_code response =? 200 then
         let? result := response_json response in
         let? properties := get result "value" (PList []) in
         if negb (truthy properties) then
           Ok (json_dumps
                 (PDict [("found", PBool false);
                         ("message",
                          PStr ("No property found with reference number "
                                  ++ str R reference_number))]))
         else
           let? prop := getitem0 properties in
           let? details := format_details prop in
           Ok (json_dumps
                 (PDict [("found", PBool true); ("property", details)]))
       else
         Ok (json_dumps
               (PDict [("error",
                        PStr ("Lookup failed: "
                                ++ str R (PInt (status_code response))))])))
      (fun e =>
         Ok (json_dumps
               (PDict [("error", PStr ("Lookup error: " ++ exn_msg e))]))).

End Tools.
End real_estate_tools.

(* ================================================================== *)
(** ** Effects of [app.py]: sockets, log, spawned tasks                *)
(* ================================================================== *)

Module effects.

Inductive level : Type := INFO | WARNING | ERROR.

(** Commands of the agent connection. *)
Inductive command : Type :=
| session_update               (* [connection.session.update(session=..)] *)
| input_audio_buffer_append (audio : value)
| input_audio_buffer_commit
| response_create
| response_cancel
| conversation_item_create (call_id : value) (output : json_text).

(** What a coroutine does to the outside, in the order it does it. *)
Inductive effect : Type :=
| ToAgent (c : command)                    (* a command the agent received *)
| ToClient (message : value)               (* [client_ws.send_json] *)
| CloseClient                              (* [client_ws.close] *)
| Log (lvl : level) (msg : string)
| CreateTask (call_id name : value) (arguments : string).
                                           (* [asyncio.create_task(handle_tool_call(..))] *)

(** The outcomes of the socket operations still to come: [Some e] makes the
    next operation raise [e]; past the end of the list every operation
    succeeds. *)
Definition faults := list (option exn).

Record ran (A : Type) : Type := mkRan {
  result : outcome A;
  effects : list effect;
  pending : faults
}.
Arguments mkRan {A} _ _ _.
Arguments result {A} _.
Arguments effects {A} _.
Arguments pending {A} _.

(** A coroutine body: it may raise, and it leaves the effects it had. *)
Definition IO (A : Type) : Type := faults -> ran A.

Definition ret {A} (a : A) : IO A := fun f => mkRan (Ok a) [] f.

Definition raise {A} (e : exn) : IO A := fun f => mkRan (Raise e) [] f.

Definition bind {A B} (m : IO A) (k : A -> IO B) : IO B :=
  fun f =>
    let r := m f in
    match result r with
    | Ok a =>
        let r' := k a (pending r) in
        mkRan (result r') (effects r ++ effects r')%list (pending r')
    | Raise e => mkRan (Raise e) (effects r) (pending r)
    end.

Definition lift {A} (c : outcome A) : IO A :=
  match c with
  | Ok a => ret a
  | Raise e => raise e
  end.

(** [try: m  except Exception as e: h e]. *)
Definition try_except {A} (m : IO A) (h : exn -> IO A) : IO A :=
  fun f =>
    let r := m f in
    match result r with
    | Ok a => r
    | Raise e =>
        let r' := h e (pending r) in
        mkRan (result r') (effects r ++ effects r')%list (pending r')
    end.

Definition log (lvl : level) (msg : string) : IO unit :=
  fun f => mkRan (Ok tt) [Log lvl msg] f.

Definition create_task (call_id name : value) (arguments : string) : IO unit :=
  fun f => mkRan (Ok tt) [CreateTask call_id name arguments] f.

(** An awaited operation on one of the two sockets. *)
Definition io (e : effect) : IO unit :=
  fun f =>
    match f with
    | Some ex :: rest => mkRan (Raise ex) [] rest
    | None :: rest => mkRan (Ok tt) [e] rest
    | [] => mkRan (Ok tt) [e] []
    end.

End effects.

Export effects.

Declare Scope io_scope.
Delimit Scope io_scope with io.
Notation "x <- c1 ;; c2" := (bind c1 (fun x => c2))
  (at level 61, c1 at next level, right associativity) : io_scope.
Notation "c1 ;; c2" := (bind c1 (fun _ => c2))
  (at level 61, right associativity) : io_scope.
Local Open Scope io_scope.

(* ================================================================== *)
(** ** [app.py]: the tool dispatcher                                   *)
(* ================================================================== *)

Module dispatcher.
Section Dispatcher.
Variable R : runtime.

Definition rule : string := repeat_str "=" 50.

(** The summary lines for the first listings of a search result. *)
Fixpoint log_listings (i : Z) (props : list value) : IO unit :=
  match props with
  | [] => ret tt
  | prop :: rest =>
      title <- lift (get prop "title" (PStr "N/A")) ;;
      short <- lift (slice_to 40 title) ;;
      location <- lift (get prop "location" PNone) ;;
      price <- lift (get prop "price_qar" PNone) ;;
      log INFO ("   [" ++ str R (PInt (i + 1)) ++ "] " ++ str R short
                  ++ "... | " ++ str R location ++ " | " ++ str R price
                  ++ " QAR") ;;
      log_listings (i + 1) rest
  end.

Definition search_branch (args : value) : IO json_text :=
  query <- lift (get args "query" (PStr "N/A")) ;;
  log INFO ("   Query: " ++ str R query) ;;
  location <- lift (get args "location" (PStr "Any")) ;;
  log INFO ("   Location: " ++ str R location) ;;
  property_type <- lift (get args "property_type" (PStr "Any")) ;;
  log INFO ("   Type: " ++ str R property_type) ;;
  bedrooms <- lift (get args "bedrooms" (PStr "Any")) ;;
  log INFO ("   Bedrooms: " ++ str R bedrooms) ;;
  min_price <- lift (get args "min_price" (PStr "Min")) ;;
  max_price <- lift (get args "max_price" (PStr "Max")) ;;
  log INFO ("   Price: " ++ str R min_price ++ "-" ++ str R max_price
              ++ " QAR") ;;
  query <- lift (get args "query" (PStr EmptyString)) ;;
  property_type <- lift (get args "property_type" (PStr EmptyString)) ;;
  location <- lift (get args "location" (PStr EmptyString)) ;;
  min_price <- lift (get args "min_price" PNone) ;;
  max_price <- lift (get args "max_price" PNone) ;;
  bedrooms <- lift (get args "bedrooms" PNone) ;;
  result_json <- lift (real_estate_tools.search_properties
                         R query property_type location
                         min_price max_price bedrooms) ;;
  let result_data := json_loads_text result_json in
  found <- lift (get result_data "found" (PInt 0)) ;;
  log INFO ("📊 SEARCH RESULTS: " ++ str R found ++ " properties found") ;;
  positive <- lift (gt_int found 0) ;;
  listed <- (if positive then lift (contains "properties" result_data)
             else ret false) ;;
  (if listed then
     properties <- lift (getitem result_data "properties") ;;
     first3 <- lift (slice_to 3 properties) ;;
     props <- lift (iter first3) ;;
     log_listings 0 props ;;
     more <- lift (gt_int found 3) ;;
     if more then
       rest <- lift (sub_int found 3) ;;
       log INFO ("   ... and " ++ str R rest ++ " more")
     else ret tt
   else ret tt) ;;
  ret result_json.

Definition details_branch (args : value) : IO json_text :=
  reference_number <- lift (get args "reference_number" (PStr EmptyString)) ;;
  log INFO ("   Reference: " ++ str R reference_number) ;;
  result_json <- lift (real_estate_tools.get_property_details
                         R reference_number) ;;
  let result_data := json_loads_text result_json in
  found <- lift (get result_data "found" PNone) ;;
  (if truthy found then
     prop <- lift (get result_data "property" (PDict [])) ;;
     title <- lift (get prop "title" (PStr "N/A")) ;;
     log INFO ("📊 PROPERTY FOUND: " ++ str R title)
   else log INFO "📊 PROPERTY NOT FOUND") ;;
  ret result_json.

(** The body of the [try] block. *)
Definition dispatch (call_id name : value) (arguments : string) : IO unit :=
  args <- lift (json_loads R arguments) ;;
  result_json <-
    (if eq_str name "search_properties" then search_branch args
     else if eq_str name "get_property_details" then details_branch args
     else
       let result_json :=
         json_dumps (PDict [("error", PStr "Unknown tool called.")]) in
       log WARNING ("⚠️ Unknown tool: " ++ str R name) ;;
       ret result_json) ;;
  log INFO rule ;;
  io (ToAgent (conversation_item_create call_id result_json)) ;;
  io (ToAgent response_create).

Definition handle_tool_call (call_id name : value) (arguments : string)
  : IO unit :=
  log INFO rule ;;
  log INFO ("🔧 TOOL CALL: " ++ str R name) ;;
  log INFO ("📥 ARGUMENTS: " ++ arguments) ;;
  try_except
    (dispatch call_id name arguments)
    (fun tool_err =>
       log ERROR ("❌ Tool execution failed: " ++ exn_msg tool_err) ;;
       log ERROR rule).

End Dispatcher.
End dispatcher.

(* ================================================================== *)
(** ** [app.py]: the session bridge                                    *)
(* ================================================================== *)

Module bridge.

(** The variables the three coroutines of one call share. *)
Record closure : Type := mkClosure {
  stream_sid : value;          (* telephony only; [None] until a start *)
  start_event : bool;          (* the [asyncio.Event] has been set *)
  start_time : float           (* telephony only; [0] until a start *)
}.

Definition initial : closure := mkClosure PNone false (float_of_int 0).

(** What [receive_text] gives the client-to-agent loop: a text, handled
    while the event-loop clock reads [now], or an exception. *)
Inductive incoming : Type :=
| Message (now : float) (data : string)
| ReceiveError (e : exn).

(** An item of the agent's event stream, by [event.type], with the
    attributes the bridge reads. *)
Inductive server_event : Type :=
| CONVERSATION_ITEM_INPUT_AUDIO_TRANSCRIPTION_COMPLETED (transcript : string)
| RESPONSE_TEXT_DONE (text : string)
| RESPONSE_AUDIO_DELTA (delta : bytes)
| INPUT_AUDIO_BUFFER_SPEECH_STARTED
| INPUT_AUDIO_BUFFER_SPEECH_STOPPED
| RESPONSE_FUNCTION_CALL_ARGUMENTS_DONE
    (call_id name : value) (arguments : string)
| OTHER_EVENT.

Inductive loop_control : Type := Continue | Break.

(** How far a forwarding loop has come on the input given so far. *)
Inductive progress : Type :=
| Receiving                    (* suspended in the next receive *)
| Returned.                    (* the coroutine has returned *)

Definition nonempty (b : bytes) : bool :=
  match b with [] => false | _ => true end.

(** [base64.b64decode(obj)]: only a string is decoded. *)
Definition base64_b64decode (R : runtime) (obj : value) : outcome bytes :=
  match obj with
  | PStr s => b64decode R s
  | _ =>
      Raise (mkExn TypeError
                   ("argument should be a bytes-like object or ASCII string, not '"
                      ++ type_name obj ++ "'"))
  end.

(** The literal [1.2]: the float nearest to 12/10, which is
    5404319552844595 * 2^-52 (0x1.3333333333333p+0). *)
Definition gate : float := S754_finite false 5404319552844595 (-52).

(** [now - start_time < 1.2], on floats. *)
Definition gated (now start : float) : bool :=
  float_lt (float_sub now start) gate.

Module run_browser_agent.
Section Browser.
Variable R : runtime.

(** One turn of the [while True] of [forward_to_azure]. *)
Definition on_message (c : closure) (data : string)
  : IO (loop_control * closure) :=
  message <- lift (json_loads R data) ;;
  type <- lift (getitem message "type") ;;
  if eq_str type "start" then
    ret (Continue, mkClosure (stream_sid c) true (start_time c))
  else
    audio <- (if eq_str type "audio"
              then payload <- lift (getitem message "payload") ;;
                   ret (truthy payload)
              else ret false) ;;
    if audio then
      payload <- lift (getitem message "payload") ;;
      io (ToAgent (input_audio_buffer_append payload)) ;;
      ret (Continue, c)
    else if eq_str type "commit" then
      io (ToAgent input_audio_buffer_commit) ;;
      ret (Continue, c)
    else ret (Continue, c).

Definition disconnected : IO unit := log INFO "WebSocket disconnected.".

(** What follows [connect(..)] in the [async with], up to the
    [asyncio.gather]; the session configuration is a constant. *)
Definition configure : IO unit :=
  log INFO "Azure Connected (Browser Session)." ;;
  io (ToAgent session_update).

(** One turn of the [async for] of [forward_to_client]. *)
Definition on_event (c : closure) (event : server_event) : IO unit :=
  match event with
  | CONVERSATION_ITEM_INPUT_AUDIO_TRANSCRIPTION_COMPLETED transcript =>
      if String.eqb transcript EmptyString then ret tt
      else log INFO ("🎤 USER: " ++ transcript)
  | RESPONSE_TEXT_DONE text =>
      if String.eqb text EmptyString then ret tt
      else log INFO ("🤖 SARA: " ++ text)
  | RESPONSE_AUDIO_DELTA delta =>
      if nonempty delta then
        let encoded := b64encode R delta in
        io (ToClient (PDict [("type", PStr "audio");
                             ("payload", PStr encoded)]))
      else ret tt
  | INPUT_AUDIO_BUFFER_SPEECH_STARTED =>
      log INFO "🎙️ User started speaking..." ;;
      io (ToClient (PDict [("type", PStr "clear_audio")])) ;;
      io (ToAgent response_cancel)
  | INPUT_AUDIO_BUFFER_SPEECH_STOPPED =>
      log INFO "🎙️ User stopped speaking"
  | RESPONSE_FUNCTION_CALL_ARGUMENTS_DONE call_id name arguments =>
      if truthy call_id then create_task call_id name arguments
      else ret tt
  | OTHER_EVENT => ret tt
  end.

Definition session_error (e : exn) : IO unit :=
  log ERROR ("Browser Session Error: " ++ exn_msg e) ;;
  io CloseClient.

End Browser.
End run_browser_agent.

Module run_twilio_agent.
Section Twilio.
Variable R : runtime.

(** One turn of the [while True] of [forward_to_azure], with the clock at
    [now].  [packet['event']] is read once here; the source reads it again
    in each [elif], with the same result. *)
Definition on_message (c : closure) (now : float) (data : string)
  : IO (loop_control * closure) :=
  packet <- lift (json_loads R data) ;;
  event <- lift (getitem packet "event") ;;
  if eq_str event "start" then
    start <- lift (getitem packet "start") ;;
    sid <- lift (getitem start "streamSid") ;;
    log INFO ("Twilio Stream Started: " ++ str R sid) ;;
    ret (Continue, mkClosure sid true now)
  else if eq_str event "media" then
    if gated now (start_time c) then ret (Continue, c)
    else
      media <- lift (getitem packet "media") ;;
      payload <- lift (getitem media "payload") ;;
      mulaw_payload <- lift (base64_b64decode R payload) ;;
      pcm_24k <- lift (transcoder.resample_mulaw_8k_to_pcm_24k
                         mulaw_payload) ;;
      let pcm_b64 := b64encode R pcm_24k in
      io (ToAgent (input_audio_buffer_append (PStr pcm_b64))) ;;
      ret (Continue, c)
  else if eq_str event "stop" then
    log INFO "Twilio Stream Stopped." ;;
    ret (Break, c)
  else ret (Continue, c).

Definition disconnected : IO unit :=
  log INFO "Twilio WebSocket disconnected.".

(** What follows [connect(..)] in the [async with], up to the
    [asyncio.gather]; the session configuration is a constant. *)
Definition configure : IO unit :=
  log INFO "Azure Connected (Twilio Session)." ;;
  io (ToAgent session_update).

(** One turn of the [async for] of [forward_to_client]. *)
Definition on_event (c : closure) (event : server_event) : IO unit :=
  match event with
  | RESPONSE_AUDIO_DELTA delta =>
      if nonempty delta && truthy (stream_sid c) then
        mulaw_chunk <- lift (transcoder.resample_pcm_24k_to_mulaw_8k delta) ;;
        let payload_b64 := b64encode R mulaw_chunk in
        io (ToClient (PDict [("event", PStr "media");
                             ("streamSid", stream_sid c);
                             ("media",
                              PDict [("payload", PStr payload_b64)])]))
      else ret tt
  | INPUT_AUDIO_BUFFER_SPEECH_STARTED =>
      (if truthy (stream_sid c) then
         io (ToClient (PDict [("event", PStr "clear");
                              ("streamSid", stream_sid c)]))
       else ret tt) ;;
      io (ToAgent response_cancel)
  | RESPONSE_FUNCTION_CALL_ARGUMENTS_DONE call_id name arguments =>
      if truthy call_id then create_task call_id name arguments
      else ret tt
  | _ => ret tt
  end.

Definition session_error (e : exn) : IO unit :=
  log ERROR ("Twilio Session Error: " ++ exn_msg e) ;;
  io CloseClient.

End Twilio.
End run_twilio_agent.

(** The two kinds of call. *)
Inductive variant : Type := Browser | Twilio.

Section Loops.
Variable R : runtime.
Variable v : variant.

Definition on_message (c : closure) (now : float) (data : string)
  : IO (loop_control * closure) :=
  match v with
  | Browser => run_browser_agent.on_message R c data
  | Twilio => run_twilio_agent.on_message R c now data
  end.

Definition on_event (c : closure) (event : server_event) : IO unit :=
  match v with
  | Browser => run_browser_agent.on_event R c event
  | Twilio => run_twilio_agent.on_event R c event
  end.

Definition disconnected : IO unit :=
  match v with
  | Browser => run_browser_agent.disconnected
  | Twilio => run_twilio_agent.disconnected
  end.

Definition session_error (e : exn) : IO unit :=
  match v with
  | Browser => run_browser_agent.session_error e
  | Twilio => run_twilio_agent.session_error e
  end.

Definition configure : IO unit :=
  match v with
  | Browser => run_browser_agent.configure
  | Twilio => run_twilio_agent.configure
  end.

(** One turn of [forward_to_azure] under its
    [try: ... except WebSocketDisconnect:]: the receive, the handling of
    the text, and the handler of a disconnect raised by either. *)
Definition forward_to_azure_turn (c : closure) (inc : incoming)
  : IO (progress * closure) :=
  try_except
    (match inc with
     | ReceiveError e => raise e
     | Message now data =>
         r <- on_message c now data ;;
         match fst r with
         | Continue => ret (Receiving, snd r)
         | Break => ret (Returned, snd r)
         end
     end)
    (fun e =>
       if exn_class_eqb (exn_cls e) WebSocketDisconnect
       then disconnected ;; ret (Returned, c)
       else raise e).

(** [forward_to_azure] on the texts the client sends, in order. *)
Fixpoint forward_to_azure (c : closure) (input : list incoming)
  : IO (progress * closure) :=
  match input with
  | [] => ret (Receiving, c)
  | inc :: rest =>
      r <- forward_to_azure_turn c inc ;;
      match fst r with
      | Receiving => forward_to_azure (snd r) rest
      | Returned => ret r
      end
  end.

(** [forward_to_client] on the events the agent sends, in order, with the
    shared variables as they stand. *)
Fixpoint forward_to_client (c : closure) (events : list server_event)
  : IO unit :=
  match events with
  | [] => ret tt
  | event :: rest => on_event c event ;; forward_to_client c rest
  end.

End Loops.

(** *** The body of [run_*_agent] and its three coroutines, interleaved *)

Inductive task : Type :=
| forward_to_azure_task
| forward_to_client_task
| send_initial_greeting_task
| handle_tool_call_task
| run_agent_task.                (* the body of [run_*_agent] itself *)

(** Where the [try] of [run_*_agent] stands. *)
Inductive setup : Type :=
| Connecting                   (* in [AzureKeyCredential(..)] or [connect(..)] *)
| Gathering                    (* in [asyncio.gather(..)] *)
| SetupFailed (e : exn).       (* the credential, [connect(..)] or
                                  [session.update(..)] raised [e] *)

(** Where [send_initial_greeting] stands. *)
Inductive greeting : Type :=
| Unscheduled                  (* before the [asyncio.gather] *)
| AwaitingStart                (* in [start_event.wait()] *)
| Sleeping                     (* telephony: in [asyncio.sleep(0.05)] *)
| Creating                     (* about to await [response.create()] *)
| Greeted                      (* returned *)
| GreetingFailed (e : exn).

Inductive activity : Type :=
| Unstarted                    (* before the [asyncio.gather] *)
| Running
| Finished
| Failed (e : exn).

(** What has happened in a call so far, oldest first. *)
Inductive entry : Type :=
| Received (inc : incoming)
| Heard (event : server_event)
| Did (t : task) (e : effect).

Record session : Type := mkSession {
  stage : setup;
  vars : closure;
  to_azure : activity;
  to_client : activity;
  greeter : greeting;
  tool_tasks : list (value * value * string);     (* created, not yet run *)
  socket_faults : faults;
  torn_down : bool;            (* the [except Exception] of the call ran *)
  history : list entry
}.

(** A call as it enters the [try] of [run_*_agent]: the client socket is
    accepted, the agent is not yet connected, no coroutine exists. *)
Definition start_session (f : faults) : session :=
  mkSession Connecting initial Unstarted Unstarted Unscheduled [] f false [].

Definition did (t : task) (l : list effect) : list entry := map (Did t) l.

(** The tasks an event handler created. *)
Fixpoint created (l : list effect) : list (value * value * string) :=
  match l with
  | [] => []
  | CreateTask call_id name arguments :: r =>
      (call_id, name, arguments) :: created r
  | _ :: r => created r
  end.

Definition after_wait (v : variant) : greeting :=
  match v with Browser => Creating | Twilio => Sleeping end.

Section Session.
Variable R : runtime.
Variable v : variant.

(** One scheduling step of the event loop for this call.  A coroutine runs
    from one suspension point to the next.  The credential or [connect(..)]
    may raise any exception; once connected, the session is configured and
    the three coroutines are started. *)
Inductive step : session -> session -> Prop :=
| step_connect_error s e :
    stage s = Connecting ->
    step s (mkSession (SetupFailed e) (vars s) (to_azure s) (to_client s)
                      (greeter s) (tool_tasks s) (socket_faults s)
                      (torn_down s) (history s))
| step_connected s r :
    stage s = Connecting ->
    r = configure v (socket_faults s) ->
    step s (mkSession
              (match result r with
               | Ok _ => Gathering
               | Raise e => SetupFailed e
               end)
              (vars s)
              (match result r with Ok _ => Running | Raise _ => to_azure s end)
              (match result r with Ok _ => Running | Raise _ => to_client s end)
              (match result r with
               | Ok _ => AwaitingStart
               | Raise _ => greeter s
               end)
              (tool_tasks s) (pending r) (torn_down s)
              (history s ++ did run_agent_task (effects r)))
| step_receive s inc r :
    to_azure s = Running ->
    r = forward_to_azure_turn R v (vars s) inc (socket_faults s) ->
    step s (mkSession
              (stage s)
              (match result r with Ok pc => snd pc | Raise _ => vars s end)
              (match result r with
               | Ok (Receiving, _) => Running
               | Ok (Returned, _) => Finished
               | Raise e => Failed e
               end)
              (to_client s) (greeter s) (tool_tasks s) (pending r)
              (torn_down s)
              (history s ++ Received inc
                 :: did forward_to_azure_task (effects r)))
| step_event s event r :
    to_client s = Running ->
    r = on_event R v (vars s) event (socket_faults s) ->
    step s (mkSession
              (stage s) (vars s) (to_azure s)
              (match result r with Ok _ => Running | Raise e => Failed e end)
              (greeter s) (tool_tasks s ++ created (effects r))
              (pending r) (torn_down s)
              (history s ++ Heard event
                 :: did forward_to_client_task (effects r)))
| step_stream_end s :
    to_client s = Running ->
    step s (mkSession (stage s) (vars s) (to_azure s) Finished (greeter s)
                      (tool_tasks s) (socket_faults s) (torn_down s)
                      (history s))
| step_stream_error s e :
    to_client s = Running ->
    step s (mkSession (stage s) (vars s) (to_azure s) (Failed e) (greeter s)
                      (tool_tasks s) (socket_faults s) (torn_down s)
                      (history s))
| step_greeting_wakes s :
    greeter s = AwaitingStart ->
    start_event (vars s) = true ->
    step s (mkSession (stage s) (vars s) (to_azure s) (to_client s)
                      (after_wait v)
                      (tool_tasks s) (socket_faults s) (torn_down s)
                      (history s))
| step_greeting_slept s :
    greeter s = Sleeping ->
    step s (mkSession (stage s) (vars s) (to_azure s) (to_client s) Creating
                      (tool_tasks s) (socket_faults s) (torn_down s)
                      (history s))
| step_greeting_creates s r :
    greeter s = Creating ->
    r = io (ToAgent response_create) (socket_faults s) ->
    step s (mkSession
              (stage s) (vars s) (to_azure s) (to_client s)
              (match result r with
               | Ok _ => Greeted
               | Raise e => GreetingFailed e
               end)
              (tool_tasks s) (pending r) (torn_down s)
              (history s ++ did send_initial_greeting_task (effects r)))
| step_tool s before call_id name arguments rest r :
    tool_tasks s = (before ++ (call_id, name, arguments) :: rest)%list ->
    r = dispatcher.handle_tool_call R call_id name arguments
                                    (socket_faults s) ->
    step s (mkSession
              (stage s) (vars s) (to_azure s) (to_client s) (greeter s)
              (before ++ rest) (pending r) (torn_down s)
              (history s ++ did handle_tool_call_task (effects r)))
| step_teardown s e r :
    torn_down s = false ->
    (to_azure s = Failed e \/ to_client s = Failed e
     \/ greeter s = GreetingFailed e \/ stage s = SetupFailed e) ->
    r = session_error v e (socket_faults s) ->
    step s (mkSession
              (stage s) (vars s) (to_azure s) (to_client s) (greeter s)
              (tool_tasks s) (pending r) true
              (history s ++ did run_agent_task (effects r))).

(** The states a call can be in. *)
Inductive reachable : session -> Prop :=
| reachable_start f : reachable (start_session f)
| reachable_step s s' : reachable s -> step s s' -> reachable s'.

(** Zero or more steps. *)
Inductive run : session -> session -> Prop :=
| run_here s : run s s
| run_on s s' s'' : step s s' -> run s' s'' -> run s s''.

End Session.

(** The greeting commands in a history. *)
Definition is_greeting (x : entry) : bool :=
  match x with
  | Did send_initial_greeting_task (ToAgent response_create) => true
  | _ => false
  end.

Definition greetings (h : list entry) : nat :=
  List.length (filter is_greeting h).

(** A text that signals readiness: a start message (browser) or a start
    envelope carrying a stream identifier (telephony). *)
Definition is_readiness (R : runtime) (v : variant) (x : entry) : bool :=
  match x with
  | Received (Message _ data) =>
      match json_loads R data with
      | Ok packet =>
          match v with
          | Browser =>
              match getitem packet "type" with
              | Ok t => eq_str t "start"
              | Raise _ => false
              end
          | Twilio =>
              match getitem packet "event", getitem packet "start" with
              | Ok ev, Ok start =>
                  eq_str ev "start"
                  && match getitem start "streamSid" with
                     | Ok _ => true
                     | Raise _ => false
                     end
              | _, _ => false
              end
          end
      | Raise _ => false
      end
  | _ => false
  end.

End bridge.

(* ================================================================== *)
(** ** A runtime for the examples                                      *)
(* ================================================================== *)

(** One concrete runtime, used where a statement is shown on an explicit
    input.  The search service is configured and the embedding service is
    not; [json_loads] and [b64decode] accept the texts listed below and
    reject every other text the examples give them, all of which are
    malformed. *)
Module example.

Definition quote : string := String (ascii_of_nat 34) EmptyString.

(** JSON text of an object built from strings, integers, lists and dicts
    (strings without quotes or escapes; the examples hold no floats). *)
Fixpoint render (v : value) : string :=
  match v with
  | PNone => "null"
  | PBool true => "true"
  | PBool false => "false"
  | PInt z => NilZero.string_of_int (Z.to_int z)
  | PFloat _ => "0.0"
  | PStr s => quote ++ s ++ quote
  | PList l => "[" ++ join ", " (map render l) ++ "]"
  | PDict items =>
      "{"
        ++ join ", "
             (map (fun kv => quote ++ fst kv ++ quote ++ ": " ++ render (snd kv))
                  items)
        ++ "}"
  end.

(** The clock reading [tenths / 10], the float a decimal literal with one
    decimal place denotes. *)
Definition clock (tenths : Z) : float :=
  SFdiv prec emax (float_of_int tenths) (float_of_int 10).

Definition start_envelope : value :=
  PDict [("event", PStr "start");
         ("start", PDict [("streamSid", PStr "MZ18ad3ab5a668481ce02b83e7395059f0")])].

Definition media_envelope (payload : string) : value :=
  PDict [("event", PStr "media"); ("media", PDict [("payload", PStr payload)])].

Definition browser_start : value := PDict [("type", PStr "start")].

Definition search_arguments : value := PDict [("query", PStr "villa")].

Definition known_texts : list value :=
  [start_envelope; media_envelope "/w=="; media_envelope "A"; browser_start;
   search_arguments].

Definition example_json_loads (s : string) : outcome value :=
  match find (fun v => String.eqb (render v) s) known_texts with
  | Some v => Ok v
  | None => Raise (mkExn JSONDecodeError "Expecting value: line 1 column 1 (char 0)")
  end.

(** ["/w=="] is the base64 text of the single byte [0xff]; ["A"] is not
    base64 text of anything. *)
Definition example_b64decode (s : string) : outcome bytes :=
  if String.eqb s "/w==" then Ok [xff]
  else Raise (mkExn binascii_Error
               "Invalid base64-encoded string: number of data characters (1) cannot be 1 more than a multiple of 4").

Definition b64_char (n : Z) : ascii :=
  match
    String.get (Z.to_nat n)
      "ABCDEFGHIJKLMNOPQRSTUVWXYZabcdefghijklmnopqrstuvwxyz0123456789+/"
  with
  | Some c => c
  | None => "="%char
  end.

Fixpoint example_b64encode (b : bytes) : string :=
  let z := audioop.Z_of_byte in
  match b with
  | [] => EmptyString
  | [x] =>
      String (b64_char (z x / 4))
        (String (b64_char (z x mod 4 * 16)) "==")
  | [x; y] =>
      String (b64_char (z x / 4))
        (String (b64_char (z x mod 4 * 16 + z y / 16))
           (String (b64_char (z y mod 16 * 4)) "="))
  | x :: y :: w :: r =>
      String (b64_char (z x / 4))
        (String (b64_char (z x mod 4 * 16 + z y / 16))
           (String (b64_char (z y mod 16 * 4 + z w / 64))
              (String (b64_char (z w mod 64)) (example_b64encode r))))
  end.

Definition example_str (v : value) : string :=
  match v with
  | PNone => "None"
  | PBool true => "True"
  | PBool false => "False"
  | PInt z => NilZero.string_of_int (Z.to_int z)
  | PStr s => s
  | _ => EmptyString
  end.

Definition example_getenv (name : string) : option string :=
  if String.eqb name "AZURE_SEARCH_ENDPOINT"
  then Some "https://search.example.net"
  else if String.eqb name "AZURE_SEARCH_API_KEY" then Some "key"
  else None.

(** A listing the index holds without a title. *)
Definition untitled_listing : value :=
  PDict [("reference_number", PStr "EOA2-3BHK-FF-A");
         ("property_type", PStr "Apartment");
         ("location", PStr "Al Wakra");
         ("price", PInt 6500);
         ("bedrooms", PInt 3);
         ("bathrooms", PInt 2)].

(** The search service: one listing and a count for ["villa"], one listing
    and no count for ["apartment"], an empty page for any other query. *)
Definition example_requests_post
           (url : string) (headers payload : value) (timeout : Z)
  : outcome response :=
  match get payload "search" PNone with
  | Ok query =>
      if eq_str query "villa" then
        Ok (mkResponse 200
              (Ok (PDict [("@odata.count", PInt 1);
                          ("value", PList [untitled_listing])])))
      else if eq_str query "apartment" then
        Ok (mkResponse 200 (Ok (PDict [("value", PList [untitled_listing])])))
      else Ok (mkResponse 200 (Ok (PDict [("value", PList [])])))
  | Raise e => Raise e
  end.

Definition rt : runtime :=
  mkRuntime example_getenv example_str example_json_loads example_b64decode
            example_b64encode example_requests_post.

End example.

(* ================================================================== *)
(** ** Vocabulary of the properties                                    *)
(* ================================================================== *)

(** The keys by which the agent tells a listing page, a single listing, a
    failure and an empty page apart. *)
Definition answers (items : list (string * value)) : bool :=
  has_key "properties" items || has_key "property" items
  || has_key "error" items
  || (has_key "found" items && has_key "message" items).

(** The client-side clear signals of the two variants. *)
Definition clear_audio : value := PDict [("type", PStr "clear_audio")].

Definition clear (sid : value) : value :=
  PDict [("event", PStr "clear"); ("streamSid", sid)].

(** What the body of [run_*_agent] leaves in the history of a call when its
    setup goes through. *)
Definition set_up (v : bridge.variant) : list bridge.entry :=
  bridge.did bridge.run_agent_task
             [Log INFO (match v with
                        | bridge.Browser => "Azure Connected (Browser Session)."
                        | bridge.Twilio => "Azure Connected (Twilio Session)."
                        end);
              ToAgent session_update].

(** A call in its [asyncio.gather], before anything is received. *)
Definition gathering (v : bridge.variant) (f : faults) : bridge.session :=
  bridge.mkSession bridge.Gathering bridge.initial
                   bridge.Running bridge.Running bridge.AwaitingStart
                   [] f false (set_up v).

(** The greeting command as it stands in the history of a call. *)
Definition the_greeting : bridge.entry :=
  bridge.Did bridge.send_initial_greeting_task (ToAgent response_create).

(** Entries among which there is no greeting command. *)
Definition quiet (l : list bridge.entry) : Prop :=
  Forall (fun x => bridge.is_greeting x = false) l.

(* ================================================================== *)
(** ** Further vocabulary                                              *)
(* ================================================================== *)

(** Every third item of a list, after [skip] items. *)
Fixpoint decimate {A : Type} (skip : nat) (l : list A) : list A :=
  match l with
  | [] => []
  | x :: r =>
      match skip with
      | O => x :: decimate 2 r
      | S k => decimate k r
      end
  end.

(** A value reduced to a signed 16-bit sample. *)
Definition wrap16 (v : Z) : Z :=
  let u := v mod 65536 in if u <? 32768 then u else u - 65536.

Definition in16 (v : Z) : Prop := -32768 <= v <= 32767.

(** The companded byte that comes back for a companded byte: the code of
    negative zero, [0x7f], comes back as the code of zero, [0xff]. *)
Definition canonical (b : byte) : byte :=
  if Byte.eqb b x7f then xff else b.

(** The kinds of effect. *)
Definition is_log (e : effect) : bool :=
  match e with Log _ _ => true | _ => false end.

Fixpoint agent_commands (l : list effect) : list command :=
  match l with
  | [] => []
  | ToAgent c :: r => c :: agent_commands r
  | _ :: r => agent_commands r
  end.

Fixpoint client_messages (l : list effect) : list value :=
  match l with
  | [] => []
  | ToClient m :: r => m :: client_messages r
  | _ :: r => client_messages r
  end.

(** A coroutine body that touches no socket: it leaves the pending socket
    outcomes alone and its effects are log lines. *)
Definition silent {A : Type} (m : IO A) : Prop :=
  forall f,
    pending (m f) = f /\ Forall (fun e => is_log e = true) (effects (m f)).

(** The answer of a tool that failed. *)
Definition error_payload (message : string) : outcome json_text :=
  Ok (json_dumps (PDict [("error", PStr message)])).

(** The events the bridge only takes note of. *)
Definition observational (event : bridge.server_event) : bool :=
  match event with
  | bridge.CONVERSATION_ITEM_INPUT_AUDIO_TRANSCRIPTION_COMPLETED _
  | bridge.RESPONSE_TEXT_DONE _
  | bridge.INPUT_AUDIO_BUFFER_SPEECH_STOPPED
  | bridge.OTHER_EVENT => true
  | _ => false
  end.

(** An outbound audio frame of the telephony variant. *)
Definition media_frame (sid : value) (payload : string) : value :=
  PDict [("event", PStr "media");
         ("streamSid", sid);
         ("media", PDict [("payload", PStr payload)])].

(** A coroutine body all of whose effects satisfy [P], whatever the
    sockets do. *)
Definition only (P : effect -> Prop) {A : Type} (m : IO A) : Prop :=
  forall f, Forall P (effects (m f)).

(** What the client-to-agent loop may do: append or commit audio, and log. *)
Definition uplink_effect (e : effect) : Prop :=
  match e with
  | ToAgent (input_audio_buffer_append _)
  | ToAgent input_audio_buffer_commit
  | Log _ _ => True
  | _ => False
  end.

(** What the agent-to-client loop may do: write to the client, cancel the
    response, create a tool task, and log. *)
Definition downlink_effect (e : effect) : Prop :=
  match e with
  | ToClient _
  | ToAgent response_cancel
  | CreateTask _ _ _
  | Log _ _ => True
  | _ => False
  end.

(** What [handle_tool_call] may do for the call [call_id]. *)
Definition answer_effect (call_id : value) (e : effect) : Prop :=
  match e with
  | ToAgent (conversation_item_create cid _) => cid = call_id
  | ToAgent response_create
  | Log _ _ => True
  | _ => False
  end.




(** A created tool task must carry a call identifier. *)
Definition identified_task (e : effect) : Prop :=
  match e with
  | CreateTask call_id _ _ => truthy call_id = true
  | _ => True
  end.

(** The entry of a tool output in the history of a call. *)
Definition output_entry (call_id : value) (output : json_text) : bridge.entry :=
  bridge.Did bridge.handle_tool_call_task
             (ToAgent (conversation_item_create call_id output)).

(** The entry of the creation of a tool task in the history of a call. *)
Definition creation_entry (call_id name : value) (arguments : string)
  : bridge.entry :=
  bridge.Did bridge.forward_to_client_task
             (CreateTask call_id name arguments).

(* ================================================================== *)
(** * Properties                                                       *)
(* ================================================================== *)

(** ** The transcoder *)

Section TranscoderFacts.
Import audioop.

(** Induction on a byte string two bytes at a time. *)
Lemma pairs_ind {A} (P : list A -> Prop) :
  P [] -> (forall b, P [b]) ->
  (forall lo hi r, P r -> P (lo :: hi :: r)) ->
  forall l, P l.
Proof.
  intros H0 H1 H2.
  assert (both : forall l, P l /\ forall b, P (b :: l)).
  { induction l as [| a l [IHa IHb]]; split; auto. }
  intro l. apply both.
Qed.

Lemma samples16_length fragment l :
  samples16 fragment = Some l ->
  List.length fragment = (2 * List.length l)%nat.
Proof.
  revert l. induction fragment as [| b | lo hi r IH] using pairs_ind;
    intros l H; simpl in H.
  - inversion H. reflexivity.
  - discriminate.
  - destruct (samples16 r) as [l' |] eqn:E; [| discriminate].
    inversion H; subst. simpl. rewrite (IH l' eq_refl). lia.
Qed.

Lemma samples16_even fragment :
  Nat.even (List.length fragment) = true ->
  exists l, samples16 fragment = Some l.
Proof.
  induction fragment as [| b | lo hi r IH] using pairs_ind; simpl; intro H.
  - eauto.
  - discriminate.
  - destruct (IH H) as [l E]. rewrite E. eauto.
Qed.

Lemma put16_length v : List.length (put16 v) = 2%nat.
Proof. reflexivity. Qed.

Lemma flat_put16_length l :
  List.length (flat_map put16 l) = (2 * List.length l)%nat.
Proof.
  induction l as [| v l IH]; [reflexivity |].
  change (flat_map put16 (v :: l)) with (put16 v ++ flat_map put16 l)%list.
  rewrite length_app, put16_length, IH. simpl. lia.
Qed.

Lemma samples16_flat_put16 l :
  exists l', samples16 (flat_map put16 l) = Some l'
             /\ List.length l' = List.length l.
Proof.
  induction l as [| v l (l' & E & Hlen)]; [exists []; auto |].
  change (flat_map put16 (v :: l)) with (put16 v ++ flat_map put16 l)%list.
  unfold put16 at 1. cbn [app samples16]. rewrite E.
  eexists. split; [reflexivity |]. simpl. now rewrite Hlen.
Qed.

(** Downsampling three to one: the first sample of each group of three. *)
Lemma ratecv_loop_down_length input :
  forall d prev cur, -3 <= d <= -1 ->
  Z.of_nat (List.length (ratecv_loop 3 1 input d prev cur))
  = (Z.of_nat (List.length input) + (3 + d)) / 3.
Proof.
  induction input as [| s rest IH]; intros d prev cur Hd.
  - simpl. assert (C : d = -3 \/ d = -2 \/ d = -1) by lia.
    destruct C as [-> | [-> | ->]]; reflexivity.
  - assert (C : d = -3 \/ d = -2 \/ d = -1) by lia.
    destruct C as [-> | [-> | ->]]; cbn [ratecv_loop].
    + change (emit 3 1 (S (Z.to_nat (-3 + 1))) (-3 + 1) cur
                   (Z.quot (1 * (s * 65536) + 0 * cur) (1 + 0)))
        with (@nil Z, -2).
      cbn [app]. rewrite IH by lia. cbn [List.length].
      rewrite Nat2Z.inj_succ.
      replace (Z.succ (Z.of_nat (List.length rest)) + (3 + -3))
        with (Z.of_nat (List.length rest) + (3 + -2)) by lia.
      reflexivity.
    + change (emit 3 1 (S (Z.to_nat (-2 + 1))) (-2 + 1) cur
                   (Z.quot (1 * (s * 65536) + 0 * cur) (1 + 0)))
        with (@nil Z, -1).
      cbn [app]. rewrite IH by lia. cbn [List.length].
      rewrite Nat2Z.inj_succ.
      replace (Z.succ (Z.of_nat (List.length rest)) + (3 + -2))
        with (Z.of_nat (List.length rest) + (3 + -1)) by lia.
      reflexivity.
    + set (c := Z.quot (1 * (s * 65536) + 0 * cur) (1 + 0)).
      change (emit 3 1 (S (Z.to_nat (-1 + 1))) (-1 + 1) cur c)
        with ([Z.shiftr (Z.quot (cur * 0 + c * (1 - 0)) 1) 16], -3).
      cbn [app List.length]. rewrite Nat2Z.inj_succ, IH by lia.
      rewrite Nat2Z.inj_succ.
      replace (Z.succ (Z.of_nat (List.length rest)) + (3 + -1))
        with ((Z.of_nat (List.length rest) + (3 + -3)) + 1 * 3) by lia.
      rewrite Z.div_add by lia. lia.
Qed.

(** Upsampling one to three: one sample for the first input, three for
    each later one. *)
Lemma ratecv_loop_up_length_next input :
  forall prev cur,
  List.length (ratecv_loop 1 3 input (-1) prev cur)
  = (3 * List.length input)%nat.
Proof.
  induction input as [| s rest IH]; intros prev cur; [reflexivity |].
  cbn [ratecv_loop].
  set (c := Z.quot (1 * (s * 65536) + 0 * cur) (1 + 0)).
  change (emit 1 3 (S (Z.to_nat (-1 + 3))) (-1 + 3) cur c)
    with ([Z.shiftr (Z.quot (cur * 2 + c * (3 - 2)) 3) 16;
           Z.shiftr (Z.quot (cur * 1 + c * (3 - 1)) 3) 16;
           Z.shiftr (Z.quot (cur * 0 + c * (3 - 0)) 3) 16], -1).
  cbn [app List.length]. rewrite IH. lia.
Qed.

Lemma ratecv_loop_up_length input prev cur :
  List.length (ratecv_loop 1 3 input (-3) prev cur)
  = (3 * List.length input - 2)%nat.
Proof.
  destruct input as [| s rest]; [reflexivity |].
  cbn [ratecv_loop].
  set (c := Z.quot (1 * (s * 65536) + 0 * cur) (1 + 0)).
  change (emit 1 3 (S (Z.to_nat (-3 + 3))) (-3 + 3) cur c)
    with ([Z.shiftr (Z.quot (cur * 0 + c * (3 - 0)) 3) 16], -1).
  cbn [app List.length]. rewrite ratecv_loop_up_length_next. lia.
Qed.

(** Silence stays silence in the resampler. *)
Lemma emit_silence i o fuel d :
  Forall (eq 0) (fst (emit i o fuel d 0 0)).
Proof.
  revert d. induction fuel as [| fuel IH]; intro d; cbn [emit];
    [constructor |].
  destruct (d <? 0); [constructor |].
  specialize (IH (d - i)). destruct (emit i o fuel (d - i) 0 0) as [out d'].
  cbn [fst] in *. constructor; [| exact IH].
  change (0 * d + 0 * (o - d)) with 0.
  reflexivity.
Qed.

Lemma ratecv_loop_silence i o input :
  Forall (eq 0) input ->
  forall d, Forall (eq 0) (ratecv_loop i o input d 0 0).
Proof.
  induction 1 as [| s rest Hs Hrest IH]; intro d; [constructor |].
  subst s. cbn [ratecv_loop].
  change (Z.quot (1 * (0 * 65536) + 0 * 0) (1 + 0)) with 0.
  pose proof (emit_silence i o (S (Z.to_nat (d + o))) (d + o)) as He.
  destruct (emit i o (S (Z.to_nat (d + o))) (d + o) 0 0) as [out d2].
  apply Forall_app. split; [exact He | apply IH].
Qed.

Lemma samples16_silence fragment l :
  Forall (eq x00) fragment -> samples16 fragment = Some l ->
  Forall (eq 0) l.
Proof.
  revert l. induction fragment as [| b | lo hi r IH] using pairs_ind;
    intros l Hz H; simpl in H.
  - inversion H. constructor.
  - discriminate.
  - destruct (samples16 r) as [l' |] eqn:E; [| discriminate].
    inversion H; subst. inversion Hz as [| ? ? Hlo Hz']; subst.
    inversion Hz' as [| ? ? Hhi Hz'']; subst.
    constructor; [reflexivity | apply IH; auto].
Qed.

Lemma flat_put16_silence l :
  Forall (eq 0) l -> Forall (eq x00) (flat_map put16 l).
Proof.
  induction 1 as [| v l Hv Hl IH]; [constructor |].
  subst v. simpl. repeat constructor. exact IH.
Qed.

Lemma flat_map_put16_map {A} (g : A -> Z) l :
  flat_map (fun b => put16 (g b)) l = flat_map put16 (map g l).
Proof. induction l as [| a l IH]; simpl; [| rewrite IH]; reflexivity. Qed.

Lemma ratecv_up fragment l :
  samples16 fragment = Some l ->
  ratecv fragment 8000 24000
  = Ok (flat_map put16 (ratecv_loop 1 3 l (-3) 0 0)).
Proof. intro E. unfold ratecv. rewrite E. reflexivity. Qed.

Lemma ratecv_down fragment l :
  samples16 fragment = Some l ->
  ratecv fragment 24000 8000
  = Ok (flat_map put16 (ratecv_loop 3 1 l (-1) 0 0)).
Proof. intro E. unfold ratecv. rewrite E. reflexivity. Qed.

Lemma ratecv_odd fragment i o :
  samples16 fragment = None -> ratecv fragment i o = Raise not_whole_frames.
Proof. intro E. unfold ratecv. rewrite E. reflexivity. Qed.

(** The downlink conversion accepts every byte string. *)
Lemma downlink_spec (mulaw_chunk : bytes) :
  exists l,
    List.length l = List.length mulaw_chunk
    /\ (Forall (eq xff) mulaw_chunk -> Forall (eq 0) l)
    /\ transcoder.resample_mulaw_8k_to_pcm_24k mulaw_chunk
       = Ok (flat_map put16 (ratecv_loop 1 3 l (-3) 0 0)).
Proof.
  unfold transcoder.resample_mulaw_8k_to_pcm_24k, ulaw2lin.
  cbn [obind]. rewrite flat_map_put16_map.
  destruct (samples16_flat_put16 (map st_ulaw2linear16 mulaw_chunk))
    as (l & E & Hlen).
  exists l. rewrite length_map in Hlen. split; [exact Hlen |]. split.
  - intro Hs. eapply samples16_silence; [| exact E].
    apply flat_put16_silence. apply Forall_map.
    eapply Forall_impl; [| exact Hs]. intros b <-. reflexivity.
  - rewrite (ratecv_up _ _ E). reflexivity.
Qed.

(** The uplink conversion accepts the byte strings of even length. *)
Lemma uplink_spec (pcm_chunk_24k : bytes) l :
  samples16 pcm_chunk_24k = Some l ->
  exists l',
    List.length l' = List.length (ratecv_loop 3 1 l (-1) 0 0)
    /\ (Forall (eq 0) l -> Forall (eq 0) l')
    /\ transcoder.resample_pcm_24k_to_mulaw_8k pcm_chunk_24k
       = Ok (map (fun s => st_14linear2ulaw (Z.shiftr s 2)) l').
Proof.
  intro E. unfold transcoder.resample_pcm_24k_to_mulaw_8k.
  rewrite (ratecv_down _ _ E). cbn [obind]. unfold lin2ulaw.
  destruct (samples16_flat_put16 (ratecv_loop 3 1 l (-1) 0 0))
    as (l' & E' & Hlen).
  exists l'. split; [exact Hlen |]. split.
  - intro Hs. eapply samples16_silence; [| exact E'].
    apply flat_put16_silence. apply ratecv_loop_silence. exact Hs.
  - rewrite E'. reflexivity.
Qed.
End TranscoderFacts.

(** C7.  A 16-bit linear-PCM frame at 24 kHz, converted to companded 8 kHz
    and back, comes back with the same byte length up to four bytes (two
    samples; one companded sample stands for six bytes), never longer; and
    a silent frame comes back silent. *)
Theorem round_trip_length_and_silence (pcm : bytes) :
  Nat.even (List.length pcm) = true ->
  exists mulaw back,
    transcoder.resample_pcm_24k_to_mulaw_8k pcm = Ok mulaw
    /\ transcoder.resample_mulaw_8k_to_pcm_24k mulaw = Ok back
    /\ (List.length back <= List.length pcm <= List.length back + 4)%nat
    /\ (Forall (eq x00) pcm -> Forall (eq x00) back).
Proof.
  intro Heven.
  destruct (samples16_even pcm Heven) as [l E].
  destruct (uplink_spec pcm l E) as (l' & Hlen' & Hsil' & Hup).
  set (mulaw := map (fun s => audioop.st_14linear2ulaw (Z.shiftr s 2)) l')
    in *.
  destruct (downlink_spec mulaw) as (l2 & Hlen2 & Hsil2 & Hdown).
  exists mulaw, (flat_map audioop.put16 (audioop.ratecv_loop 1 3 l2 (-3) 0 0)).
  split; [exact Hup |]. split; [exact Hdown |]. split.
  - rewrite flat_put16_length, ratecv_loop_up_length, Hlen2.
    unfold mulaw. rewrite length_map, Hlen'.
    pose proof (ratecv_loop_down_length l (-1) 0 0 ltac:(lia)) as Hd.
    rewrite (samples16_length pcm l E).
    set (n := List.length l) in *.
    set (m := List.length (audioop.ratecv_loop 3 1 l (-1) 0 0)) in *.
    pose proof (Z.div_mod (Z.of_nat n + (3 + -1)) 3 ltac:(lia)) as Hdm.
    pose proof (Z.mod_pos_bound (Z.of_nat n + (3 + -1)) 3 ltac:(lia)) as Hb.
    lia.
  - intro Hs.
    apply flat_put16_silence. apply ratecv_loop_silence. apply Hsil2.
    unfold mulaw. apply Forall_map.
    pose proof (Hsil' (samples16_silence pcm l Hs E)) as Hz.
    eapply Forall_impl; [| exact Hz]. intros s <-. reflexivity.
Qed.

(** A six-byte frame of silence makes the round trip. *)
Lemma round_trip_witness :
  exists mulaw back,
    transcoder.resample_pcm_24k_to_mulaw_8k [x00; x00; x00; x00; x00; x00]
    = Ok mulaw
    /\ transcoder.resample_mulaw_8k_to_pcm_24k mulaw = Ok back
    /\ (List.length back <= 6 <= List.length back + 4)%nat
    /\ (Forall (eq x00) [x00; x00; x00; x00; x00; x00]
        -> Forall (eq x00) back).
Proof.
  apply (round_trip_length_and_silence [x00; x00; x00; x00; x00; x00]).
  reflexivity.
Defined.

(** ** The search tools *)

Section ToolFacts.
Variable R : runtime.
Import real_estate_tools.

Ltac answer := eexists; split; [reflexivity | reflexivity].

Ltac outcome_cases :=
  repeat match goal with
         | |- context [obind ?c _] =>
             let E := fresh "E" in
             destruct c eqn:E; cbn [obind otry]
         | |- context [otry (if ?b then _ else _) _] =>
             destruct b; cbn [obind otry]
         end.

Lemma search_properties_answers
      (query property_type location min_price max_price bedrooms : value) :
  exists items,
    search_properties R query property_type location
                      min_price max_price bedrooms
    = Ok (json_dumps (PDict items))
    /\ answers items = true.
Proof.
  unfold search_properties.
  destruct (unset (SEARCH_ENDPOINT R) || unset (SEARCH_API_KEY R));
    [answer |].
  outcome_cases; try answer.
Qed.

Lemma get_property_details_answers (reference_number : value) :
  exists items,
    get_property_details R reference_number = Ok (json_dumps (PDict items))
    /\ answers items = true.
Proof.
  unfold get_property_details.
  destruct (unset (SEARCH_ENDPOINT R) || unset (SEARCH_API_KEY R));
    [answer |].
  outcome_cases; try answer.
Qed.

Lemma format_listing_dict items :
  exists d, format_listing (PDict items) = Ok (PDict d).
Proof. unfold format_listing. cbn [get obind]. eauto. Qed.

Lemma format_listings_dicts listings :
  Forall (fun p => exists items, p = PDict items) listings ->
  exists formatted,
    omapM format_listing listings = Ok formatted
    /\ List.length formatted = List.length listings.
Proof.
  induction 1 as [| p rest [items ->] Hrest (formatted & E & Hlen)].
  - exists []. auto.
  - destruct (format_listing_dict items) as [d Ed].
    exists (PDict d :: formatted). cbn [omapM]. rewrite Ed, E.
    cbn [obind]. split; [reflexivity | simpl; now rewrite Hlen].
Qed.
End ToolFacts.

(** C2, as the code has it.  [search_properties] and
    [get_property_details] never raise, whatever the query, the filters,
    the reference number and the replies of the collaborators; each returns
    the JSON text of an object that has a [properties] key, a [property]
    key, an [error] key, or, for an empty result set, the keys [found] and
    [message]. *)
Theorem tools_always_answer
        (R : runtime)
        (query property_type location min_price max_price bedrooms
           reference_number : value) :
  (exists items,
      real_estate_tools.search_properties
        R query property_type location min_price max_price bedrooms
      = Ok (json_dumps (PDict items))
      /\ answers items = true)
  /\ (exists items,
         real_estate_tools.get_property_details R reference_number
         = Ok (json_dumps (PDict items))
         /\ answers items = true).
Proof.
  split.
  - apply search_properties_answers.
  - apply get_property_details_answers.
Qed.

(** C2, as stated, fails on an empty result set: the answer to a search
    without matches, and to a lookup of an unknown reference, has none of
    the keys [properties], [property] and [error]. *)
Lemma empty_result_has_no_listing_or_error_key :
  (exists items,
      real_estate_tools.search_properties
        example.rt (PStr "penthouse") (PStr EmptyString) (PStr EmptyString) PNone PNone PNone
      = Ok (json_dumps (PDict items))
      /\ has_key "properties" items = false
      /\ has_key "property" items = false
      /\ has_key "error" items = false)
  /\ (exists items,
         real_estate_tools.get_property_details example.rt (PStr "JG-SHOP-A10")
         = Ok (json_dumps (PDict items))
         /\ has_key "properties" items = false
         /\ has_key "property" items = false
         /\ has_key "error" items = false).
Proof.
  split; eexists; (split; [reflexivity | repeat split]).
Qed.

(** C9.  When the search service answers 200 with a non-empty array of
    listings, [found] is the value of ["@odata.count"] in the reply, or 0
    when the reply has no such field, and [showing] is the length of the
    array; so a reply without a count yields [found] 0 next to a non-empty
    [properties] list. *)
Theorem found_is_the_backend_count
        (R : runtime)
        (query property_type location min_price max_price bedrooms : value)
        (reply : response) (body : list (string * value))
        (listings : list value) :
  real_estate_tools.unset (real_estate_tools.SEARCH_ENDPOINT R) = false ->
  real_estate_tools.unset (real_estate_tools.SEARCH_API_KEY R) = false ->
  requests_post R (real_estate_tools.search_url R)
                (real_estate_tools._get_search_headers R)
                (real_estate_tools.search_payload
                   R query
                   (real_estate_tools.search_filters
                      R property_type location min_price max_price bedrooms))
                15
  = Ok reply ->
  status_code reply = 200 ->
  response_json reply = Ok (PDict body) ->
  lookup "value" body = Some (PList listings) ->
  listings <> [] ->
  Forall (fun p => exists items, p = PDict items) listings ->
  exists found showing formatted,
    real_estate_tools.search_properties
      R query property_type location min_price max_price bedrooms
    = Ok (json_dumps (PDict [("found", found);
                             ("showing", PInt showing);
                             ("properties", PList formatted)]))
    /\ found = match lookup "@odata.count" body with
               | Some count => count
               | None => PInt 0
               end
    /\ showing = Z.of_nat (List.length listings)
    /\ List.length formatted = List.length listings
    /\ (lookup "@odata.count" body = None -> found = PInt 0 /\ 0 < showing).
Proof.
  intros Hendpoint Hkey Hpost Hstatus Hjson Hvalue Hne Hdicts.
  destruct (format_listings_dicts listings Hdicts) as (formatted & E & Hlen).
  exists (match lookup "@odata.count" body with
          | Some count => count
          | None => PInt 0
          end), (Z.of_nat (List.length listings)), formatted.
  split; [| split; [reflexivity | split; [reflexivity | split; [exact Hlen |]]]].
  - unfold real_estate_tools.search_properties.
    rewrite Hendpoint, Hkey. cbn [orb].
    rewrite Hpost. cbn [obind]. rewrite Hstatus. cbn [Z.eqb Pos.eqb].
    rewrite Hjson. cbn [obind get]. rewrite Hvalue.
    destruct listings as [| p rest]; [contradiction |].
    cbn [truthy negb iter obind]. rewrite E. cbn [obind otry].
    rewrite Hlen. reflexivity.
  - intro Hnone. rewrite Hnone. split; [reflexivity |].
    destruct listings; [contradiction | simpl; lia].
Qed.

(** The example service answers the query ["apartment"] with one listing
    and no count: [found] is 0 and [showing] is 1. *)
Lemma found_is_the_backend_count_witness :
  exists found showing formatted,
    real_estate_tools.search_properties
      example.rt (PStr "apartment") (PStr EmptyString) (PStr EmptyString) PNone PNone PNone
    = Ok (json_dumps (PDict [("found", found);
                             ("showing", PInt showing);
                             ("properties", PList formatted)]))
    /\ found = match lookup "@odata.count"
                            [("value", PList [example.untitled_listing])] with
               | Some count => count
               | None => PInt 0
               end
    /\ showing = Z.of_nat (List.length [example.untitled_listing])
    /\ List.length formatted = List.length [example.untitled_listing]
    /\ (lookup "@odata.count" [("value", PList [example.untitled_listing])]
        = None -> found = PInt 0 /\ 0 < showing).
Proof.
  apply (found_is_the_backend_count
           example.rt (PStr "apartment") (PStr EmptyString) (PStr EmptyString) PNone PNone PNone
           (mkResponse
              200 (Ok (PDict [("value", PList [example.untitled_listing])])))
           [("value", PList [example.untitled_listing])]
           [example.untitled_listing]).
  - reflexivity.
  - reflexivity.
  - reflexivity.
  - reflexivity.
  - reflexivity.
  - reflexivity.
  - discriminate.
  - repeat constructor. eexists. reflexivity.
Defined.

(** ** The tool dispatcher *)

Section DispatcherFacts.
Variable R : runtime.
Import dispatcher.

Lemma handle_tool_call_unfold call_id name arguments f :
  handle_tool_call R call_id name arguments f
  = let r := dispatch R call_id name arguments f in
    let opening :=
      [Log INFO rule; Log INFO ("🔧 TOOL CALL: " ++ str R name);
       Log INFO ("📥 ARGUMENTS: " ++ arguments)] in
    match result r with
    | Ok _ => mkRan (result r) (opening ++ effects r)%list (pending r)
    | Raise e =>
        mkRan (Ok tt)
              (opening
                 ++ effects r
                 ++ [Log ERROR ("❌ Tool execution failed: " ++ exn_msg e);
                     Log ERROR rule])%list
              (pending r)
    end.
Proof.
  unfold handle_tool_call, bind, try_except, log. cbn. cbv zeta.
  destruct (result (dispatch R call_id name arguments f)) eqn:E;
    cbn; rewrite ?E; reflexivity.
Qed.

Lemma dispatch_unparseable call_id name arguments e f :
  json_loads R arguments = Raise e ->
  dispatch R call_id name arguments f = mkRan (Raise e) [] f.
Proof.
  intro E. unfold dispatch, bind, lift. rewrite E. reflexivity.
Qed.
End DispatcherFacts.

(** C10.  [handle_tool_call] returns normally for every call, for every
    runtime and whatever the sockets do: an exception raised while parsing
    the arguments, running the tool, summarising its result or sending to
    the agent is caught by the function, which then logs it. *)
Theorem handle_tool_call_never_raises
        (R : runtime) (call_id name : value) (arguments : string)
        (f : faults) :
  result (dispatcher.handle_tool_call R call_id name arguments f) = Ok tt
  /\ forall e,
      result (dispatcher.dispatch R call_id name arguments f) = Raise e ->
      exists before,
        effects (dispatcher.handle_tool_call R call_id name arguments f)
        = (before
             ++ [Log ERROR ("❌ Tool execution failed: " ++ exn_msg e);
                 Log ERROR dispatcher.rule])%list.
Proof.
  rewrite handle_tool_call_unfold. cbv zeta.
  destruct (result (dispatcher.dispatch R call_id name arguments f))
    as [[] | e0] eqn:E.
  - split; [reflexivity | intros e He; discriminate He].
  - split; [reflexivity |]. intros e He. injection He as <-.
    eexists. cbn [effects]. rewrite app_assoc. reflexivity.
Qed.

(** With a broken agent connection the answer to an unknown tool cannot be
    sent; the failure is logged and the task ends normally. *)
Lemma handle_tool_call_never_raises_witness :
  result (dispatcher.handle_tool_call
            example.rt (PStr "call_1") (PStr "book_viewing")
            (example.render example.search_arguments)
            [Some (mkExn ConnectionClosed "connection closed")])
  = Ok tt
  /\ exists before,
      effects (dispatcher.handle_tool_call
                 example.rt (PStr "call_1") (PStr "book_viewing")
                 (example.render example.search_arguments)
                 [Some (mkExn ConnectionClosed "connection closed")])
      = (before
           ++ [Log ERROR "❌ Tool execution failed: connection closed";
               Log ERROR dispatcher.rule])%list.
Proof.
  destruct (handle_tool_call_never_raises
              example.rt (PStr "call_1") (PStr "book_viewing")
              (example.render example.search_arguments)
              [Some (mkExn ConnectionClosed "connection closed")])
    as [Hok Hlogged].
  split; [exact Hok |].
  apply (Hlogged (mkExn ConnectionClosed "connection closed")).
  reflexivity.
Defined.

(** C1 at its failing input.  When [json.loads] rejects the argument
    string, [handle_tool_call] writes five log lines and sends nothing:
    no function-call output reaches the agent and no [response.create]
    follows. *)
Theorem unparseable_arguments_get_no_answer
        (R : runtime) (call_id name : value) (arguments : string)
        (e : exn) (f : faults) :
  json_loads R arguments = Raise e ->
  dispatcher.handle_tool_call R call_id name arguments f
  = mkRan (Ok tt)
          [Log INFO dispatcher.rule;
           Log INFO ("🔧 TOOL CALL: " ++ str R name);
           Log INFO ("📥 ARGUMENTS: " ++ arguments);
           Log ERROR ("❌ Tool execution failed: " ++ exn_msg e);
           Log ERROR dispatcher.rule]
          f.
Proof.
  intro E. rewrite handle_tool_call_unfold.
  rewrite (dispatch_unparseable R call_id name arguments e f E).
  reflexivity.
Qed.

Lemma unparseable_arguments_get_no_answer_witness :
  dispatcher.handle_tool_call
    example.rt (PStr "call_1") (PStr "search_properties") "not json" []
  = mkRan (Ok tt)
          [Log INFO dispatcher.rule;
           Log INFO "🔧 TOOL CALL: search_properties";
           Log INFO "📥 ARGUMENTS: not json";
           Log ERROR
               "❌ Tool execution failed: Expecting value: line 1 column 1 (char 0)";
           Log ERROR dispatcher.rule]
          [].
Proof.
  apply (unparseable_arguments_get_no_answer
           example.rt (PStr "call_1") (PStr "search_properties") "not json"
           (mkExn JSONDecodeError "Expecting value: line 1 column 1 (char 0)")
           []).
  reflexivity.
Defined.

(** The sibling path: an unknown tool name is answered with an error object
    and a [response.create]. *)
Example unknown_tool_is_answered :
  effects (dispatcher.handle_tool_call
             example.rt (PStr "call_1") (PStr "book_viewing")
             (example.render example.search_arguments) [])
  = [Log INFO dispatcher.rule;
     Log INFO "🔧 TOOL CALL: book_viewing";
     Log INFO ("📥 ARGUMENTS: " ++ example.render example.search_arguments);
     Log WARNING "⚠️ Unknown tool: book_viewing";
     Log INFO dispatcher.rule;
     ToAgent (conversation_item_create
                (PStr "call_1")
                (json_dumps (PDict [("error", PStr "Unknown tool called.")])));
     ToAgent response_create].
Proof. reflexivity. Qed.

(** A second path without an answer: the search succeeds, but the summary
    line for a listing whose title is [None] raises, and the result that
    was computed is never sent. *)
Example untitled_listing_gets_no_answer :
  real_estate_tools.search_properties
    example.rt (PStr "villa") (PStr EmptyString) (PStr EmptyString) PNone PNone PNone
  = Ok (json_dumps
          (PDict [("found", PInt 1); ("showing", PInt 1);
                  ("properties",
                   PList [PDict [("reference", PStr "EOA2-3BHK-FF-A");
                                 ("title", PNone);
                                 ("type", PStr "Apartment");
                                 ("location", PStr "Al Wakra");
                                 ("price_qar", PInt 6500);
                                 ("bedrooms", PInt 3);
                                 ("bathrooms", PInt 2)]])]))
  /\ dispatcher.handle_tool_call
       example.rt (PStr "call_1") (PStr "search_properties")
       (example.render example.search_arguments) []
     = mkRan (Ok tt)
             [Log INFO dispatcher.rule;
              Log INFO "🔧 TOOL CALL: search_properties";
              Log INFO ("📥 ARGUMENTS: "
                          ++ example.render example.search_arguments);
              Log INFO "   Query: villa";
              Log INFO "   Location: Any";
              Log INFO "   Type: Any";
              Log INFO "   Bedrooms: Any";
              Log INFO "   Price: Min-Max QAR";
              Log INFO "📊 SEARCH RESULTS: 1 properties found";
              Log ERROR
                  "❌ Tool execution failed: 'NoneType' object is not subscriptable";
              Log ERROR dispatcher.rule]
             [].
Proof. split; reflexivity. Qed.

(** ** The forwarding loops *)

#[local] Arguments transcoder.resample_mulaw_8k_to_pcm_24k : simpl never.
#[local] Arguments transcoder.resample_pcm_24k_to_mulaw_8k : simpl never.

Section BridgeFacts.
Variable R : runtime.
Import bridge.

Lemma io_ok e f :
  hd None f = None -> io e f = mkRan (Ok tt) [e] (tl f).
Proof.
  destruct f as [| [x |] r]; simpl; intro H;
    [reflexivity | discriminate | reflexivity].
Qed.

(** Subtracting the initial start time, 0, leaves the clock reading. *)
Lemma float_sub_zero x : float_sub x (float_of_int 0) = x.
Proof. destruct x as [[|] | [|] | | s m e]; reflexivity. Qed.

(** The gate constant is the float that the literal [1.2] denotes: the
    correctly rounded quotient of 12 and 10. *)
Lemma gate_literal :
  gate = SFdiv prec emax (float_of_int 12) (float_of_int 10).
Proof. vm_compute. reflexivity. Qed.

(** A start envelope records the stream identifier and the clock. *)
Lemma start_records_the_clock c now data packet start sid f :
  json_loads R data = Ok packet ->
  getitem packet "event" = Ok (PStr "start") ->
  getitem packet "start" = Ok start ->
  getitem start "streamSid" = Ok sid ->
  run_twilio_agent.on_message R c now data f
  = mkRan (Ok (Continue, mkClosure sid true now))
          [Log INFO ("Twilio Stream Started: " ++ str R sid)] f.
Proof.
  intros E1 E2 E3 E4. unfold run_twilio_agent.on_message, bind, lift.
  rewrite E1. cbn. rewrite E2. cbn. rewrite E3. cbn. rewrite E4.
  reflexivity.
Qed.

Lemma media_gated c now data packet f :
  json_loads R data = Ok packet ->
  getitem packet "event" = Ok (PStr "media") ->
  gated now (start_time c) = true ->
  run_twilio_agent.on_message R c now data f = mkRan (Ok (Continue, c)) [] f.
Proof.
  intros E1 E2 G. unfold run_twilio_agent.on_message, bind, lift.
  rewrite E1. cbn. rewrite E2. cbn. rewrite G. reflexivity.
Qed.

Lemma media_forwarded c now data packet media payload mulaw pcm f :
  json_loads R data = Ok packet ->
  getitem packet "event" = Ok (PStr "media") ->
  gated now (start_time c) = false ->
  getitem packet "media" = Ok media ->
  getitem media "payload" = Ok payload ->
  base64_b64decode R payload = Ok mulaw ->
  transcoder.resample_mulaw_8k_to_pcm_24k mulaw = Ok pcm ->
  hd None f = None ->
  run_twilio_agent.on_message R c now data f
  = mkRan (Ok (Continue, c))
          [ToAgent (input_audio_buffer_append (PStr (b64encode R pcm)))]
          (tl f).
Proof.
  intros E1 E2 G E3 E4 E5 E6 Hf. unfold run_twilio_agent.on_message, bind, lift.
  rewrite E1. cbn. rewrite E2. cbn. rewrite G. rewrite E3. cbn.
  rewrite E4. cbn. rewrite E5. cbn. rewrite E6. cbn.
  rewrite (io_ok _ f Hf). reflexivity.
Qed.

Lemma media_undecodable c now data packet media payload e f :
  json_loads R data = Ok packet ->
  getitem packet "event" = Ok (PStr "media") ->
  gated now (start_time c) = false ->
  getitem packet "media" = Ok media ->
  getitem media "payload" = Ok payload ->
  base64_b64decode R payload = Raise e ->
  run_twilio_agent.on_message R c now data f = mkRan (Raise e) [] f.
Proof.
  intros E1 E2 G E3 E4 E5. unfold run_twilio_agent.on_message, bind, lift.
  rewrite E1. cbn. rewrite E2. cbn. rewrite G. rewrite E3. cbn.
  rewrite E4. cbn. rewrite E5. reflexivity.
Qed.

(** A turn of the loop whose handler succeeds and continues. *)
Lemma turn_continues v c now data c' effs f f' :
  on_message R v c now data f = mkRan (Ok (Continue, c')) effs f' ->
  forward_to_azure_turn R v c (Message now data) f
  = mkRan (Ok (Receiving, c')) effs f'.
Proof.
  intro E. unfold forward_to_azure_turn, try_except, bind. rewrite E.
  cbn. rewrite app_nil_r. reflexivity.
Qed.

(** A turn whose handler raises anything but a disconnect. *)
Lemma turn_raises v c now data e effs f f' :
  on_message R v c now data f = mkRan (Raise e) effs f' ->
  exn_class_eqb (exn_cls e) WebSocketDisconnect = false ->
  forward_to_azure_turn R v c (Message now data) f
  = mkRan (Raise e) effs f'.
Proof.
  intros E Hcls. unfold forward_to_azure_turn, try_except, bind. rewrite E.
  cbn. rewrite Hcls. cbn. rewrite app_nil_r. reflexivity.
Qed.

Lemma bind_assoc {A B C} (m : IO A) (k : A -> IO B) (h : B -> IO C) f :
  bind (bind m k) h f = bind m (fun a => bind (k a) h) f.
Proof.
  unfold bind. destruct (m f) as [[a | e] effs p]; cbn; [| reflexivity].
  destruct (k a p) as [[b | e] effs' p']; cbn; [| reflexivity].
  destruct (h b p') as [r effs'' p'']; cbn. now rewrite app_assoc.
Qed.

Lemma bind_ret_l {A B} (a : A) (k : A -> IO B) f :
  bind (ret a) k f = k a f.
Proof. unfold bind, ret. cbn. destruct (k a f); reflexivity. Qed.

Lemma bind_ext {A B} (m : IO A) (k k' : A -> IO B) f :
  (forall a g, k a g = k' a g) -> bind m k f = bind m k' f.
Proof.
  intro H. unfold bind. destruct (m f) as [[a | e] effs p]; cbn;
    [rewrite H |]; reflexivity.
Qed.

(** The loop over a longer input is the loop over its first part, then
    over the rest. *)
Lemma forward_to_client_app v c pre post f :
  forward_to_client R v c (pre ++ post) f
  = bind (forward_to_client R v c pre)
         (fun _ => forward_to_client R v c post) f.
Proof.
  revert f. induction pre as [| ev pre IH]; intro f.
  - cbn [app forward_to_client]. now rewrite bind_ret_l.
  - cbn [app forward_to_client]. rewrite bind_assoc.
    apply bind_ext. intros _ g. apply IH.
Qed.

(** A call whose agent connection is made and accepts the configuration
    reaches its [asyncio.gather]. *)
Lemma reachable_gathering v f : reachable R v (gathering v f).
Proof.
  apply (reachable_step R v (start_session (None :: f))).
  - apply reachable_start.
  - destruct v;
      exact (step_connected R _ (start_session (None :: f)) _
                            eq_refl eq_refl).
Qed.
End BridgeFacts.

(** ** The telephony audio gate *)

(** A media frame that passes the gate is decoded, transcoded and appended. *)
Lemma media_passes
      (R : runtime) (c : bridge.closure) (now : float) (data : string)
      (packet media payload : value) (mulaw : bytes) (f : faults) :
  json_loads R data = Ok packet ->
  getitem packet "event" = Ok (PStr "media") ->
  bridge.gated now (bridge.start_time c) = false ->
  getitem packet "media" = Ok media ->
  getitem media "payload" = Ok payload ->
  bridge.base64_b64decode R payload = Ok mulaw ->
  hd None f = None ->
  exists pcm,
    transcoder.resample_mulaw_8k_to_pcm_24k mulaw = Ok pcm
    /\ bridge.run_twilio_agent.on_message R c now data f
       = mkRan (Ok (bridge.Continue, c))
               [ToAgent (input_audio_buffer_append (PStr (b64encode R pcm)))]
               (tl f).
Proof.
  intros E1 E2 Hge E3 E4 E5 Hf.
  destruct (downlink_spec mulaw) as (l & _ & _ & Hpcm).
  eexists. split; [exact Hpcm |].
  apply (media_forwarded R c now data packet media payload mulaw _ f);
    auto.
Qed.

(** C5.  The gate measures the time since the recorded start as the code
    does: the float difference of the clock reading and the recorded start
    time, compared with the float 1.2.  A media frame handled while that
    difference is less than 1.2 leaves no trace: nothing is appended to the
    agent's input buffer and the shared variables are unchanged.  A media
    frame handled when it is not less than 1.2 is decoded, transcoded and
    appended (its payload being base64 text and the agent connection
    accepting the command). *)
Theorem telephony_audio_gate
        (R : runtime) (c : bridge.closure) (now : float) (data : string)
        (packet : value) (f : faults) :
  json_loads R data = Ok packet ->
  getitem packet "event" = Ok (PStr "media") ->
  (float_lt (float_sub now (bridge.start_time c)) bridge.gate = true ->
   bridge.run_twilio_agent.on_message R c now data f
   = mkRan (Ok (bridge.Continue, c)) [] f)
  /\ (float_lt (float_sub now (bridge.start_time c)) bridge.gate = false ->
      forall media payload mulaw,
        getitem packet "media" = Ok media ->
        getitem media "payload" = Ok payload ->
        bridge.base64_b64decode R payload = Ok mulaw ->
        hd None f = None ->
        exists pcm,
          transcoder.resample_mulaw_8k_to_pcm_24k mulaw = Ok pcm
          /\ bridge.run_twilio_agent.on_message R c now data f
             = mkRan (Ok (bridge.Continue, c))
                     [ToAgent (input_audio_buffer_append
                                 (PStr (b64encode R pcm)))]
                     (tl f)).
Proof.
  intros E1 E2. split.
  - intro Hlt. exact (media_gated R c now data packet f E1 E2 Hlt).
  - intros Hge media payload mulaw E3 E4 E5 Hf.
    exact (media_passes R c now data packet media payload mulaw f
                        E1 E2 Hge E3 E4 E5 Hf).
Qed.

(** A stream started at clock 100: a frame handled at 101.3 is forwarded,
    a frame handled at 100.5 is not. *)
Lemma telephony_audio_gate_witness :
  (exists pcm,
      transcoder.resample_mulaw_8k_to_pcm_24k [xff] = Ok pcm
      /\ bridge.run_twilio_agent.on_message
           example.rt
           (bridge.mkClosure (PStr "MZ18ad3ab5a668481ce02b83e7395059f0") true
                             (example.clock 1000))
           (example.clock 1013)
           (example.render (example.media_envelope "/w=="))
           []
         = mkRan (Ok (bridge.Continue,
                      bridge.mkClosure
                        (PStr "MZ18ad3ab5a668481ce02b83e7395059f0") true
                        (example.clock 1000)))
                 [ToAgent (input_audio_buffer_append
                             (PStr (b64encode example.rt pcm)))]
                 [])
  /\ bridge.run_twilio_agent.on_message
       example.rt
       (bridge.mkClosure (PStr "MZ18ad3ab5a668481ce02b83e7395059f0") true
                         (example.clock 1000))
       (example.clock 1005)
       (example.render (example.media_envelope "/w=="))
       []
     = mkRan (Ok (bridge.Continue,
                  bridge.mkClosure
                    (PStr "MZ18ad3ab5a668481ce02b83e7395059f0") true
                    (example.clock 1000)))
             [] [].
Proof.
  split.
  - destruct (telephony_audio_gate
                example.rt
                (bridge.mkClosure
                   (PStr "MZ18ad3ab5a668481ce02b83e7395059f0") true
                   (example.clock 1000))
                (example.clock 1013)
                (example.render (example.media_envelope "/w=="))
                (example.media_envelope "/w==")
                [] eq_refl eq_refl) as [_ Hforward].
    apply (Hforward eq_refl
                    (PDict [("payload", PStr "/w==")]) (PStr "/w==") [xff]);
      reflexivity.
  - destruct (telephony_audio_gate
                example.rt
                (bridge.mkClosure
                   (PStr "MZ18ad3ab5a668481ce02b83e7395059f0") true
                   (example.clock 1000))
                (example.clock 1005)
                (example.render (example.media_envelope "/w=="))
                (example.media_envelope "/w==")
                [] eq_refl eq_refl) as [Hdiscard _].
    exact (Hdiscard eq_refl).
Defined.

(** C8.  Before any start envelope the recorded start time is still 0, so
    the first media frame of a call, handled when the clock does not read
    less than 1.2, is decoded, transcoded and appended to the agent's input
    buffer, with the start event still unset. *)
Theorem media_before_start_is_forwarded
        (R : runtime) (now : float) (data : string)
        (packet media payload : value) (mulaw : bytes) (f : faults) :
  float_lt now bridge.gate = false ->
  json_loads R data = Ok packet ->
  getitem packet "event" = Ok (PStr "media") ->
  getitem packet "media" = Ok media ->
  getitem media "payload" = Ok payload ->
  bridge.base64_b64decode R payload = Ok mulaw ->
  hd None f = None ->
  bridge.start_event bridge.initial = false
  /\ bridge.start_time bridge.initial = float_of_int 0
  /\ exists pcm,
      transcoder.resample_mulaw_8k_to_pcm_24k mulaw = Ok pcm
      /\ bridge.forward_to_azure
           R bridge.Twilio bridge.initial [bridge.Message now data] f
         = mkRan (Ok (bridge.Receiving, bridge.initial))
                 [ToAgent (input_audio_buffer_append
                             (PStr (b64encode R pcm)))]
                 (tl f).
Proof.
  intros Hnow E1 E2 E3 E4 E5 Hf.
  split; [reflexivity |]. split; [reflexivity |].
  assert (Hge : bridge.gated now (bridge.start_time bridge.initial) = false).
  { cbn [bridge.start_time bridge.initial]. unfold bridge.gated.
    rewrite float_sub_zero. exact Hnow. }
  destruct (media_passes R bridge.initial now data packet media payload mulaw
                         f E1 E2 Hge E3 E4 E5 Hf) as (pcm & Hpcm & Hm).
  exists pcm. split; [exact Hpcm |].
  cbn [bridge.forward_to_azure]. unfold bind at 1.
  rewrite (turn_continues R bridge.Twilio bridge.initial now data _ _ _ _ Hm).
  reflexivity.
Qed.

Lemma media_before_start_is_forwarded_witness :
  bridge.start_event bridge.initial = false
  /\ bridge.start_time bridge.initial = float_of_int 0
  /\ exists pcm,
      transcoder.resample_mulaw_8k_to_pcm_24k [xff] = Ok pcm
      /\ bridge.forward_to_azure
           example.rt bridge.Twilio bridge.initial
           [bridge.Message (float_of_int 5000)
                           (example.render (example.media_envelope "/w=="))]
           []
         = mkRan (Ok (bridge.Receiving, bridge.initial))
                 [ToAgent (input_audio_buffer_append
                             (PStr (b64encode example.rt pcm)))]
                 [].
Proof.
  apply (media_before_start_is_forwarded
           example.rt (float_of_int 5000)
           (example.render (example.media_envelope "/w=="))
           (example.media_envelope "/w==")
           (PDict [("payload", PStr "/w==")]) (PStr "/w==") [xff] []).
  - reflexivity.
  - reflexivity.
  - reflexivity.
  - reflexivity.
  - reflexivity.
  - reflexivity.
  - reflexivity.
Defined.

(** ** Conversion errors on the incoming path *)

(** C3, as the code has it.  A media frame whose payload does not decode is
    not dropped: the error leaves the client-to-agent loop, whatever frames
    follow it are not handled, and the call's error handler logs the error
    and closes the client channel; the process itself goes on.  The
    conversion from companded to linear audio accepts every byte string, so
    the base64 decoding is the only conversion that can fail. *)
Theorem conversion_error_ends_the_call
        (R : runtime) (c : bridge.closure) (now : float) (data : string)
        (packet media payload : value) (e : exn)
        (rest : list bridge.incoming) (f : faults) :
  json_loads R data = Ok packet ->
  getitem packet "event" = Ok (PStr "media") ->
  bridge.gated now (bridge.start_time c) = false ->
  getitem packet "media" = Ok media ->
  getitem media "payload" = Ok payload ->
  bridge.base64_b64decode R payload = Raise e ->
  exn_class_eqb (exn_cls e) WebSocketDisconnect = false ->
  bridge.forward_to_azure R bridge.Twilio c (bridge.Message now data :: rest) f
  = mkRan (Raise e) [] f
  /\ (forall s,
         bridge.vars s = c ->
         bridge.socket_faults s = f ->
         bridge.to_azure s = bridge.Running ->
         bridge.torn_down s = false ->
         hd None f = None ->
         exists s1 s2,
           bridge.step R bridge.Twilio s s1
           /\ bridge.to_azure s1 = bridge.Failed e
           /\ bridge.step R bridge.Twilio s1 s2
           /\ bridge.torn_down s2 = true
           /\ bridge.history s2
              = (bridge.history s
                   ++ [bridge.Received (bridge.Message now data);
                       bridge.Did bridge.run_agent_task
                                  (Log ERROR ("Twilio Session Error: "
                                                ++ exn_msg e));
                       bridge.Did bridge.run_agent_task CloseClient])%list)
  /\ (forall chunk, exists pcm,
         transcoder.resample_mulaw_8k_to_pcm_24k chunk = Ok pcm).
Proof.
  intros E1 E2 Hge E3 E4 E5 Hcls.
  pose proof (media_undecodable R c now data packet media payload e f
                E1 E2 Hge E3 E4 E5) as Hm.
  pose proof (turn_raises R bridge.Twilio c now data e [] f f Hm Hcls)
    as Hturn.
  split; [| split].
  - cbn [bridge.forward_to_azure]. unfold bind. rewrite Hturn. reflexivity.
  - intros s Hvars Hfaults Hrun Hdown Hf.
    eexists. eexists. split.
    { eapply bridge.step_receive with (inc := bridge.Message now data);
        [exact Hrun | reflexivity]. }
    rewrite Hvars, Hfaults, Hturn. cbn [result effects pending].
    split; [reflexivity |]. split.
    { eapply bridge.step_teardown with (e := e);
        [exact Hdown | left; reflexivity | reflexivity]. }
    cbn [bridge.torn_down bridge.history bridge.socket_faults].
    split; [reflexivity |].
    unfold bridge.session_error, bridge.run_twilio_agent.session_error, bind, log.
    cbn [result effects pending]. rewrite (io_ok _ f Hf).
    cbn. rewrite <- app_assoc. reflexivity.
  - intro chunk. destruct (downlink_spec chunk) as (l & _ & _ & H).
    eexists. exact H.
Qed.

Lemma conversion_error_ends_the_call_witness :
  bridge.forward_to_azure
    example.rt bridge.Twilio bridge.initial
    [bridge.Message (float_of_int 5000) (example.render (example.media_envelope "A"));
     bridge.Message (float_of_int 5001) (example.render (example.media_envelope "/w=="))]
    []
  = mkRan (Raise (mkExn binascii_Error
                        "Invalid base64-encoded string: number of data characters (1) cannot be 1 more than a multiple of 4"))
          [] [].
Proof.
  apply (conversion_error_ends_the_call
           example.rt bridge.initial (float_of_int 5000)
           (example.render (example.media_envelope "A"))
           (example.media_envelope "A")
           (PDict [("payload", PStr "A")]) (PStr "A")
           (mkExn binascii_Error
                  "Invalid base64-encoded string: number of data characters (1) cannot be 1 more than a multiple of 4")
           [bridge.Message (float_of_int 5001)
                           (example.render (example.media_envelope "/w=="))]
           []).
  - reflexivity.
  - reflexivity.
  - reflexivity.
  - reflexivity.
  - reflexivity.
  - reflexivity.
  - reflexivity.
Defined.

(** C3, as stated, fails: after a frame that does not decode, the loop is
    over and the well-formed frame behind it is never forwarded, although
    the same frame alone is. *)
Lemma undecodable_frame_stops_forwarding :
  (let r :=
     bridge.forward_to_azure
       example.rt bridge.Twilio bridge.initial
       [bridge.Message (float_of_int 5000) (example.render (example.media_envelope "A"));
        bridge.Message (float_of_int 5001) (example.render (example.media_envelope "/w=="))]
       [] in
   (exists e, result r = Raise e) /\ effects r = [])
  /\ (let r :=
        bridge.forward_to_azure
          example.rt bridge.Twilio bridge.initial
          [bridge.Message (float_of_int 5001)
                          (example.render (example.media_envelope "/w=="))]
          [] in
      result r = Ok (bridge.Receiving, bridge.initial)
      /\ effects r = [ToAgent (input_audio_buffer_append (PStr "AAA="))]).
Proof.
  split; cbv zeta; (split; [| reflexivity]).
  - eexists. reflexivity.
  - reflexivity.
Qed.

(** ** Barge-in *)

(** C4, as the code has it.  A speech-started event is always answered by a
    response-cancel command.  In the browser variant a clear signal goes to
    the client first.  In the telephony variant the clear signal goes first
    only when a stream identifier has been recorded; without one the cancel
    command is all that is sent.  Whatever the handler sends, it sends
    before the events that follow are handled, so before any later audio
    delta is forwarded.  (The socket operations are taken to succeed.) *)
Theorem barge_in_signals (R : runtime) :
  (forall c f,
      hd None f = None -> hd None (tl f) = None ->
      bridge.run_browser_agent.on_event R c bridge.INPUT_AUDIO_BUFFER_SPEECH_STARTED f
      = mkRan (Ok tt)
              [Log INFO "🎙️ User started speaking...";
               ToClient clear_audio;
               ToAgent response_cancel]
              (tl (tl f)))
  /\ (forall c f,
         truthy (bridge.stream_sid c) = true ->
         hd None f = None -> hd None (tl f) = None ->
         bridge.run_twilio_agent.on_event R c bridge.INPUT_AUDIO_BUFFER_SPEECH_STARTED f
         = mkRan (Ok tt)
                 [ToClient (clear (bridge.stream_sid c));
                  ToAgent response_cancel]
                 (tl (tl f)))
  /\ (forall c f,
         truthy (bridge.stream_sid c) = false ->
         hd None f = None ->
         bridge.run_twilio_agent.on_event R c bridge.INPUT_AUDIO_BUFFER_SPEECH_STARTED f
         = mkRan (Ok tt) [ToAgent response_cancel] (tl f))
  /\ (forall v c pre post f,
         let before := bridge.forward_to_client R v c pre f in
         let signal :=
           bridge.on_event R v c bridge.INPUT_AUDIO_BUFFER_SPEECH_STARTED
                           (pending before) in
         result before = Ok tt ->
         result signal = Ok tt ->
         effects (bridge.forward_to_client
                    R v c
                    (pre ++ bridge.INPUT_AUDIO_BUFFER_SPEECH_STARTED :: post)
                    f)
         = (effects before
              ++ effects signal
              ++ effects (bridge.forward_to_client R v c post
                                                   (pending signal)))%list).
Proof.
  split; [| split; [| split]].
  - intros c f H1 H2. unfold bridge.run_browser_agent.on_event, bind, log.
    cbn [result effects pending]. rewrite (io_ok _ f H1).
    cbn [result effects pending]. rewrite (io_ok _ (tl f) H2). reflexivity.
  - intros c f Hsid H1 H2. unfold bridge.run_twilio_agent.on_event, bind.
    rewrite Hsid. rewrite (io_ok _ f H1).
    cbn [result effects pending]. rewrite (io_ok _ (tl f) H2). reflexivity.
  - intros c f Hsid H1. unfold bridge.run_twilio_agent.on_event, bind, ret.
    rewrite Hsid. cbn [result effects pending]. rewrite (io_ok _ f H1).
    reflexivity.
  - intros v c pre post f before signal Hbefore Hsignal.
    rewrite forward_to_client_app. cbn [bridge.forward_to_client].
    unfold bind at 1. fold before. rewrite Hbefore.
    cbn [result effects pending]. unfold bind at 1. fold signal.
    rewrite Hsignal. reflexivity.
Qed.

(** The telephony variant after a start envelope: clear, then cancel. *)
Lemma barge_in_signals_witness :
  bridge.run_twilio_agent.on_event
    example.rt
    (bridge.mkClosure (PStr "MZ18ad3ab5a668481ce02b83e7395059f0") true
                      (float_of_int 100))
    bridge.INPUT_AUDIO_BUFFER_SPEECH_STARTED []
  = mkRan (Ok tt)
          [ToClient (clear (PStr "MZ18ad3ab5a668481ce02b83e7395059f0"));
           ToAgent response_cancel]
          [].
Proof.
  destruct (barge_in_signals example.rt) as (_ & Htwilio & _).
  apply (Htwilio
           (bridge.mkClosure
              (PStr "MZ18ad3ab5a668481ce02b83e7395059f0") true
              (float_of_int 100)) []);
    reflexivity.
Defined.

(** C4, as stated, fails in the telephony variant: a speech-started event
    that arrives before the start envelope is answered by the cancel
    command alone, and no clear signal is sent to the client. *)
Lemma speech_started_before_start_sends_no_clear :
  bridge.run_twilio_agent.on_event
    example.rt bridge.initial bridge.INPUT_AUDIO_BUFFER_SPEECH_STARTED []
  = mkRan (Ok tt) [ToAgent response_cancel] []
  /\ exists s,
      bridge.reachable example.rt bridge.Twilio s
      /\ bridge.history s
         = (set_up bridge.Twilio
              ++ [bridge.Heard bridge.INPUT_AUDIO_BUFFER_SPEECH_STARTED;
                  bridge.Did bridge.forward_to_client_task
                             (ToAgent response_cancel)])%list.
Proof.
  split; [reflexivity |].
  eexists. split.
  - eapply bridge.reachable_step.
    + apply (reachable_gathering example.rt bridge.Twilio []).
    + eapply bridge.step_event
        with (event := bridge.INPUT_AUDIO_BUFFER_SPEECH_STARTED);
        reflexivity.
  - reflexivity.
Qed.

(** ** The greeting *)

Section GreetingFacts.
Variable R : runtime.
Import bridge.

Ltac tidy :=
  repeat match goal with
         | H : Ok _ = Ok _ |- _ => inversion H; subst; clear H
         | H : (_, _) = (_, _) |- _ => inversion H; subst; clear H
         | H : Raise _ = Ok _ |- _ => discriminate H
         | H : Ok _ = Raise _ |- _ => discriminate H
         end.

Ltac split_cases :=
  repeat (match goal with
          | H : context [match ?x with _ => _ end] |- _ =>
              let E := fresh "E" in destruct x eqn:E
          end; cbn in *; try discriminate; tidy).

Ltac recall :=
  repeat match goal with
         | H : ?x = _ |- context [?x] => rewrite H
         end.

(** The only texts that set the start event are the readiness signals. *)
Lemma browser_start_event c now data f ctl c' :
  result (run_browser_agent.on_message R c data f) = Ok (ctl, c') ->
  c' = c
  \/ (start_event c' = true
      /\ is_readiness R Browser (Received (Message now data)) = true).
Proof.
  unfold run_browser_agent.on_message, is_readiness, bind, lift.
  destruct (json_loads R data) as [message | e]; [| discriminate].
  cbn [ret raise result effects pending].
  destruct (getitem message "type") as [type | e]; [| discriminate].
  cbn [ret raise result effects pending].
  destruct (eq_str type "start").
  { cbn. intro H. inversion H; subst. right. split; reflexivity. }
  intro H. left.
  destruct (eq_str type "audio");
    [destruct (getitem message "payload") as [payload | e];
     [| discriminate H];
     cbn [ret raise result effects pending app] in H;
     destruct (truthy payload) |];
    cbn [ret raise result effects pending app] in H;
    try (destruct (eq_str type "commit"));
    try (destruct f as [| [x |] f]; cbn in H);
    try discriminate H; inversion H; reflexivity.
Qed.

Lemma twilio_start_event c now data f ctl c' :
  result (run_twilio_agent.on_message R c now data f) = Ok (ctl, c') ->
  c' = c
  \/ (start_event c' = true
      /\ is_readiness R Twilio (Received (Message now data)) = true).
Proof.
  unfold run_twilio_agent.on_message, is_readiness, bind, lift.
  destruct (json_loads R data) as [packet | e]; [| discriminate].
  cbn [ret raise result effects pending].
  destruct (getitem packet "event") as [event | e]; [| discriminate].
  cbn [ret raise result effects pending].
  destruct (eq_str event "start").
  { destruct (getitem packet "start") as [start | e]; [| discriminate].
    cbn [ret raise result effects pending].
    destruct (getitem start "streamSid") as [sid | e]; [| discriminate].
    cbn. intro H. inversion H; subst. right. split; reflexivity. }
  intro H. left.
  destruct (eq_str event "media").
  - destruct (gated now (start_time c));
      [cbn in H; inversion H; reflexivity |].
    destruct (getitem packet "media") as [media | e]; [| discriminate H].
    cbn [ret raise result effects pending] in H.
    destruct (getitem media "payload") as [payload | e]; [| discriminate H].
    cbn [ret raise result effects pending] in H.
    destruct (base64_b64decode R payload) as [mulaw | e]; [| discriminate H].
    cbn [ret raise result effects pending] in H.
    destruct (transcoder.resample_mulaw_8k_to_pcm_24k mulaw) as [pcm | e];
      [| discriminate H].
    cbn [ret raise result effects pending] in H.
    destruct f as [| [x |] f]; cbn in H;
      try discriminate H; inversion H; reflexivity.
  - destruct (eq_str event "stop"); cbn in H; inversion H; reflexivity.
Qed.

(** A turn of the client-to-agent loop leaves the shared variables alone
    unless its text is a readiness signal. *)
Lemma turn_vars v c inc f pc c' :
  result (forward_to_azure_turn R v c inc f) = Ok (pc, c') ->
  c' = c
  \/ (start_event c' = true /\ is_readiness R v (Received inc) = true).
Proof.
  unfold forward_to_azure_turn, try_except. destruct inc as [now data | e].
  - unfold bind. cbv beta zeta.
    destruct (on_message R v c now data f) as [[[ctl c1] | e] effs p] eqn:E;
      cbn [result effects pending fst snd].
    + assert (Hc : c1 = c
                   \/ (start_event c1 = true
                       /\ is_readiness R v (Received (Message now data))
                          = true)).
      { destruct v; cbn [on_message] in E.
        - apply (browser_start_event c now data f ctl).
          rewrite E. reflexivity.
        - apply (twilio_start_event c now data f ctl).
          rewrite E. reflexivity. }
      destruct ctl; cbn; intros H; inversion H; subst; exact Hc.
    + destruct (exn_class_eqb (exn_cls e) WebSocketDisconnect);
        [| cbn; discriminate].
      destruct v; cbn; intros H; inversion H; subst; left; reflexivity.
  - cbn [raise result effects pending].
    destruct (exn_class_eqb (exn_cls e) WebSocketDisconnect);
      [| cbn; discriminate].
    destruct v; cbn; intros H; inversion H; subst; left; reflexivity.
Qed.

Lemma turn_start_event v c inc f pc c' :
  result (forward_to_azure_turn R v c inc f) = Ok (pc, c') ->
  start_event c' = true ->
  start_event c = true \/ is_readiness R v (Received inc) = true.
Proof.
  intros H Hset. destruct (turn_vars _ _ _ _ _ _ H) as [-> | [_ Hr]];
    [left; exact Hset | right; exact Hr].
Qed.

(** A readiness signal is handled without fail, and sets the start event. *)
Lemma browser_readiness c now data f :
  is_readiness R Browser (Received (Message now data)) = true ->
  run_browser_agent.on_message R c data f
  = mkRan (Ok (Continue, mkClosure (stream_sid c) true (start_time c))) [] f.
Proof.
  unfold is_readiness.
  destruct (json_loads R data) as [packet |] eqn:E1; [| discriminate].
  destruct (getitem packet "type") as [t |] eqn:E2; [| discriminate].
  intro Ht. unfold run_browser_agent.on_message, bind, lift.
  rewrite E1. cbn. rewrite E2. cbn. rewrite Ht. reflexivity.
Qed.

Lemma twilio_readiness c now data f :
  is_readiness R Twilio (Received (Message now data)) = true ->
  exists sid,
    run_twilio_agent.on_message R c now data f
    = mkRan (Ok (Continue, mkClosure sid true now))
            [Log INFO ("Twilio Stream Started: " ++ str R sid)] f.
Proof.
  unfold is_readiness.
  destruct (json_loads R data) as [packet |] eqn:E1; [| discriminate].
  destruct (getitem packet "event") as [ev |] eqn:E2; [| discriminate].
  destruct (getitem packet "start") as [start |] eqn:E3; [| discriminate].
  destruct (getitem start "streamSid") as [sid |] eqn:E4;
    [| rewrite andb_false_r; discriminate].
  rewrite andb_true_r. intro Hev. exists sid.
  unfold run_twilio_agent.on_message, bind, lift.
  rewrite E1. cbn. rewrite E2. cbn. rewrite Hev. rewrite E3. cbn.
  rewrite E4. reflexivity.
Qed.

Lemma turn_readiness v c now data f :
  is_readiness R v (Received (Message now data)) = true ->
  exists c' effs,
    forward_to_azure_turn R v c (Message now data) f
    = mkRan (Ok (Receiving, c')) effs f
    /\ start_event c' = true.
Proof.
  intro Hr. destruct v.
  - eexists. eexists. split.
    + apply turn_continues. cbn [on_message].
      apply (browser_readiness c now data f Hr).
    + reflexivity.
  - destruct (twilio_readiness c now data f Hr) as [sid Hm].
    eexists. eexists. split.
    + apply turn_continues. cbn [on_message]. exact Hm.
    + reflexivity.
Qed.

Lemma greetings_app h new :
  greetings (h ++ new) = (greetings h + greetings new)%nat.
Proof. unfold greetings. now rewrite filter_app, length_app. Qed.

Lemma quiet_greetings new : quiet new -> greetings new = 0%nat.
Proof.
  induction 1 as [| x new Hx Hnew IH]; [reflexivity |].
  unfold greetings in *. cbn [filter]. now rewrite Hx.
Qed.

Lemma did_quiet t l :
  t <> send_initial_greeting_task -> quiet (did t l).
Proof.
  intro Ht. induction l as [| e l IH]; constructor; [| exact IH].
  destruct t; try reflexivity. contradiction.
Qed.

Lemma quiet_extension h new before after :
  quiet new ->
  (h ++ new = before ++ the_greeting :: after)%list ->
  exists after', h = (before ++ the_greeting :: after')%list.
Proof.
  intros Hq E. apply app_eq_app in E.
  destruct E as [l [[Hh Hnew] | [Hb Hnew]]].
  - destruct l as [| x l].
    + cbn in Hnew. subst new. inversion Hq as [| ? ? Hx _]. discriminate Hx.
    + cbn in Hnew. inversion Hnew; subst. eauto.
  - subst new. apply Forall_app in Hq. destruct Hq as [_ Hq].
    inversion Hq as [| ? ? Hx _]. discriminate Hx.
Qed.

Lemma existsb_prefix {A} (p : A -> bool) h new :
  existsb p h = true -> existsb p (h ++ new) = true.
Proof. intro H. now rewrite existsb_app, H. Qed.

(** What a coroutine does is not a text received. *)
Lemma did_no_readiness v t l : existsb (is_readiness R v) (did t l) = false.
Proof. induction l as [| e l IH]; [reflexivity | exact IH]. Qed.

Lemma readiness_did v h t l :
  existsb (is_readiness R v) (h ++ did t l) = existsb (is_readiness R v) h.
Proof. now rewrite existsb_app, did_no_readiness, orb_false_r. Qed.

Lemma readiness_heard v h event t l :
  existsb (is_readiness R v) (h ++ Heard event :: did t l)
  = existsb (is_readiness R v) h.
Proof.
  rewrite existsb_app. cbn [existsb is_readiness].
  now rewrite did_no_readiness, orb_false_r.
Qed.

(** The greeting command appended to a history without one. *)
Lemma greeting_appended v h before after :
  (forall b a, h = (b ++ the_greeting :: a)%list ->
               existsb (is_readiness R v) b = true) ->
  existsb (is_readiness R v) h = true ->
  (h ++ [the_greeting] = before ++ the_greeting :: after)%list ->
  existsb (is_readiness R v) before = true.
Proof.
  intros I5 Hread E. apply app_eq_app in E.
  destruct E as [l [[Hh Hnew] | [Hb Hnew]]].
  - destruct l as [| x l].
    + rewrite app_nil_r in Hh. now subst.
    + cbn in Hnew. inversion Hnew; subst. eauto.
  - destruct l as [| x l]; [| destruct l; discriminate Hnew].
    rewrite app_nil_r in Hb. now subst.
Qed.

(** What holds of every state of a call. *)
Lemma greeting_invariant v s :
  reachable R v s ->
  (stage s = Connecting -> greeter s = Unscheduled)
  /\ (greeter s = Greeted -> greetings (history s) = 1%nat)
  /\ (greeter s <> Greeted -> greetings (history s) = 0%nat)
  /\ (start_event (vars s) = true <->
      existsb (is_readiness R v) (history s) = true)
  /\ (greeter s = Unscheduled ->
      to_azure s = Unstarted /\ start_event (vars s) = false)
  /\ (greeter s <> Unscheduled -> greeter s <> AwaitingStart ->
      existsb (is_readiness R v) (history s) = true)
  /\ (forall before after,
         history s = (before ++ the_greeting :: after)%list ->
         existsb (is_readiness R v) before = true).
Proof.
  induction 1 as [f | s s' Hreach (I0 & I1 & I2 & I3 & I4 & I5 & I6) Hstep].
  - cbn. repeat split; try discriminate; try congruence.
    intros [| x before] after H; discriminate H.
  - assert (Hquiet : forall new,
               quiet new ->
               forall before after,
                 (history s ++ new = before ++ the_greeting :: after)%list ->
                 existsb (is_readiness R v) before = true).
    { intros new Hq before after E.
      destruct (quiet_extension _ _ _ _ Hq E) as [after' E'].
      exact (I6 _ _ E'). }
    assert (Hbusy : greeter s <> Unscheduled -> stage s = Connecting -> False).
    { intros Hg Hc. exact (Hg (I0 Hc)). }
    inversion Hstep; subst; cbn [stage greeter history vars to_azure].
    + (* the connection fails *)
      split; [discriminate |].
      split; [exact I1 |]. split; [exact I2 |]. split; [exact I3 |].
      split; [exact I4 |]. split; [exact I5 | exact I6].
    + (* the connection is made and configured *)
      assert (Hq : quiet (did run_agent_task
                              (effects (configure v (socket_faults s)))))
        by (apply did_quiet; discriminate).
      assert (Hg : greeter s = Unscheduled) by (apply I0; assumption).
      rewrite greetings_app, (quiet_greetings _ Hq), Nat.add_0_r.
      rewrite readiness_did.
      destruct (result (configure v (socket_faults s))) as [[] | e].
      * split; [discriminate |]. split; [discriminate |].
        split; [intros _; apply I2; congruence |].
        split; [exact I3 |]. split; [discriminate |].
        split; [intros _ Hn; contradiction | exact (Hquiet _ Hq)].
      * split; [discriminate |].
        split; [exact I1 |]. split; [exact I2 |]. split; [exact I3 |].
        split; [exact I4 |]. split; [exact I5 | exact (Hquiet _ Hq)].
    + (* a text from the client *)
      assert (Hq : quiet (Received inc
                            :: did forward_to_azure_task
                                 (effects
                                    (forward_to_azure_turn
                                       R v (vars s) inc (socket_faults s))))).
      { constructor; [reflexivity | apply did_quiet; discriminate]. }
      assert (Hsched : greeter s <> Unscheduled).
      { intro Hg. destruct (I4 Hg) as [Hu _]. congruence. }
      rewrite greetings_app, (quiet_greetings _ Hq), Nat.add_0_r.
      rewrite existsb_app. cbn [existsb]. rewrite did_no_readiness, orb_false_r.
      split; [exact I0 |]. split; [exact I1 |]. split; [exact I2 |].
      split; [| split; [| split]].
      * destruct inc as [now data | e0].
        -- destruct (is_readiness R v (Received (Message now data))) eqn:Hr.
           ++ destruct (turn_readiness v (vars s) now data (socket_faults s) Hr)
                as (c' & effs & -> & Hset).
              cbn [result snd]. rewrite orb_true_r. tauto.
           ++ rewrite orb_false_r.
              destruct (result (forward_to_azure_turn
                                  R v (vars s) (Message now data)
                                  (socket_faults s)))
                as [[pc c'] | e] eqn:E; cbn [snd]; [| exact I3].
              destruct (turn_vars _ _ _ _ _ _ E) as [-> | [_ Hr']];
                [exact I3 | congruence].
        -- cbn [is_readiness]. rewrite orb_false_r.
           destruct (result (forward_to_azure_turn
                               R v (vars s) (ReceiveError e0)
                               (socket_faults s)))
             as [[pc c'] | e] eqn:E; cbn [snd]; [| exact I3].
           destruct (turn_vars _ _ _ _ _ _ E) as [-> | [_ Hr']];
             [exact I3 | discriminate Hr'].
      * intro Hg. contradiction.
      * intros Hg1 Hg2. rewrite (I5 Hg1 Hg2). reflexivity.
      * exact (Hquiet _ Hq).
    + (* an event from the agent *)
      assert (Hq : quiet (Heard event
                            :: did forward_to_client_task
                                 (effects
                                    (on_event R v (vars s) event
                                              (socket_faults s))))).
      { constructor; [reflexivity | apply did_quiet; discriminate]. }
      rewrite greetings_app, (quiet_greetings _ Hq), Nat.add_0_r.
      rewrite readiness_heard.
      split; [exact I0 |].
      split; [exact I1 |]. split; [exact I2 |]. split; [exact I3 |].
      split; [exact I4 |]. split; [exact I5 | exact (Hquiet _ Hq)].
    + (* the event stream ends *)
      split; [exact I0 |].
      split; [exact I1 |]. split; [exact I2 |]. split; [exact I3 |].
      split; [exact I4 |]. split; [exact I5 | exact I6].
    + (* the event stream fails *)
      split; [exact I0 |].
      split; [exact I1 |]. split; [exact I2 |]. split; [exact I3 |].
      split; [exact I4 |]. split; [exact I5 | exact I6].
    + (* the greeting coroutine wakes *)
      split; [intro Hc; exfalso; apply Hbusy; congruence |].
      split; [destruct v; discriminate |].
      split; [intros _; apply I2; congruence |].
      split; [exact I3 |]. split; [destruct v; discriminate |].
      split; [intros _ _; apply I3; assumption | exact I6].
    + (* the greeting coroutine has slept *)
      split; [intro Hc; exfalso; apply Hbusy; congruence |].
      split; [discriminate |].
      split; [intros _; apply I2; congruence |].
      split; [exact I3 |]. split; [discriminate |].
      split; [intros _ _; apply I5; congruence | exact I6].
    + (* the greeting coroutine sends its command *)
      assert (Hread : existsb (is_readiness R v) (history s) = true)
        by (apply I5; congruence).
      assert (Hzero : greetings (history s) = 0%nat)
        by (apply I2; congruence).
      rewrite greetings_app, Hzero, readiness_did.
      split; [intro Hc; exfalso; apply Hbusy; congruence |].
      destruct (socket_faults s) as [| [e |] rest]; cbn.
      * split; [reflexivity |]. split; [congruence |].
        split; [exact I3 |]. split; [discriminate |].
        split; [intros _ _; exact Hread |].
        intros before after. apply greeting_appended; assumption.
      * split; [discriminate |]. split; [reflexivity |].
        rewrite app_nil_r.
        split; [exact I3 |]. split; [discriminate |].
        split; [intros _ _; exact Hread | exact I6].
      * split; [reflexivity |]. split; [congruence |].
        split; [exact I3 |]. split; [discriminate |].
        split; [intros _ _; exact Hread |].
        intros before after. apply greeting_appended; assumption.
    + (* a tool task runs *)
      assert (Hq : quiet (did handle_tool_call_task
                              (effects
                                 (dispatcher.handle_tool_call
                                    R call_id name arguments
                                    (socket_faults s)))))
        by (apply did_quiet; discriminate).
      rewrite greetings_app, (quiet_greetings _ Hq), Nat.add_0_r.
      rewrite readiness_did.
      split; [exact I0 |].
      split; [exact I1 |]. split; [exact I2 |]. split; [exact I3 |].
      split; [exact I4 |]. split; [exact I5 | exact (Hquiet _ Hq)].
    + (* the call is torn down *)
      assert (Hq : quiet (did run_agent_task
                              (effects
                                 (session_error v e (socket_faults s)))))
        by (apply did_quiet; discriminate).
      rewrite greetings_app, (quiet_greetings _ Hq), Nat.add_0_r.
      rewrite readiness_did.
      split; [exact I0 |].
      split; [exact I1 |]. split; [exact I2 |]. split; [exact I3 |].
      split; [exact I4 |]. split; [exact I5 | exact (Hquiet _ Hq)].
Qed.
End GreetingFacts.

Section GreetingProgress.
Variable R : runtime.
Import bridge.

Lemma run_reachable v s s' : run R v s s' -> reachable R v s -> reachable R v s'.
Proof.
  induction 1 as [s | s s' s'' Hstep Hrun IH]; intro Hs; [exact Hs |].
  apply IH. exact (reachable_step R v s s' Hs Hstep).
Qed.

Lemma creating_greets v s :
  greeter s = Creating -> hd None (socket_faults s) = None ->
  exists s',
    run R v s s' /\ greeter s' = Greeted
    /\ history s' = (history s ++ [the_greeting])%list.
Proof.
  intros Hg Hf. eexists. split.
  - eapply run_on; [| apply run_here].
    eapply step_greeting_creates; [exact Hg | reflexivity].
  - cbn [greeter history]. rewrite (io_ok _ _ Hf). split; reflexivity.
Qed.

Lemma sleeping_greets v s :
  greeter s = Sleeping -> hd None (socket_faults s) = None ->
  exists s',
    run R v s s' /\ greeter s' = Greeted
    /\ history s' = (history s ++ [the_greeting])%list.
Proof.
  intros Hg Hf.
  destruct (creating_greets
              v
              (mkSession (stage s) (vars s) (to_azure s) (to_client s)
                         Creating
                         (tool_tasks s) (socket_faults s) (torn_down s)
                         (history s)) eq_refl Hf) as (s' & Hrun & Hdone).
  exists s'. split; [| exact Hdone].
  eapply run_on; [apply step_greeting_slept; exact Hg | exact Hrun].
Qed.

Lemma awaiting_greets v s :
  greeter s = AwaitingStart -> start_event (vars s) = true ->
  hd None (socket_faults s) = None ->
  exists s',
    run R v s s' /\ greeter s' = Greeted
    /\ history s' = (history s ++ [the_greeting])%list.
Proof.
  intros Hg Hset Hf.
  set (s1 := mkSession (stage s) (vars s) (to_azure s) (to_client s)
                       (after_wait v)
                       (tool_tasks s) (socket_faults s) (torn_down s)
                       (history s)).
  assert (H1 : step R v s s1) by (apply step_greeting_wakes; assumption).
  assert (H2 : exists s',
             run R v s1 s' /\ greeter s' = Greeted
             /\ history s' = (history s1 ++ [the_greeting])%list).
  { destruct v.
    - apply creating_greets; [reflexivity | exact Hf].
    - apply sleeping_greets; [reflexivity | exact Hf]. }
  destruct H2 as (s' & Hrun & Hdone).
  exists s'. split; [| exact Hdone].
  eapply run_on; [exact H1 | exact Hrun].
Qed.

(** A readiness signal received by the running loop sets the start event. *)
Lemma readiness_step v s now data :
  to_azure s = Running ->
  is_readiness R v (Received (Message now data)) = true ->
  exists s',
    step R v s s'
    /\ start_event (vars s') = true
    /\ to_azure s' = Running
    /\ greeter s' = greeter s
    /\ socket_faults s' = socket_faults s
    /\ greetings (history s') = greetings (history s).
Proof.
  intros Hrun Hr.
  destruct (turn_readiness R v (vars s) now data (socket_faults s) Hr)
    as (c' & effs & Hturn & Hset).
  eexists. split.
  - eapply step_receive with (inc := Message now data);
      [exact Hrun | reflexivity].
  - rewrite Hturn.
    cbn [vars to_azure greeter socket_faults history result pending effects
         snd].
    repeat split; try assumption.
    rewrite greetings_app.
    rewrite (quiet_greetings (Received (Message now data)
                                :: did forward_to_azure_task effs)).
    + apply Nat.add_0_r.
    + constructor; [reflexivity | apply did_quiet; discriminate].
Qed.
End GreetingProgress.

(** C6.  In every state a call of either variant can reach, whatever the
    client sends and however often it repeats its readiness message: the
    greeting coroutine has issued at most one [response.create]; it has
    issued exactly one precisely when it has returned; that command comes
    after a readiness message in the history of the call; the start event is
    set precisely when a readiness message has been received; and once one
    has been received, the coroutine, unless its command was refused, runs
    on to the state where it has issued exactly one, by that one command
    (the agent connection accepting it).  A readiness message that reaches
    the running client-to-agent loop before the greeting is therefore
    followed by exactly one greeting. *)
Theorem greeting_once
        (R : runtime) (v : bridge.variant) (s : bridge.session) :
  bridge.reachable R v s ->
  (bridge.greetings (bridge.history s) <= 1)%nat
  /\ (bridge.greetings (bridge.history s) = 1%nat
      <-> bridge.greeter s = bridge.Greeted)
  /\ (forall before after,
         bridge.history s = (before ++ the_greeting :: after)%list ->
         existsb (bridge.is_readiness R v) before = true)
  /\ (existsb (bridge.is_readiness R v) (bridge.history s) = true
      <-> bridge.start_event (bridge.vars s) = true)
  /\ (existsb (bridge.is_readiness R v) (bridge.history s) = true ->
      (forall e, bridge.greeter s <> bridge.GreetingFailed e) ->
      hd None (bridge.socket_faults s) = None ->
      exists s',
        bridge.run R v s s'
        /\ bridge.greeter s' = bridge.Greeted
        /\ bridge.greetings (bridge.history s') = 1%nat
        /\ (bridge.greeter s = bridge.Greeted
            \/ bridge.history s'
               = (bridge.history s ++ [the_greeting])%list))
  /\ (forall now data,
         bridge.to_azure s = bridge.Running ->
         bridge.greeter s = bridge.AwaitingStart ->
         bridge.is_readiness
           R v (bridge.Received (bridge.Message now data)) = true ->
         hd None (bridge.socket_faults s) = None ->
         exists s1 s2,
           bridge.step R v s s1
           /\ bridge.start_event (bridge.vars s1) = true
           /\ bridge.greetings (bridge.history s1) = 0%nat
           /\ bridge.run R v s1 s2
           /\ bridge.greeter s2 = bridge.Greeted
           /\ bridge.greetings (bridge.history s2) = 1%nat).
Proof.
  intro Hreach.
  destruct (greeting_invariant R v s Hreach)
    as (_ & I1 & I2 & I3 & I4 & I5 & I6).
  split; [| split; [| split; [| split; [| split]]]].
  - destruct (bridge.greeter s) eqn:E;
      try (rewrite I2 by discriminate; lia).
    rewrite I1 by reflexivity. lia.
  - split.
    + intro H1. destruct (bridge.greeter s) eqn:E; try reflexivity;
        rewrite I2 in H1 by discriminate; discriminate H1.
    + exact I1.
  - exact I6.
  - split; apply I3.
  - intros Hread Hok Hf.
    assert (Hset : bridge.start_event (bridge.vars s) = true)
      by (apply I3; exact Hread).
    assert (Hgo : bridge.greeter s = bridge.Greeted
                  \/ exists s',
                      bridge.run R v s s'
                      /\ bridge.greeter s' = bridge.Greeted
                      /\ bridge.history s'
                         = (bridge.history s ++ [the_greeting])%list).
    { destruct (bridge.greeter s) eqn:Hg.
      - destruct (I4 eq_refl) as [_ Hunset]. congruence.
      - right. apply awaiting_greets; assumption.
      - right. apply sleeping_greets; assumption.
      - right. apply creating_greets; assumption.
      - left. reflexivity.
      - exfalso. exact (Hok e eq_refl). }
    destruct Hgo as [Hdone | (s' & Hrun & Hdone & Hhist)].
    + exists s. split; [apply bridge.run_here |].
      split; [exact Hdone |]. split; [exact (I1 Hdone) | left; exact Hdone].
    + exists s'. split; [exact Hrun |]. split; [exact Hdone |].
      destruct (greeting_invariant R v s' (run_reachable R v s s' Hrun Hreach))
        as (_ & I1' & _).
      split; [exact (I1' Hdone) | right; exact Hhist].
  - intros now data Hrun Hg Hr Hf.
    destruct (readiness_step R v s now data Hrun Hr)
      as (s1 & Hstep & Hset & _ & Hg1 & Hf1 & Hn1).
    rewrite Hg in Hg1. rewrite <- Hf1 in Hf.
    destruct (awaiting_greets R v s1 Hg1 Hset Hf)
      as (s2 & Hrun2 & Hdone & _).
    exists s1, s2. split; [exact Hstep |]. split; [exact Hset |].
    split; [rewrite Hn1; apply I2; congruence |].
    split; [exact Hrun2 |]. split; [exact Hdone |].
    assert (Hreach2 : bridge.reachable R v s2).
    { apply (run_reachable R v s1 s2 Hrun2).
      exact (bridge.reachable_step R v s s1 Hreach Hstep). }
    destruct (greeting_invariant R v s2 Hreach2) as (_ & I1' & _).
    exact (I1' Hdone).
Qed.

(** A browser call whose client says start twice: after the first the
    start event is set and the greeting follows; one greeting in all. *)
Lemma greeting_once_witness :
  exists s,
    bridge.reachable example.rt bridge.Browser s
    /\ bridge.history s
       = (set_up bridge.Browser
            ++ [bridge.Received
                  (bridge.Message (float_of_int 1)
                                  (example.render example.browser_start));
                bridge.Received
                  (bridge.Message (float_of_int 2)
                                  (example.render example.browser_start));
                the_greeting])%list
    /\ (bridge.greetings (bridge.history s) <= 1)%nat
    /\ (bridge.greetings (bridge.history s) = 1%nat
        <-> bridge.greeter s = bridge.Greeted)
    /\ (existsb (bridge.is_readiness example.rt bridge.Browser)
                (bridge.history s) = true
        <-> bridge.start_event (bridge.vars s) = true).
Proof.
  pose proof (reachable_gathering example.rt bridge.Browser []) as H0.
  eassert (H1 : bridge.reachable example.rt bridge.Browser _).
  { eapply bridge.reachable_step; [exact H0 |].
    eapply bridge.step_receive
      with (inc := bridge.Message
                     (float_of_int 1) (example.render example.browser_start));
      reflexivity. }
  cbn in H1.
  eassert (H2 : bridge.reachable example.rt bridge.Browser _).
  { eapply bridge.reachable_step; [exact H1 |].
    eapply bridge.step_receive
      with (inc := bridge.Message
                     (float_of_int 2) (example.render example.browser_start));
      reflexivity. }
  cbn in H2.
  eassert (H3 : bridge.reachable example.rt bridge.Browser _).
  { eapply bridge.reachable_step; [exact H2 |].
    eapply bridge.step_greeting_wakes; reflexivity. }
  cbn in H3.
  eassert (H4 : bridge.reachable example.rt bridge.Browser _).
  { eapply bridge.reachable_step; [exact H3 |].
    eapply bridge.step_greeting_creates; reflexivity. }
  cbn in H4.
  eexists. split; [exact H4 |]. split; [reflexivity |].
  destruct (greeting_once _ _ _ H4) as (Hle & Hiff & _ & Hset & _).
  split; [exact Hle |]. split; [exact Hiff | exact Hset].
Defined.

(* ================================================================== *)
(** * Further properties of the code                                   *)
(* ================================================================== *)

(** ** The transcoder, sample by sample *)

Section SampleFacts.
Import audioop.

Lemma Z_of_byte_range b : 0 <= Z_of_byte b <= 255.
Proof.
  unfold Z_of_byte. pose proof (Byte.to_N_bounded b) as H.
  lia.
Qed.

Lemma Z_of_byte_of_Z x : Z_of_byte (byte_of_Z x) = x mod 256.
Proof.
  pose proof (Z.mod_pos_bound x 256 ltac:(lia)) as Hx.
  unfold byte_of_Z, Z_of_byte.
  destruct (Byte.of_N (Z.to_N (x mod 256))) as [b |] eqn:E.
  - apply Byte.to_of_N in E. rewrite E. apply Z2N.id. lia.
  - apply Byte.of_N_None_iff in E. lia.
Qed.

Lemma sample16_put16 v :
  exists lo hi, put16 v = [lo; hi] /\ sample16 lo hi = wrap16 v.
Proof.
  unfold put16, sample16, wrap16. cbv zeta.
  pose proof (Z.mod_pos_bound v 65536 ltac:(lia)) as Hu.
  set (u := v mod 65536) in *.
  eexists. eexists. split; [reflexivity |].
  rewrite !Z_of_byte_of_Z. rewrite Z.mod_mod by lia.
  rewrite (Z.mod_small (u / 256) 256)
    by (split; [apply Z.div_pos; lia | apply Z.div_lt_upper_bound; lia]).
  replace (u mod 256 + 256 * (u / 256)) with u
    by (rewrite (Z.div_mod u 256) at 1; lia).
  reflexivity.
Qed.

Lemma samples16_flat_put16_wrap l :
  samples16 (flat_map put16 l) = Some (map wrap16 l).
Proof.
  induction l as [| v l IH]; [reflexivity |].
  destruct (sample16_put16 v) as (lo & hi & E & Hs).
  change (flat_map put16 (v :: l)) with (put16 v ++ flat_map put16 l)%list.
  rewrite E. cbn [app samples16]. rewrite IH, Hs. reflexivity.
Qed.

Lemma wrap16_in16 v : in16 v -> wrap16 v = v.
Proof.
  unfold in16, wrap16. intro H. cbv zeta.
  destruct (Z_lt_le_dec v 0) as [Hneg | Hpos].
  - replace (v mod 65536) with (v + 65536)
      by (apply (Z.mod_unique _ _ (-1)); lia).
    destruct (v + 65536 <? 32768) eqn:E; [apply Z.ltb_lt in E |]; lia.
  - rewrite Z.mod_small by lia.
    destruct (v <? 32768) eqn:E; [| apply Z.ltb_ge in E]; lia.
Qed.

Lemma map_wrap16_in16 l : Forall in16 l -> map wrap16 l = l.
Proof.
  induction 1 as [| v l Hv Hl IH]; [reflexivity |].
  cbn [map]. now rewrite IH, wrap16_in16.
Qed.

Lemma sample16_in16 lo hi : in16 (sample16 lo hi).
Proof.
  unfold in16, sample16. cbv zeta.
  pose proof (Z_of_byte_range lo). pose proof (Z_of_byte_range hi).
  destruct (Z_of_byte lo + 256 * Z_of_byte hi <? 32768) eqn:E;
    [apply Z.ltb_lt in E | apply Z.ltb_ge in E]; lia.
Qed.

Lemma samples16_in16 fragment l :
  samples16 fragment = Some l -> Forall in16 l.
Proof.
  revert l. induction fragment as [| b | lo hi r IH] using pairs_ind;
    intros l H; simpl in H.
  - inversion H. constructor.
  - discriminate.
  - destruct (samples16 r) as [l' |] eqn:E; [| discriminate].
    inversion H; subst. constructor; [apply sample16_in16 | now apply IH].
Qed.

Lemma samples16_odd fragment :
  Nat.even (List.length fragment) = false -> samples16 fragment = None.
Proof.
  induction fragment as [| b | lo hi r IH] using pairs_ind; simpl; intro H.
  - discriminate.
  - reflexivity.
  - now rewrite IH.
Qed.

Lemma decimate_map {A B} (g : A -> B) l :
  forall skip, decimate skip (map g l) = map g (decimate skip l).
Proof.
  induction l as [| x l IH]; intro skip; [reflexivity |].
  destruct skip; cbn [map decimate]; now rewrite IH.
Qed.

Lemma decimate_Forall {A} (P : A -> Prop) l :
  Forall P l -> forall skip, Forall P (decimate skip l).
Proof.
  induction 1 as [| x l Hx Hl IH]; intro skip; [constructor |].
  destruct skip; cbn [decimate]; [constructor |]; auto.
Qed.

Lemma decimate_length {A} (l : list A) :
  forall skip, (skip <= 2)%nat ->
  Z.of_nat (List.length (decimate skip l))
  = (Z.of_nat (List.length l) + (2 - Z.of_nat skip)) / 3.
Proof.
  induction l as [| x l IH]; intros skip Hs.
  - destruct skip as [| [| [| k]]]; [reflexivity | reflexivity | reflexivity |].
    lia.
  - destruct skip as [| k]; cbn [decimate List.length].
    + rewrite !Nat2Z.inj_succ. rewrite (IH 2%nat) by lia.
      set (n := Z.of_nat (List.length l)).
      change (Z.of_nat 2) with 2. change (Z.of_nat 0) with 0.
      pose proof (Z.div_mod (n + (2 - 2)) 3 ltac:(lia)).
      pose proof (Z.mod_pos_bound (n + (2 - 2)) 3 ltac:(lia)).
      pose proof (Z.div_mod (Z.succ n + (2 - 0)) 3 ltac:(lia)).
      pose proof (Z.mod_pos_bound (Z.succ n + (2 - 0)) 3 ltac:(lia)).
      lia.
    + rewrite (IH k) by lia. rewrite !Nat2Z.inj_succ.
      replace (Z.succ (Z.of_nat (List.length l)) + (2 - Z.succ (Z.of_nat k)))
        with (Z.of_nat (List.length l) + (2 - Z.of_nat k)) by lia.
      reflexivity.
Qed.

(** A sample crosses the three-to-one resampler unchanged. *)
Lemma held_sample s prev :
  Z.shiftr
    (Z.quot (prev * 0 + Z.quot (1 * (s * 65536) + 0 * prev) (1 + 0) * (1 - 0))
            1)
    16
  = s.
Proof.
  change (1 + 0) with 1. change (1 - 0) with 1. change (0 * prev) with 0.
  rewrite Z.mul_0_r, Z.add_0_l, Z.add_0_r, !Z.quot_1_r, Z.mul_1_r, Z.mul_1_l.
  rewrite Z.shiftr_div_pow2 by lia. change (2 ^ 16) with 65536.
  apply Z.div_mul. lia.
Qed.

(** Three to one, the resampler keeps every third sample. *)
Lemma ratecv_loop_down_decimates input :
  forall d prev cur,
    -3 <= d <= -1 ->
    ratecv_loop 3 1 input d prev cur = decimate (Z.to_nat (-1 - d)) input.
Proof.
  induction input as [| s rest IH]; intros d prev cur Hd; [reflexivity |].
  assert (C : d = -3 \/ d = -2 \/ d = -1) by lia.
  destruct C as [-> | [-> | ->]]; cbn [ratecv_loop].
  - change (emit 3 1 (S (Z.to_nat (-3 + 1))) (-3 + 1) cur
                 (Z.quot (1 * (s * 65536) + 0 * cur) (1 + 0)))
      with (@nil Z, -2).
    cbn [app]. rewrite IH by lia. reflexivity.
  - change (emit 3 1 (S (Z.to_nat (-2 + 1))) (-2 + 1) cur
                 (Z.quot (1 * (s * 65536) + 0 * cur) (1 + 0)))
      with (@nil Z, -1).
    cbn [app]. rewrite IH by lia. reflexivity.
  - change (emit 3 1 (S (Z.to_nat (-1 + 1))) (-1 + 1) cur
                 (Z.quot (1 * (s * 65536) + 0 * cur) (1 + 0)))
      with ([Z.shiftr
               (Z.quot (cur * 0
                        + Z.quot (1 * (s * 65536) + 0 * cur) (1 + 0) * (1 - 0))
                       1)
               16], -3).
    cbn [app]. rewrite held_sample, IH by lia. reflexivity.
Qed.

(** A sample crosses the one-to-three resampler unchanged as the last of
    its three. *)
Lemma kept_sample s prev :
  Z.shiftr
    (Z.quot (prev * 0 + Z.quot (1 * (s * 65536) + 0 * prev) (1 + 0) * (3 - 0))
            3)
    16
  = s.
Proof.
  change (1 + 0) with 1. change (3 - 0) with 3. change (0 * prev) with 0.
  rewrite Z.mul_0_r, Z.add_0_l, Z.add_0_r, Z.quot_1_r, Z.mul_1_l.
  rewrite Z.quot_mul by lia.
  rewrite Z.shiftr_div_pow2 by lia. change (2 ^ 16) with 65536.
  apply Z.div_mul. lia.
Qed.

Lemma ratecv_loop_up_keeps_next input :
  forall prev cur,
    decimate 2 (ratecv_loop 1 3 input (-1) prev cur) = input.
Proof.
  induction input as [| s rest IH]; intros prev cur; [reflexivity |].
  cbn [ratecv_loop].
  set (c := Z.quot (1 * (s * 65536) + 0 * cur) (1 + 0)).
  change (emit 1 3 (S (Z.to_nat (-1 + 3))) (-1 + 3) cur c)
    with ([Z.shiftr (Z.quot (cur * 2 + c * (3 - 2)) 3) 16;
           Z.shiftr (Z.quot (cur * 1 + c * (3 - 1)) 3) 16;
           Z.shiftr (Z.quot (cur * 0 + c * (3 - 0)) 3) 16], -1).
  cbn [app decimate]. unfold c. rewrite kept_sample, IH. reflexivity.
Qed.

Lemma ratecv_loop_up_keeps input prev cur :
  decimate 0 (ratecv_loop 1 3 input (-3) prev cur) = input.
Proof.
  destruct input as [| s rest]; [reflexivity |].
  cbn [ratecv_loop].
  set (c := Z.quot (1 * (s * 65536) + 0 * cur) (1 + 0)).
  change (emit 1 3 (S (Z.to_nat (-3 + 3))) (-3 + 3) cur c)
    with ([Z.shiftr (Z.quot (cur * 0 + c * (3 - 0)) 3) 16], -1).
  cbn [app decimate]. unfold c.
  rewrite kept_sample, ratecv_loop_up_keeps_next. reflexivity.
Qed.

Lemma st_ulaw2linear16_in16 b : in16 (st_ulaw2linear16 b).
Proof. destruct b; vm_compute; split; discriminate. Qed.

Lemma companding_round_trip b :
  st_14linear2ulaw (Z.shiftr (st_ulaw2linear16 b) 2) = canonical b.
Proof. destruct b; vm_compute; reflexivity. Qed.
End SampleFacts.

Section TranscoderShape.
Import audioop.

Lemma uplink_samples pcm l :
  samples16 pcm = Some l ->
  transcoder.resample_pcm_24k_to_mulaw_8k pcm
  = Ok (map (fun s => st_14linear2ulaw (Z.shiftr s 2)) (decimate 0 l)).
Proof.
  intro E. unfold transcoder.resample_pcm_24k_to_mulaw_8k.
  rewrite (ratecv_down _ _ E). cbn [obind].
  rewrite (ratecv_loop_down_decimates l (-1) 0 0) by lia.
  change (Z.to_nat (-1 - -1)) with 0%nat.
  unfold lin2ulaw. rewrite samples16_flat_put16_wrap.
  rewrite map_wrap16_in16
    by (apply decimate_Forall; exact (samples16_in16 _ _ E)).
  reflexivity.
Qed.

Lemma downlink_samples chunk :
  transcoder.resample_mulaw_8k_to_pcm_24k chunk
  = Ok (flat_map put16
                 (ratecv_loop 1 3 (map st_ulaw2linear16 chunk) (-3) 0 0)).
Proof.
  unfold transcoder.resample_mulaw_8k_to_pcm_24k, ulaw2lin. cbn [obind].
  rewrite flat_map_put16_map.
  assert (E : samples16 (flat_map put16 (map st_ulaw2linear16 chunk))
              = Some (map st_ulaw2linear16 chunk)).
  { rewrite samples16_flat_put16_wrap. f_equal. apply map_wrap16_in16.
    apply Forall_map. apply Forall_forall. intros b _.
    apply st_ulaw2linear16_in16. }
  rewrite (ratecv_up _ _ E). reflexivity.
Qed.
Lemma uplink_odd pcm :
  Nat.even (List.length pcm) = false ->
  transcoder.resample_pcm_24k_to_mulaw_8k pcm = Raise not_whole_frames.
Proof.
  intro H. unfold transcoder.resample_pcm_24k_to_mulaw_8k.
  rewrite (ratecv_odd _ _ _ (samples16_odd _ H)). reflexivity.
Qed.

Lemma uplink_even pcm :
  Nat.even (List.length pcm) = true ->
  exists mulaw, transcoder.resample_pcm_24k_to_mulaw_8k pcm = Ok mulaw.
Proof.
  intro H. destruct (samples16_even _ H) as [l E].
  rewrite (uplink_samples _ _ E). eauto.
Qed.
End TranscoderShape.

(** X1.  The conversion from companded 8 kHz to linear 24 kHz accepts every
    byte string: [m] bytes give [3m - 2] samples of two bytes each, and the
    empty chunk gives the empty chunk. *)
Theorem downlink_length (mulaw_chunk : bytes) :
  exists pcm_24k,
    transcoder.resample_mulaw_8k_to_pcm_24k mulaw_chunk = Ok pcm_24k
    /\ List.length pcm_24k = (2 * (3 * List.length mulaw_chunk - 2))%nat.
Proof.
  rewrite downlink_samples. eexists. split; [reflexivity |].
  now rewrite flat_put16_length, ratecv_loop_up_length, length_map.
Qed.

(** X2.  The conversion from linear 24 kHz to companded 8 kHz raises
    [audioop.error] on a chunk of odd length, and turns a chunk of [n]
    samples into [ceil(n / 3)] bytes. *)
Theorem uplink_length (pcm_chunk_24k : bytes) :
  (Nat.even (List.length pcm_chunk_24k) = false ->
   transcoder.resample_pcm_24k_to_mulaw_8k pcm_chunk_24k
   = Raise audioop.not_whole_frames)
  /\ (Nat.even (List.length pcm_chunk_24k) = true ->
      exists mulaw,
        transcoder.resample_pcm_24k_to_mulaw_8k pcm_chunk_24k = Ok mulaw
        /\ Z.of_nat (List.length pcm_chunk_24k)
           = 2 * Z.of_nat (Nat.div2 (List.length pcm_chunk_24k))
        /\ Z.of_nat (List.length mulaw)
           = (Z.of_nat (Nat.div2 (List.length pcm_chunk_24k)) + 2) / 3).
Proof.
  split; intro H.
  - unfold transcoder.resample_pcm_24k_to_mulaw_8k.
    rewrite (ratecv_odd _ _ _ (samples16_odd _ H)). reflexivity.
  - destruct (samples16_even _ H) as [l E].
    rewrite (uplink_samples _ _ E). eexists. split; [reflexivity |].
    pose proof (samples16_length _ _ E) as Hlen. rewrite Hlen.
    replace (Nat.div2 (2 * List.length l)) with (List.length l)
      by (symmetry; apply Nat.div2_double).
    split; [lia |].
    rewrite length_map, (decimate_length l 0) by lia. reflexivity.
Qed.

Lemma uplink_length_witness :
  transcoder.resample_pcm_24k_to_mulaw_8k [x01; x02; x03]
  = Raise audioop.not_whole_frames.
Proof.
  destruct (uplink_length [x01; x02; x03]) as [Hodd _].
  apply Hodd. reflexivity.
Defined.

(** X3.  The conversion from linear 24 kHz to companded 8 kHz keeps the
    first of every three samples and compands it; the two samples between
    are dropped unread by any filter. *)
Theorem uplink_keeps_every_third_sample
        (pcm_chunk_24k : bytes) (samples : list Z) :
  audioop.samples16 pcm_chunk_24k = Some samples ->
  transcoder.resample_pcm_24k_to_mulaw_8k pcm_chunk_24k
  = Ok (map (fun s => audioop.st_14linear2ulaw (Z.shiftr s 2))
            (decimate 0 samples)).
Proof. apply uplink_samples. Qed.

(** Four samples, 256, -1, 7 and 1000: the first and the fourth are kept. *)
Lemma uplink_keeps_every_third_sample_witness :
  transcoder.resample_pcm_24k_to_mulaw_8k
    [x00; x01; xff; xff; x07; x00; xe8; x03]
  = Ok (map (fun s => audioop.st_14linear2ulaw (Z.shiftr s 2)) [256; 1000]).
Proof.
  apply (uplink_keeps_every_third_sample
           [x00; x01; xff; xff; x07; x00; xe8; x03] [256; -1; 7; 1000]).
  reflexivity.
Defined.

(** X4.  Telephony audio converted to the agent's format and back is the
    same byte string, except that the code of negative zero, [0x7f], comes
    back as the code of zero, [0xff]. *)
Theorem companded_round_trip (mulaw_chunk : bytes) :
  exists pcm_24k,
    transcoder.resample_mulaw_8k_to_pcm_24k mulaw_chunk = Ok pcm_24k
    /\ transcoder.resample_pcm_24k_to_mulaw_8k pcm_24k
       = Ok (map canonical mulaw_chunk).
Proof.
  rewrite downlink_samples. eexists. split; [reflexivity |].
  rewrite (uplink_samples _ _ (samples16_flat_put16_wrap _)).
  rewrite decimate_map, ratecv_loop_up_keeps.
  rewrite map_wrap16_in16
    by (apply Forall_map; apply Forall_forall; intros b _;
        apply st_ulaw2linear16_in16).
  rewrite map_map. f_equal. apply map_ext. intro b.
  apply companding_round_trip.
Qed.

(** ** The requests of the search tools *)

Section DictFacts.

Lemma lookup_setitem_same k v items :
  lookup k (setitem k v items) = Some v.
Proof.
  induction items as [| [k' v'] r IH]; cbn [setitem lookup].
  - now rewrite String.eqb_refl.
  - destruct (String.eqb k k') eqn:E; cbn [lookup]; rewrite ?E;
      [rewrite String.eqb_refl; reflexivity | exact IH].
Qed.

Lemma lookup_setitem_other k k' v items :
  String.eqb k' k = false ->
  lookup k' (setitem k v items) = lookup k' items.
Proof.
  intro Hne. induction items as [| [k0 v0] r IH]; cbn [setitem lookup].
  - now rewrite Hne.
  - destruct (String.eqb k k0) eqn:E; cbn [lookup].
    + apply String.eqb_eq in E. subst k0. now rewrite Hne.
    + now rewrite IH.
Qed.

End DictFacts.

Section RequestFacts.
Variable R : runtime.
Import real_estate_tools.

Lemma search_payload_items query filters :
  exists items,
    search_payload R query filters = PDict items
    /\ lookup "search" items = Some query
    /\ lookup "top" items = Some (PInt 10)
    /\ lookup "count" items = Some (PBool true)
    /\ lookup "vectorQueries" items
       = (if truthy (_generate_embedding R query)
          then Some (vector_queries (_generate_embedding R query) 10)
          else None)
    /\ lookup "filter" items
       = match filters with
         | [] => None
         | _ => Some (PStr (join " and " filters))
         end.
Proof.
  unfold search_payload. cbv zeta.
  destruct (truthy (_generate_embedding R query)); destruct filters;
    eexists; (split; [reflexivity |]);
    rewrite ?lookup_setitem_same;
    repeat (rewrite lookup_setitem_other by reflexivity);
    rewrite ?lookup_setitem_same;
    repeat split; reflexivity.
Qed.

Lemma search_filters_nil property_type location min_price max_price bedrooms :
  search_filters R property_type location min_price max_price bedrooms = []
  <-> truthy property_type = false /\ truthy location = false
      /\ min_price = PNone /\ max_price = PNone /\ bedrooms = PNone.
Proof.
  unfold search_filters. cbv zeta. split.
  - intro H.
    destruct (truthy property_type); [discriminate H |].
    destruct (truthy location); [discriminate H |].
    destruct min_price; try discriminate H.
    destruct max_price; try discriminate H.
    destruct bedrooms; try discriminate H.
    repeat split.
  - intros (-> & -> & -> & -> & ->). reflexivity.
Qed.

Lemma not_configured_no_embedding text :
  unset (OPENAI_ENDPOINT R) || unset (OPENAI_API_KEY R) = true ->
  _generate_embedding R text = PNone.
Proof. intro H. unfold _generate_embedding. now rewrite H. Qed.

End RequestFacts.

(** X5.  The search request carries a [filter] exactly when a criterion is
    given: an empty property type, an empty location and absent prices and
    bedrooms give no filter at all, while any other value, 0 included, gives
    one.  The filter is the criteria joined with [" and "]. *)
Theorem search_filter_follows_the_criteria
        (R : runtime)
        (query property_type location min_price max_price bedrooms : value) :
  exists items,
    real_estate_tools.search_payload
      R query
      (real_estate_tools.search_filters
         R property_type location min_price max_price bedrooms)
    = PDict items
    /\ (lookup "filter" items = None
        <-> truthy property_type = false /\ truthy location = false
            /\ min_price = PNone /\ max_price = PNone /\ bedrooms = PNone)
    /\ (forall text,
           lookup "filter" items = Some text ->
           text = PStr (join " and "
                             (real_estate_tools.search_filters
                                R property_type location
                                min_price max_price bedrooms))).
Proof.
  destruct (search_payload_items
              R query
              (real_estate_tools.search_filters
                 R property_type location min_price max_price bedrooms))
    as (items & E & _ & _ & _ & _ & Hfilter).
  exists items. split; [exact E |]. rewrite Hfilter.
  pose proof (search_filters_nil
                R property_type location min_price max_price bedrooms) as Hnil.
  destruct (real_estate_tools.search_filters
              R property_type location min_price max_price bedrooms)
    as [| x l] eqn:Ef.
  - split.
    + split; [intros _; apply Hnil; reflexivity | reflexivity].
    + intros text H. discriminate H.
  - split.
    + split; [intro H; discriminate H |].
      intro H. apply Hnil in H. discriminate H.
    + intros text H. now inversion H.
Qed.

(** A search for studios: bedrooms 0 is a criterion. *)
Lemma search_filter_follows_the_criteria_witness :
  exists items,
    real_estate_tools.search_payload
      example.rt (PStr "studio")
      (real_estate_tools.search_filters
         example.rt (PStr EmptyString) (PStr EmptyString)
         PNone PNone (PInt 0))
    = PDict items
    /\ lookup "filter" items = Some (PStr "bedrooms eq 0").
Proof.
  destruct (search_filter_follows_the_criteria
              example.rt (PStr "studio") (PStr EmptyString) (PStr EmptyString)
              PNone PNone (PInt 0))
    as (items & E & Hnone & Hsome).
  exists items. split; [exact E |].
  destruct (lookup "filter" items) as [text |] eqn:El.
  - rewrite (Hsome text eq_refl). reflexivity.
  - destruct (proj1 Hnone eq_refl) as (_ & _ & _ & _ & Hb). discriminate Hb.
Defined.

(** X6.  Every search request asks for the query text, at most ten results
    and a total count.  It carries a vector query exactly when an embedding
    was obtained; when the embedding service is not configured the search is
    by keyword alone. *)
Theorem search_degrades_to_keywords
        (R : runtime) (query : value) (filters : list string) :
  exists items,
    real_estate_tools.search_payload R query filters = PDict items
    /\ lookup "search" items = Some query
    /\ lookup "top" items = Some (PInt 10)
    /\ lookup "count" items = Some (PBool true)
    /\ (truthy (real_estate_tools._generate_embedding R query) = false ->
        lookup "vectorQueries" items = None)
    /\ (truthy (real_estate_tools._generate_embedding R query) = true ->
        lookup "vectorQueries" items
        = Some (real_estate_tools.vector_queries
                  (real_estate_tools._generate_embedding R query) 10))
    /\ (real_estate_tools.unset (real_estate_tools.OPENAI_ENDPOINT R)
        || real_estate_tools.unset (real_estate_tools.OPENAI_API_KEY R)
        = true ->
        lookup "vectorQueries" items = None).
Proof.
  destruct (search_payload_items R query filters)
    as (items & E & Hs & Ht & Hc & Hv & _).
  exists items. repeat (split; [assumption |]).
  split; [| split].
  - intro H. now rewrite Hv, H.
  - intro H. now rewrite Hv, H.
  - intro H. rewrite Hv, (not_configured_no_embedding R query H).
    reflexivity.
Qed.

Lemma search_degrades_to_keywords_witness :
  exists items,
    real_estate_tools.search_payload example.rt (PStr "villa") [] = PDict items
    /\ lookup "vectorQueries" items = None.
Proof.
  destruct (search_degrades_to_keywords example.rt (PStr "villa") [])
    as (items & E & _ & _ & _ & _ & _ & H).
  exists items. split; [exact E | apply H; reflexivity].
Defined.

(** ** Failures of the collaborators *)

(** X7.  [_generate_embedding] gives [None] whenever the embedding cannot
    be had: the service is not configured, the request raises, the status
    is not 200, the body is not JSON, or the body lacks the vector.  From a
    well-formed reply it gives the vector of the first data item. *)
Theorem embedding_is_none_on_failure (R : runtime) (text : value) :
  let request :=
    requests_post
      R
      (format_env (real_estate_tools.OPENAI_ENDPOINT R)
         ++ "/openai/deployments/" ++ real_estate_tools.EMBEDDING_DEPLOYMENT R
         ++ "/embeddings?api-version=" ++ real_estate_tools.OPENAI_API_VERSION)
      (real_estate_tools._get_openai_headers R)
      (PDict [("input", text); ("dimensions", PInt 3072)])
      10 in
  (real_estate_tools.unset (real_estate_tools.OPENAI_ENDPOINT R)
   || real_estate_tools.unset (real_estate_tools.OPENAI_API_KEY R) = true ->
   real_estate_tools._generate_embedding R text = PNone)
  /\ (real_estate_tools.unset (real_estate_tools.OPENAI_ENDPOINT R)
      || real_estate_tools.unset (real_estate_tools.OPENAI_API_KEY R) = false ->
      (forall e,
          request = Raise e ->
          real_estate_tools._generate_embedding R text = PNone)
      /\ (forall reply,
             request = Ok reply -> status_code reply <> 200 ->
             real_estate_tools._generate_embedding R text = PNone)
      /\ (forall reply e,
             request = Ok reply -> status_code reply = 200 ->
             response_json reply = Raise e ->
             real_estate_tools._generate_embedding R text = PNone)
      /\ (forall reply items,
             request = Ok reply -> status_code reply = 200 ->
             response_json reply = Ok (PDict items) ->
             lookup "data" items = None \/ lookup "data" items = Some (PList []) ->
             real_estate_tools._generate_embedding R text = PNone)
      /\ (forall reply items first rest vector,
             request = Ok reply -> status_code reply = 200 ->
             response_json reply = Ok (PDict items) ->
             lookup "data" items = Some (PList (PDict first :: rest)) ->
             lookup "embedding" first = Some vector ->
             real_estate_tools._generate_embedding R text = vector)).
Proof.
  cbv zeta. split.
  - apply not_configured_no_embedding.
  - intro Hc. unfold real_estate_tools._generate_embedding. rewrite Hc.
    cbv zeta.
    change real_estate_tools.EMBEDDING_DIMENSIONS with 3072.
    split; [| split; [| split; [| split]]].
    + intros e E. rewrite E. reflexivity.
    + intros reply E Hs. rewrite E. cbn [obind].
      apply Z.eqb_neq in Hs. rewrite Hs. reflexivity.
    + intros reply e E Hs Ej. rewrite E. cbn [obind].
      rewrite Hs, Ej. reflexivity.
    + intros reply items E Hs Ej Hd. rewrite E. cbn [obind].
      rewrite Hs, Ej. cbn [Z.eqb Pos.eqb obind getitem].
      destruct Hd as [Hd | Hd]; rewrite Hd; reflexivity.
    + intros reply items first rest vector E Hs Ej Hd Hv.
      rewrite E. cbn [obind]. rewrite Hs, Ej.
      cbn [Z.eqb Pos.eqb obind getitem]. rewrite Hd.
      cbn [obind getitem0 getitem]. rewrite Hv. reflexivity.
Qed.

(** The example runtime has no embedding service configured. *)
Lemma embedding_is_none_on_failure_witness :
  real_estate_tools._generate_embedding example.rt (PStr "villa") = PNone.
Proof.
  destruct (embedding_is_none_on_failure example.rt (PStr "villa"))
    as [Hunset _].
  apply Hunset. reflexivity.
Defined.


(** X8.  [search_properties] turns every failure of the search service
    into an error object: no configuration, a request that raises, a status
    other than 200, a body that is not JSON, and a body that is not an
    object. *)
Theorem search_failures_are_error_payloads
        (R : runtime)
        (query property_type location min_price max_price bedrooms : value) :
  let request :=
    requests_post
      R (real_estate_tools.search_url R)
      (real_estate_tools._get_search_headers R)
      (real_estate_tools.search_payload
         R query
         (real_estate_tools.search_filters
            R property_type location min_price max_price bedrooms))
      15 in
  let answer :=
    real_estate_tools.search_properties
      R query property_type location min_price max_price bedrooms in
  (real_estate_tools.unset (real_estate_tools.SEARCH_ENDPOINT R)
   || real_estate_tools.unset (real_estate_tools.SEARCH_API_KEY R) = true ->
   answer = error_payload "Search service not configured")
  /\ (real_estate_tools.unset (real_estate_tools.SEARCH_ENDPOINT R)
      || real_estate_tools.unset (real_estate_tools.SEARCH_API_KEY R) = false ->
      (forall e,
          request = Raise e ->
          answer = error_payload ("Search error: " ++ exn_msg e))
      /\ (forall reply,
             request = Ok reply -> status_code reply <> 200 ->
             answer
             = error_payload
                 ("Search failed: " ++ str R (PInt (status_code reply))))
      /\ (forall reply e,
             request = Ok reply -> status_code reply = 200 ->
             response_json reply = Raise e ->
             answer = error_payload ("Search error: " ++ exn_msg e))
      /\ (forall reply body,
             request = Ok reply -> status_code reply = 200 ->
             response_json reply = Ok body ->
             (forall items, body <> PDict items) ->
             answer
             = error_payload
                 ("Search error: '" ++ type_name body
                    ++ "' object has no attribute 'get'"))).
Proof.
  cbv zeta. unfold real_estate_tools.search_properties, error_payload. split.
  - intro H. rewrite H. reflexivity.
  - intro H. rewrite H. cbv zeta. split; [| split; [| split]].
    + intros e E. rewrite E. reflexivity.
    + intros reply E Hs. rewrite E. cbn [obind otry].
      apply Z.eqb_neq in Hs. rewrite Hs. reflexivity.
    + intros reply e E Hs Ej. rewrite E. cbn [obind otry].
      rewrite Hs, Ej. reflexivity.
    + intros reply body E Hs Ej Hb. rewrite E. cbn [obind otry].
      rewrite Hs, Ej. cbn [Z.eqb Pos.eqb obind otry].
      destruct body; try reflexivity. exfalso. exact (Hb _ eq_refl).
Qed.

(** The example service answers every request; a runtime whose search
    service is down shows the error. *)
Lemma search_failures_are_error_payloads_witness :
  real_estate_tools.search_properties
    (mkRuntime example.example_getenv example.example_str
               example.example_json_loads example.example_b64decode
               example.example_b64encode
               (fun _ _ _ _ =>
                  Raise (mkExn RequestException "Connection refused")))
    (PStr "villa") (PStr EmptyString) (PStr EmptyString) PNone PNone PNone
  = error_payload "Search error: Connection refused".
Proof.
  destruct (search_failures_are_error_payloads
              (mkRuntime example.example_getenv example.example_str
                         example.example_json_loads example.example_b64decode
                         example.example_b64encode
                         (fun _ _ _ _ =>
                            Raise (mkExn RequestException
                                         "Connection refused")))
              (PStr "villa") (PStr EmptyString) (PStr EmptyString)
              PNone PNone PNone)
    as [_ Hconfigured].
  destruct (Hconfigured eq_refl) as [Hraise _].
  apply (Hraise (mkExn RequestException "Connection refused")).
  reflexivity.
Defined.

(** X9.  [get_property_details] describes the first listing of the reply
    and no other: the eight fields are read from it, a field the listing
    lacks is [None], and what follows the first listing is not looked at. *)
Theorem details_describe_the_first_listing
        (R : runtime) (reference_number : value)
        (reply : response) (body first : list (string * value))
        (rest : list value) :
  let field k :=
    match lookup k first with Some v => v | None => PNone end in
  real_estate_tools.unset (real_estate_tools.SEARCH_ENDPOINT R)
  || real_estate_tools.unset (real_estate_tools.SEARCH_API_KEY R) = false ->
  requests_post R (real_estate_tools.search_url R)
                (real_estate_tools._get_search_headers R)
                (real_estate_tools.details_payload R reference_number)
                10
  = Ok reply ->
  status_code reply = 200 ->
  response_json reply = Ok (PDict body) ->
  lookup "value" body = Some (PList (PDict first :: rest)) ->
  real_estate_tools.get_property_details R reference_number
  = Ok (json_dumps
          (PDict [("found", PBool true);
                  ("property",
                   PDict [("reference", field "reference_number");
                          ("title", field "title");
                          ("type", field "property_type");
                          ("location", field "location");
                          ("price_qar", field "price");
                          ("bedrooms", field "bedrooms");
                          ("bathrooms", field "bathrooms");
                          ("url", field "url")])])).
Proof.
  cbv zeta. intros Hc E Hs Ej Hv.
  unfold real_estate_tools.get_property_details. rewrite Hc. cbv zeta.
  rewrite E. cbn [obind otry]. rewrite Hs, Ej.
  cbn [Z.eqb Pos.eqb obind otry get]. rewrite Hv.
  reflexivity.
Qed.

Lemma details_describe_the_first_listing_witness :
  real_estate_tools.get_property_details
    (mkRuntime example.example_getenv example.example_str
               example.example_json_loads example.example_b64decode
               example.example_b64encode
               (fun _ _ _ _ =>
                  Ok (mkResponse
                        200
                        (Ok (PDict [("value",
                                     PList [example.untitled_listing;
                                            PStr "a second hit"])])))))
    (PStr "EOA2-3BHK-FF-A")
  = Ok (json_dumps
          (PDict [("found", PBool true);
                  ("property",
                   PDict [("reference", PStr "EOA2-3BHK-FF-A");
                          ("title", PNone);
                          ("type", PStr "Apartment");
                          ("location", PStr "Al Wakra");
                          ("price_qar", PInt 6500);
                          ("bedrooms", PInt 3);
                          ("bathrooms", PInt 2);
                          ("url", PNone)])])).
Proof.
  apply (details_describe_the_first_listing
           (mkRuntime example.example_getenv example.example_str
                      example.example_json_loads example.example_b64decode
                      example.example_b64encode
                      (fun _ _ _ _ =>
                         Ok (mkResponse
                               200
                               (Ok (PDict [("value",
                                            PList [example.untitled_listing;
                                                   PStr "a second hit"])])))))
           (PStr "EOA2-3BHK-FF-A")
           (mkResponse
              200
              (Ok (PDict [("value",
                           PList [example.untitled_listing;
                                  PStr "a second hit"])])))
           [("value", PList [example.untitled_listing; PStr "a second hit"])]
           [("reference_number", PStr "EOA2-3BHK-FF-A");
            ("property_type", PStr "Apartment");
            ("location", PStr "Al Wakra");
            ("price", PInt 6500);
            ("bedrooms", PInt 3);
            ("bathrooms", PInt 2)]
           [PStr "a second hit"]);
    reflexivity.
Defined.

(** X10.  [get_property_details] answers an empty reply with [found]
    false and a message that names the reference, and turns every failure
    of the search service into an error object. *)
Theorem details_failures_are_error_payloads
        (R : runtime) (reference_number : value) :
  let request :=
    requests_post R (real_estate_tools.search_url R)
                  (real_estate_tools._get_search_headers R)
                  (real_estate_tools.details_payload R reference_number)
                  10 in
  let answer :=
    real_estate_tools.get_property_details R reference_number in
  (real_estate_tools.unset (real_estate_tools.SEARCH_ENDPOINT R)
   || real_estate_tools.unset (real_estate_tools.SEARCH_API_KEY R) = true ->
   answer = error_payload "Search service not configured")
  /\ (real_estate_tools.unset (real_estate_tools.SEARCH_ENDPOINT R)
      || real_estate_tools.unset (real_estate_tools.SEARCH_API_KEY R) = false ->
      (forall e,
          request = Raise e ->
          answer = error_payload ("Lookup error: " ++ exn_msg e))
      /\ (forall reply,
             request = Ok reply -> status_code reply <> 200 ->
             answer
             = error_payload
                 ("Lookup failed: " ++ str R (PInt (status_code reply))))
      /\ (forall reply e,
             request = Ok reply -> status_code reply = 200 ->
             response_json reply = Raise e ->
             answer = error_payload ("Lookup error: " ++ exn_msg e))
      /\ (forall reply body,
             request = Ok reply -> status_code reply = 200 ->
             response_json reply = Ok (PDict body) ->
             lookup "value" body = None
             \/ lookup "value" body = Some (PList []) ->
             answer
             = Ok (json_dumps
                     (PDict [("found", PBool false);
                             ("message",
                              PStr ("No property found with reference number "
                                      ++ str R reference_number))])))
      /\ (forall reply body other rest,
             request = Ok reply -> status_code reply = 200 ->
             response_json reply = Ok (PDict body) ->
             lookup "value" body = Some (PList (other :: rest)) ->
             (forall items, other <> PDict items) ->
             answer
             = error_payload
                 ("Lookup error: '" ++ type_name other
                    ++ "' object has no attribute 'get'"))).
Proof.
  cbv zeta. unfold real_estate_tools.get_property_details, error_payload.
  split.
  - intro H. rewrite H. reflexivity.
  - intro H. rewrite H. cbv zeta. split; [| split; [| split; [| split]]].
    + intros e E. rewrite E. reflexivity.
    + intros reply E Hs. rewrite E. cbn [obind otry].
      apply Z.eqb_neq in Hs. rewrite Hs. reflexivity.
    + intros reply e E Hs Ej. rewrite E. cbn [obind otry].
      rewrite Hs, Ej. reflexivity.
    + intros reply body E Hs Ej Hv. rewrite E. cbn [obind otry].
      rewrite Hs, Ej. cbn [Z.eqb Pos.eqb obind otry get].
      destruct Hv as [Hv | Hv]; rewrite Hv; reflexivity.
    + intros reply body other rest E Hs Ej Hv Hother.
      rewrite E. cbn [obind otry]. rewrite Hs, Ej.
      cbn [Z.eqb Pos.eqb obind otry get]. rewrite Hv.
      cbn [truthy negb getitem0 obind otry].
      destruct other; try reflexivity. exfalso. exact (Hother _ eq_refl).
Qed.

(** The example service holds nothing under the reference asked for. *)
Lemma details_failures_are_error_payloads_witness :
  real_estate_tools.get_property_details example.rt (PStr "JG-SHOP-A10")
  = Ok (json_dumps
          (PDict [("found", PBool false);
                  ("message",
                   PStr "No property found with reference number JG-SHOP-A10")])).
Proof.
  destruct (details_failures_are_error_payloads
              example.rt (PStr "JG-SHOP-A10")) as [_ Hconfigured].
  destruct (Hconfigured eq_refl) as (_ & _ & _ & Hempty & _).
  apply (Hempty (mkResponse 200 (Ok (PDict [("value", PList [])])))
                [("value", PList [])]);
    [reflexivity | reflexivity | reflexivity | right; reflexivity].
Defined.

(** ** What the dispatcher sends *)

Section SilentFacts.

Lemma silent_ret {A} (a : A) : silent (ret a).
Proof. intro f. split; [reflexivity | constructor]. Qed.

Lemma silent_raise {A} (e : exn) : silent (@raise A e).
Proof. intro f. split; [reflexivity | constructor]. Qed.

Lemma silent_lift {A} (c : outcome A) : silent (lift c).
Proof. destruct c; [apply silent_ret | apply silent_raise]. Qed.

Lemma silent_log lvl msg : silent (log lvl msg).
Proof. intro f. split; [reflexivity | repeat constructor]. Qed.

Lemma silent_bind {A B} (m : IO A) (k : A -> IO B) :
  silent m -> (forall a, silent (k a)) -> silent (bind m k).
Proof.
  intros Hm Hk f. unfold bind. destruct (Hm f) as [Hp Hl].
  destruct (result (m f)) as [a | e]; cbn [pending effects].
  - destruct (Hk a (pending (m f))) as [Hp' Hl'].
    split; [now rewrite Hp', Hp | now apply Forall_app].
  - split; assumption.
Qed.

Lemma silent_if {A} (b : bool) (m1 m2 : IO A) :
  silent m1 -> silent m2 -> silent (if b then m1 else m2).
Proof. destruct b; auto. Qed.

Lemma agent_commands_app l1 l2 :
  agent_commands (l1 ++ l2) = (agent_commands l1 ++ agent_commands l2)%list.
Proof.
  induction l1 as [| e l1 IH]; [reflexivity |].
  destruct e as [c | | | |]; cbn [app agent_commands]; now rewrite IH.
Qed.

Lemma client_messages_app l1 l2 :
  client_messages (l1 ++ l2)
  = (client_messages l1 ++ client_messages l2)%list.
Proof.
  induction l1 as [| e l1 IH]; [reflexivity |].
  destruct e as [| m | | |]; cbn [app client_messages]; now rewrite IH.
Qed.

Lemma logs_send_nothing logs :
  Forall (fun e => is_log e = true) logs ->
  agent_commands logs = [] /\ client_messages logs = [].
Proof.
  induction 1 as [| e l He Hl [IHa IHc]]; [split; reflexivity |].
  destruct e; try discriminate He. cbn. auto.
Qed.

End SilentFacts.

Section BranchFacts.
Variable R : runtime.
Import dispatcher.

Lemma bind_run {A B} (m : IO A) (k : A -> IO B) f :
  bind m k f
  = match result (m f) with
    | Ok a =>
        mkRan (result (k a (pending (m f))))
              (effects (m f) ++ effects (k a (pending (m f))))%list
              (pending (k a (pending (m f))))
    | Raise e => mkRan (Raise e) (effects (m f)) (pending (m f))
    end.
Proof. reflexivity. Qed.

Ltac quiet :=
  repeat first
         [ apply silent_ret | apply silent_log | apply silent_lift
         | apply silent_if
         | apply silent_bind; [| intro] ].

Lemma log_listings_silent props : forall i, silent (log_listings R i props).
Proof.
  induction props as [| prop rest IH]; intro i; cbn [log_listings].
  - apply silent_ret.
  - quiet. apply IH.
Qed.

Lemma search_branch_silent args : silent (search_branch R args).
Proof.
  unfold search_branch. quiet. apply log_listings_silent.
Qed.

Lemma details_branch_silent args : silent (details_branch R args).
Proof. unfold details_branch. quiet. Qed.

(** The part of [dispatch] before the two sends. *)
Lemma chosen_branch_silent name args :
  silent (if eq_str name "search_properties" then search_branch R args
          else if eq_str name "get_property_details"
               then details_branch R args
               else
                 log WARNING ("⚠️ Unknown tool: " ++ str R name) ;;
                 ret (json_dumps
                        (PDict [("error", PStr "Unknown tool called.")]))).
Proof.
  apply silent_if; [apply search_branch_silent |].
  apply silent_if; [apply details_branch_silent |].
  quiet.
Qed.

(** [dispatch] either raises before it sends anything, or it runs its two
    sends on the answer it has. *)
Lemma dispatch_shape call_id name arguments f :
  exists logs,
    Forall (fun e => is_log e = true) logs
    /\ ((exists e,
            dispatch R call_id name arguments f = mkRan (Raise e) logs f)
        \/ (exists out,
               let sends :=
                 (log INFO rule ;;
                  io (ToAgent (conversation_item_create call_id out)) ;;
                  io (ToAgent response_create)) f in
               dispatch R call_id name arguments f
               = mkRan (result sends) (logs ++ effects sends)%list
                       (pending sends))).
Proof.
  unfold dispatch.
  destruct (json_loads R arguments) as [args | e].
  - change (lift (Ok args)) with (ret args). rewrite bind_ret_l.
    destruct (chosen_branch_silent name args f) as [Hp Hl].
    set (branch := (if eq_str name "search_properties"
                    then search_branch R args
                    else if eq_str name "get_property_details"
                         then details_branch R args
                         else
                           log WARNING ("⚠️ Unknown tool: " ++ str R name) ;;
                           ret (json_dumps
                                  (PDict [("error",
                                           PStr "Unknown tool called.")]))))
      in *.
    rewrite (bind_run branch).
    destruct (branch f) as [[out | e] logs p] eqn:E;
      cbn [result effects pending] in *; subst p.
    + exists logs. split; [exact Hl |]. right. exists out. reflexivity.
    + exists logs. split; [exact Hl |]. left. exists e. reflexivity.
  - exists []. split; [constructor |]. left. exists e. reflexivity.
Qed.

End BranchFacts.

(** X11.  Whatever the call and whatever the sockets do, [handle_tool_call]
    sends nothing to the client, and to the agent it sends nothing, or the
    function output for its own call identifier, or that output followed by
    one [response.create]; never a [response.create] without the output
    before it, and never either of them twice. *)
Theorem tool_call_sends_output_then_create
        (R : runtime) (call_id name : value) (arguments : string)
        (f : faults) :
  let r := dispatcher.handle_tool_call R call_id name arguments f in
  client_messages (effects r) = []
  /\ (agent_commands (effects r) = []
      \/ exists out,
          agent_commands (effects r)
          = [conversation_item_create call_id out]
          \/ agent_commands (effects r)
             = [conversation_item_create call_id out; response_create]).
Proof.
  cbv zeta. rewrite handle_tool_call_unfold. cbv zeta.
  destruct (dispatch_shape R call_id name arguments f)
    as (logs & Hlogs & [[e E] | [out E]]).
  - rewrite E. cbn [result effects].
    destruct (logs_send_nothing logs Hlogs) as [Ha Hc].
    rewrite !agent_commands_app, !client_messages_app, Ha, Hc.
    split; [reflexivity | left; reflexivity].
  - cbv zeta in E. rewrite E. clear E.
    destruct (logs_send_nothing logs Hlogs) as [Ha Hc].
    unfold bind, log.
    destruct f as [| [e |] [| [e' |] rest]];
      cbn [io result effects pending app];
      rewrite ?agent_commands_app, ?client_messages_app, ?Ha, ?Hc;
      cbn [agent_commands client_messages app];
      rewrite ?agent_commands_app, ?client_messages_app, ?Ha, ?Hc;
      (split; [reflexivity |]);
      first [ left; reflexivity
            | right; exists out; left; reflexivity
            | right; exists out; right; reflexivity ].
Qed.


#[local] Arguments real_estate_tools.search_properties : simpl never.
#[local] Arguments real_estate_tools.get_property_details : simpl never.

Section AnsweredFacts.
Variable R : runtime.
Import dispatcher.

Ltac outcome_cases :=
  repeat match goal with
         | |- context [obind ?c _] =>
             let E := fresh "E" in
             destruct c eqn:E; cbn [obind otry]
         | |- context [otry (if ?b then _ else _) _] =>
             destruct b; cbn [obind otry]
         end.

Lemma format_details_dict prop d :
  real_estate_tools.format_details prop = Ok d -> exists l, d = PDict l.
Proof.
  unfold real_estate_tools.format_details.
  destruct prop; cbn; intro H; try discriminate H.
  inversion H. eauto.
Qed.

(** The [property] of a lookup result, when there is one, is an object. *)
Lemma details_result_shape reference_number :
  exists items,
    real_estate_tools.get_property_details R reference_number
    = Ok (json_dumps (PDict items))
    /\ forall p, lookup "property" items = Some p -> exists d, p = PDict d.
Proof.
  unfold real_estate_tools.get_property_details.
  destruct (real_estate_tools.unset (real_estate_tools.SEARCH_ENDPOINT R)
            || real_estate_tools.unset (real_estate_tools.SEARCH_API_KEY R)).
  - eexists. split; [reflexivity |]. intros p Hp. discriminate Hp.
  - outcome_cases;
      (eexists; split; [reflexivity |]; intros p Hp; cbn in Hp;
       try discriminate Hp).
    inversion Hp; subst. eapply format_details_dict. eassumption.
Qed.

Lemma result_ret_bind {A B} (a : A) (k : A -> IO B) f :
  result (bind (ret a) k f) = result (k a f).
Proof. now rewrite bind_ret_l. Qed.

Lemma result_log_bind {B} lvl msg (k : unit -> IO B) f :
  result (bind (log lvl msg) k f) = result (k tt f).
Proof. reflexivity. Qed.

Ltac run_on :=
  repeat (cbn [get lift json_loads_text]; cbv beta iota zeta;
          first [rewrite result_ret_bind | rewrite result_log_bind]).

(** A silent body is its result and its log lines. *)
Lemma silent_run {A} (m : IO A) f a :
  silent m -> result (m f) = Ok a ->
  exists logs,
    Forall (fun e => is_log e = true) logs /\ m f = mkRan (Ok a) logs f.
Proof.
  intros Hs Hr. destruct (Hs f) as [Hp Hl].
  destruct (m f) as [res logs p]. cbn [result effects pending] in *.
  subst. eauto.
Qed.

Lemma details_branch_runs items f :
  exists out logs,
    real_estate_tools.get_property_details
      R (match lookup "reference_number" items with
         | Some v => v
         | None => PStr EmptyString
         end)
    = Ok out
    /\ Forall (fun e => is_log e = true) logs
    /\ details_branch R (PDict items) f = mkRan (Ok out) logs f.
Proof.
  destruct (details_result_shape
              (match lookup "reference_number" items with
               | Some v => v
               | None => PStr EmptyString
               end)) as (ritems & Eout & Hprop).
  exists (json_dumps (PDict ritems)).
  assert (Hr : result (details_branch R (PDict items) f)
               = Ok (json_dumps (PDict ritems))).
  { unfold details_branch. run_on. rewrite Eout. run_on.
    destruct (truthy (match lookup "found" ritems with
                      | Some v => v
                      | None => PNone
                      end)).
    - destruct (lookup "property" ritems) as [p |] eqn:Ep.
      + destruct (Hprop p eq_refl) as [d ->]. run_on. reflexivity.
      + run_on. reflexivity.
    - run_on. reflexivity. }
  destruct (silent_run _ f _ (details_branch_silent R (PDict items)) Hr)
    as (logs & Hl & E).
  exists logs. auto.
Qed.

Lemma search_branch_runs items ritems f :
  real_estate_tools.search_properties
    R
    (match lookup "query" items with Some v => v | None => PStr EmptyString end)
    (match lookup "property_type" items with
     | Some v => v
     | None => PStr EmptyString
     end)
    (match lookup "location" items with
     | Some v => v
     | None => PStr EmptyString
     end)
    (match lookup "min_price" items with Some v => v | None => PNone end)
    (match lookup "max_price" items with Some v => v | None => PNone end)
    (match lookup "bedrooms" items with Some v => v | None => PNone end)
  = Ok (json_dumps (PDict ritems)) ->
  gt_int (match lookup "found" ritems with Some v => v | None => PInt 0 end) 0
  = Ok false ->
  exists logs,
    Forall (fun e => is_log e = true) logs
    /\ search_branch R (PDict items) f
       = mkRan (Ok (json_dumps (PDict ritems))) logs f.
Proof.
  intros Eout Hgt.
  apply (silent_run _ f _ (search_branch_silent R (PDict items))).
  unfold search_branch. run_on. rewrite Eout. run_on. rewrite Hgt. run_on.
  reflexivity.
Qed.

Lemma answered call_id name arguments args out logs f :
  json_loads R arguments = Ok args ->
  (if eq_str name "search_properties" then search_branch R args
   else if eq_str name "get_property_details" then details_branch R args
        else
          log WARNING ("⚠️ Unknown tool: " ++ str R name) ;;
          ret (json_dumps (PDict [("error", PStr "Unknown tool called.")])))
    f
  = mkRan (Ok out) logs f ->
  hd None f = None ->
  hd None (tl f) = None ->
  handle_tool_call R call_id name arguments f
  = mkRan (Ok tt)
          ([Log INFO rule;
            Log INFO ("🔧 TOOL CALL: " ++ str R name);
            Log INFO ("📥 ARGUMENTS: " ++ arguments)]
             ++ logs
             ++ [Log INFO rule;
                 ToAgent (conversation_item_create call_id out);
                 ToAgent response_create])%list
          (tl (tl f)).
Proof.
  intros E Hbranch Hf1 Hf2. rewrite handle_tool_call_unfold.
  unfold dispatch. rewrite E. change (lift (Ok args)) with (ret args).
  rewrite bind_ret_l, bind_run, Hbranch.
  cbn [result effects pending]. unfold bind, log.
  cbn [result effects pending app].
  rewrite (io_ok _ f Hf1). cbn [result effects pending app].
  rewrite (io_ok _ (tl f) Hf2). reflexivity.
Qed.

End AnsweredFacts.

(** X13.  A call of [get_property_details] whose arguments parse to an
    object is always answered: whatever the search service does, the agent
    receives the tool's result and then a [response.create] (the agent
    connection accepting both); the lines logged about the result cannot
    fail. *)
Theorem details_are_always_answered
        (R : runtime) (call_id : value) (arguments : string)
        (items : list (string * value)) (f : faults) :
  json_loads R arguments = Ok (PDict items) ->
  hd None f = None ->
  hd None (tl f) = None ->
  exists out logs,
    real_estate_tools.get_property_details
      R (match lookup "reference_number" items with
         | Some v => v
         | None => PStr EmptyString
         end)
    = Ok out
    /\ Forall (fun e => is_log e = true) logs
    /\ dispatcher.handle_tool_call
         R call_id (PStr "get_property_details") arguments f
       = mkRan (Ok tt)
               (logs ++ [ToAgent (conversation_item_create call_id out);
                         ToAgent response_create])%list
               (tl (tl f)).
Proof.
  intros E Hf1 Hf2.
  destruct (details_branch_runs R items f) as (out & logs & Eout & Hl & Hb).
  exists out. eexists. split; [exact Eout |]. split.
  2:{ rewrite (answered R call_id (PStr "get_property_details") arguments
                        (PDict items) out logs f E Hb Hf1 Hf2).
      rewrite !app_assoc. rewrite <- app_assoc.
      change ([Log INFO dispatcher.rule;
               ToAgent (conversation_item_create call_id out);
               ToAgent response_create])
        with ([Log INFO dispatcher.rule]
                ++ [ToAgent (conversation_item_create call_id out);
                    ToAgent response_create])%list.
      rewrite !app_assoc. reflexivity. }
  repeat (apply Forall_app; split); try exact Hl; repeat constructor.
Qed.

(** A lookup without a reference number: the answer is sent all the same. *)
Lemma details_are_always_answered_witness :
  exists out logs,
    real_estate_tools.get_property_details example.rt (PStr EmptyString)
    = Ok out
    /\ Forall (fun e => is_log e = true) logs
    /\ dispatcher.handle_tool_call
         example.rt (PStr "call_3") (PStr "get_property_details")
         (example.render example.search_arguments) []
       = mkRan (Ok tt)
               (logs ++ [ToAgent (conversation_item_create (PStr "call_3") out);
                         ToAgent response_create])%list
               [].
Proof.
  apply (details_are_always_answered
           example.rt (PStr "call_3")
           (example.render example.search_arguments)
           [("query", PStr "villa")] []);
    reflexivity.
Defined.

(** X14.  A search that reports nothing found, be it an error object or an
    empty page, is always delivered: the agent receives the tool's result
    and then a [response.create] (the agent connection accepting both). *)
Theorem search_failures_reach_the_agent
        (R : runtime) (call_id : value) (arguments : string)
        (items ritems : list (string * value)) (f : faults) :
  json_loads R arguments = Ok (PDict items) ->
  real_estate_tools.search_properties
    R
    (match lookup "query" items with Some v => v | None => PStr EmptyString end)
    (match lookup "property_type" items with
     | Some v => v
     | None => PStr EmptyString
     end)
    (match lookup "location" items with
     | Some v => v
     | None => PStr EmptyString
     end)
    (match lookup "min_price" items with Some v => v | None => PNone end)
    (match lookup "max_price" items with Some v => v | None => PNone end)
    (match lookup "bedrooms" items with Some v => v | None => PNone end)
  = Ok (json_dumps (PDict ritems)) ->
  gt_int (match lookup "found" ritems with Some v => v | None => PInt 0 end) 0
  = Ok false ->
  hd None f = None ->
  hd None (tl f) = None ->
  exists logs,
    Forall (fun e => is_log e = true) logs
    /\ dispatcher.handle_tool_call
         R call_id (PStr "search_properties") arguments f
       = mkRan (Ok tt)
               (logs ++ [ToAgent (conversation_item_create
                                    call_id (json_dumps (PDict ritems)));
                         ToAgent response_create])%list
               (tl (tl f)).
Proof.
  intros E Eout Hgt Hf1 Hf2.
  destruct (search_branch_runs R items ritems f Eout Hgt) as (logs & Hl & Hb).
  eexists. split.
  2:{ rewrite (answered R call_id (PStr "search_properties") arguments
                        (PDict items) (json_dumps (PDict ritems)) logs f
                        E Hb Hf1 Hf2).
      rewrite !app_assoc. rewrite <- app_assoc.
      change ([Log INFO dispatcher.rule;
               ToAgent (conversation_item_create
                          call_id (json_dumps (PDict ritems)));
               ToAgent response_create])
        with ([Log INFO dispatcher.rule]
                ++ [ToAgent (conversation_item_create
                               call_id (json_dumps (PDict ritems)));
                    ToAgent response_create])%list.
      rewrite !app_assoc. reflexivity. }
  repeat (apply Forall_app; split); try exact Hl; repeat constructor.
Qed.

(** The search service is down: the agent is told so. *)
Lemma search_failures_reach_the_agent_witness :
  exists logs,
    Forall (fun e => is_log e = true) logs
    /\ dispatcher.handle_tool_call
         (mkRuntime example.example_getenv example.example_str
                    example.example_json_loads example.example_b64decode
                    example.example_b64encode
                    (fun _ _ _ _ =>
                       Raise (mkExn RequestException "Connection refused")))
         (PStr "call_2") (PStr "search_properties")
         (example.render example.search_arguments) []
       = mkRan (Ok tt)
               (logs
                  ++ [ToAgent (conversation_item_create
                                 (PStr "call_2")
                                 (json_dumps
                                    (PDict [("error",
                                             PStr "Search error: Connection refused")])));
                      ToAgent response_create])%list
               [].
Proof.
  apply (search_failures_reach_the_agent
           (mkRuntime example.example_getenv example.example_str
                      example.example_json_loads example.example_b64decode
                      example.example_b64encode
                      (fun _ _ _ _ =>
                         Raise (mkExn RequestException "Connection refused")))
           (PStr "call_2") (example.render example.search_arguments)
           [("query", PStr "villa")]
           [("error", PStr "Search error: Connection refused")] []);
    reflexivity.
Defined.

(** X12.  A call of a tool that does not exist is answered, whatever its
    arguments parse to: the agent receives the error object
    [Unknown tool called.] and then a [response.create] (the agent
    connection accepting both). *)
Theorem unknown_tools_are_answered
        (R : runtime) (call_id name args : value) (arguments : string)
        (f : faults) :
  json_loads R arguments = Ok args ->
  eq_str name "search_properties" = false ->
  eq_str name "get_property_details" = false ->
  hd None f = None ->
  hd None (tl f) = None ->
  dispatcher.handle_tool_call R call_id name arguments f
  = mkRan (Ok tt)
          [Log INFO dispatcher.rule;
           Log INFO ("🔧 TOOL CALL: " ++ str R name);
           Log INFO ("📥 ARGUMENTS: " ++ arguments);
           Log WARNING ("⚠️ Unknown tool: " ++ str R name);
           Log INFO dispatcher.rule;
           ToAgent (conversation_item_create
                      call_id
                      (json_dumps
                         (PDict [("error", PStr "Unknown tool called.")])));
           ToAgent response_create]
          (tl (tl f)).
Proof.
  intros E H1 H2 Hf1 Hf2.
  rewrite (answered R call_id name arguments args
                    (json_dumps (PDict [("error", PStr "Unknown tool called.")]))
                    [Log WARNING ("⚠️ Unknown tool: " ++ str R name)]
                    f E);
    [reflexivity | | exact Hf1 | exact Hf2].
  rewrite H1, H2. reflexivity.
Qed.

Lemma unknown_tools_are_answered_witness :
  dispatcher.handle_tool_call
    example.rt (PStr "call_7") (PStr "book_viewing")
    (example.render example.search_arguments) []
  = mkRan (Ok tt)
          [Log INFO dispatcher.rule;
           Log INFO "🔧 TOOL CALL: book_viewing";
           Log INFO ("📥 ARGUMENTS: "
                       ++ example.render example.search_arguments);
           Log WARNING "⚠️ Unknown tool: book_viewing";
           Log INFO dispatcher.rule;
           ToAgent (conversation_item_create
                      (PStr "call_7")
                      (json_dumps
                         (PDict [("error", PStr "Unknown tool called.")])));
           ToAgent response_create]
          [].
Proof.
  apply (unknown_tools_are_answered
           example.rt (PStr "call_7") (PStr "book_viewing")
           example.search_arguments
           (example.render example.search_arguments) []);
    reflexivity.
Defined.

(** ** How the forwarding loops end and compose *)

Section LoopFacts.
Variable R : runtime.
Import bridge.

Lemma ran_eta {A} (r : ran A) :
  mkRan (result r) (effects r) (pending r) = r.
Proof. destruct r; reflexivity. Qed.

Lemma forward_to_azure_cons v c inc rest f :
  forward_to_azure R v c (inc :: rest) f
  = let r := forward_to_azure_turn R v c inc f in
    match result r with
    | Ok (Receiving, c1) =>
        let r' := forward_to_azure R v c1 rest (pending r) in
        mkRan (result r') (effects r ++ effects r')%list (pending r')
    | Ok (Returned, c1) =>
        mkRan (Ok (Returned, c1)) (effects r) (pending r)
    | Raise e => mkRan (Raise e) (effects r) (pending r)
    end.
Proof.
  cbn [forward_to_azure]. rewrite bind_run. cbv zeta.
  destruct (result (forward_to_azure_turn R v c inc f))
    as [[[|] c1] | e]; cbn [fst snd ret result effects pending];
    rewrite ?app_nil_r; reflexivity.
Qed.

Lemma forward_to_azure_app v pre :
  forall post c f,
    forward_to_azure R v c (pre ++ post) f
    = let r := forward_to_azure R v c pre f in
      match result r with
      | Ok (Receiving, c1) =>
          let r' := forward_to_azure R v c1 post (pending r) in
          mkRan (result r') (effects r ++ effects r')%list (pending r')
      | _ => r
      end.
Proof.
  induction pre as [| inc pre IH]; intros post c f.
  - cbn [app forward_to_azure ret result effects pending]. cbv zeta.
    now rewrite ran_eta.
  - cbn [app]. rewrite !forward_to_azure_cons. cbv zeta.
    destruct (result (forward_to_azure_turn R v c inc f))
      as [[[|] c1] | e] eqn:E; cbn [result effects pending];
      try reflexivity.
    rewrite IH. cbv zeta.
    destruct (result (forward_to_azure R v c1 pre
                        (pending (forward_to_azure_turn R v c inc f))))
      as [[[|] c2] | e] eqn:E2; cbn [result effects pending];
      rewrite ?E2; cbn [result effects pending]; rewrite ?app_assoc;
      reflexivity.
Qed.

Lemma turn_receive_error v c e f :
  forward_to_azure_turn R v c (ReceiveError e) f
  = if exn_class_eqb (exn_cls e) WebSocketDisconnect
    then mkRan (Ok (Returned, c))
               [Log INFO (match v with
                          | Browser => "WebSocket disconnected."
                          | Twilio => "Twilio WebSocket disconnected."
                          end)] f
    else mkRan (Raise e) [] f.
Proof.
  unfold forward_to_azure_turn, try_except, raise.
  cbn [result effects pending].
  destruct (exn_class_eqb (exn_cls e) WebSocketDisconnect);
    [destruct v |]; reflexivity.
Qed.

Lemma turn_returns v c now data c' effs f f' :
  on_message R v c now data f = mkRan (Ok (Break, c')) effs f' ->
  forward_to_azure_turn R v c (Message now data) f
  = mkRan (Ok (Returned, c')) effs f'.
Proof.
  intro E. unfold forward_to_azure_turn, try_except, bind. rewrite E.
  cbn. rewrite app_nil_r. reflexivity.
Qed.

End LoopFacts.

(** X15.  A disconnect of the client ends the client-to-agent loop of
    either variant cleanly: the coroutine logs one line and returns, and
    what the client might still send is not read.  Any other exception of
    the receive leaves the loop as it is. *)
Theorem disconnect_ends_the_loop
        (R : runtime) (v : bridge.variant) (c : bridge.closure) (e : exn)
        (rest : list bridge.incoming) (f : faults) :
  (exn_class_eqb (exn_cls e) WebSocketDisconnect = true ->
   bridge.forward_to_azure R v c (bridge.ReceiveError e :: rest) f
   = mkRan (Ok (bridge.Returned, c))
           [Log INFO (match v with
                      | bridge.Browser => "WebSocket disconnected."
                      | bridge.Twilio => "Twilio WebSocket disconnected."
                      end)]
           f)
  /\ (exn_class_eqb (exn_cls e) WebSocketDisconnect = false ->
      bridge.forward_to_azure R v c (bridge.ReceiveError e :: rest) f
      = mkRan (Raise e) [] f).
Proof.
  split; intro H; rewrite forward_to_azure_cons, turn_receive_error, H;
    reflexivity.
Qed.

Lemma disconnect_ends_the_loop_witness :
  bridge.forward_to_azure
    example.rt bridge.Twilio bridge.initial
    [bridge.ReceiveError (mkExn WebSocketDisconnect "1000");
     bridge.Message (float_of_int 5000) (example.render (example.media_envelope "/w=="))]
    []
  = mkRan (Ok (bridge.Returned, bridge.initial))
          [Log INFO "Twilio WebSocket disconnected."] [].
Proof.
  destruct (disconnect_ends_the_loop
              example.rt bridge.Twilio bridge.initial
              (mkExn WebSocketDisconnect "1000")
              [bridge.Message
                 (float_of_int 5000) (example.render (example.media_envelope "/w=="))]
              []) as [Hclean _].
  apply Hclean. reflexivity.
Defined.

(** X16.  The stop envelope ends the telephony loop: the coroutine logs the
    stop and returns, and texts behind the stop are not handled. *)
Theorem stop_ends_the_telephony_loop
        (R : runtime) (c : bridge.closure) (now : float) (data : string)
        (packet : value) (rest : list bridge.incoming) (f : faults) :
  json_loads R data = Ok packet ->
  getitem packet "event" = Ok (PStr "stop") ->
  bridge.forward_to_azure
    R bridge.Twilio c (bridge.Message now data :: rest) f
  = mkRan (Ok (bridge.Returned, c)) [Log INFO "Twilio Stream Stopped."] f.
Proof.
  intros E1 E2. rewrite forward_to_azure_cons.
  rewrite (turn_returns R bridge.Twilio c now data c
                        [Log INFO "Twilio Stream Stopped."] f f).
  - reflexivity.
  - cbn [bridge.on_message].
    unfold bridge.run_twilio_agent.on_message, bind, lift.
    rewrite E1. cbn. rewrite E2. reflexivity.
Qed.

Lemma stop_ends_the_telephony_loop_witness :
  bridge.forward_to_azure
    (mkRuntime example.example_getenv example.example_str
               (fun _ => Ok (PDict [("event", PStr "stop")]))
               example.example_b64decode example.example_b64encode
               example.example_requests_post)
    bridge.Twilio bridge.initial
    [bridge.Message (float_of_int 9) (example.render (PDict [("event", PStr "stop")]));
     bridge.Message (float_of_int 10) (example.render (PDict [("event", PStr "stop")]))]
    []
  = mkRan (Ok (bridge.Returned, bridge.initial))
          [Log INFO "Twilio Stream Stopped."] [].
Proof.
  apply (stop_ends_the_telephony_loop
           (mkRuntime example.example_getenv example.example_str
                      (fun _ => Ok (PDict [("event", PStr "stop")]))
                      example.example_b64decode example.example_b64encode
                      example.example_requests_post)
           bridge.initial (float_of_int 9)
           (example.render (PDict [("event", PStr "stop")]))
           (PDict [("event", PStr "stop")]));
    reflexivity.
Defined.

(** X17.  The client-to-agent loop handles the texts in the order they
    come: what it does for a longer input is what it does for the first
    part, followed by what it does for the rest from the state the first
    part left; and once it has returned or raised, nothing that follows is
    handled. *)
Theorem forward_to_azure_in_order
        (R : runtime) (v : bridge.variant) (c : bridge.closure)
        (pre post : list bridge.incoming) (f : faults) :
  let first := bridge.forward_to_azure R v c pre f in
  (forall c1,
      result first = Ok (bridge.Receiving, c1) ->
      let next := bridge.forward_to_azure R v c1 post (pending first) in
      bridge.forward_to_azure R v c (pre ++ post) f
      = mkRan (result next) (effects first ++ effects next)%list
              (pending next))
  /\ ((forall c1, result first <> Ok (bridge.Receiving, c1)) ->
      bridge.forward_to_azure R v c (pre ++ post) f = first).
Proof.
  cbv zeta. split.
  - intros c1 H. rewrite forward_to_azure_app. cbv zeta. now rewrite H.
  - intro H. rewrite forward_to_azure_app. cbv zeta.
    destruct (result (bridge.forward_to_azure R v c pre f))
      as [[[|] c1] | e] eqn:E; try reflexivity.
    exfalso. exact (H c1 eq_refl).
Qed.

(** Two media frames after the gate: two appends, in their order. *)
Lemma forward_to_azure_in_order_witness :
  bridge.forward_to_azure
    example.rt bridge.Twilio bridge.initial
    ([bridge.Message (float_of_int 5000) (example.render (example.media_envelope "/w=="))]
       ++ [bridge.Message
             (float_of_int 5001) (example.render (example.media_envelope "/w=="))])
    []
  = mkRan (Ok (bridge.Receiving, bridge.initial))
          ([ToAgent (input_audio_buffer_append (PStr "AAA="))]
             ++ [ToAgent (input_audio_buffer_append (PStr "AAA="))])
          [].
Proof.
  destruct (forward_to_azure_in_order
              example.rt bridge.Twilio bridge.initial
              [bridge.Message
                 (float_of_int 5000) (example.render (example.media_envelope "/w=="))]
              [bridge.Message
                 (float_of_int 5001) (example.render (example.media_envelope "/w=="))]
              []) as [Hnext _].
  apply (Hnext bridge.initial). reflexivity.
Defined.

(** X18.  A text that is not JSON ends the client-to-agent loop of either
    variant with the parser's exception, and so does a text without the
    key the loop dispatches on: [type] in the browser variant, [event] in
    the telephony variant.  Nothing is sent and what follows is not
    handled. *)
Theorem unreadable_text_ends_the_loop
        (R : runtime) (v : bridge.variant) (c : bridge.closure) (now : float)
        (data : string) (rest : list bridge.incoming) (f : faults) :
  (forall e,
      json_loads R data = Raise e ->
      exn_class_eqb (exn_cls e) WebSocketDisconnect = false ->
      bridge.forward_to_azure R v c (bridge.Message now data :: rest) f
      = mkRan (Raise e) [] f)
  /\ (forall items,
         json_loads R data = Ok (PDict items) ->
         lookup (match v with
                 | bridge.Browser => "type"
                 | bridge.Twilio => "event"
                 end) items = None ->
         bridge.forward_to_azure R v c (bridge.Message now data :: rest) f
         = mkRan (Raise (mkExn KeyError
                               (match v with
                                | bridge.Browser => "'type'"
                                | bridge.Twilio => "'event'"
                                end)))
                 [] f).
Proof.
  split.
  - intros e E Hcls. rewrite forward_to_azure_cons.
    rewrite (turn_raises R v c now data e [] f f); [reflexivity | | exact Hcls].
    destruct v; cbn [bridge.on_message];
      unfold bridge.run_browser_agent.on_message,
        bridge.run_twilio_agent.on_message, bind, lift;
      rewrite E; reflexivity.
  - intros items E Hkey. rewrite forward_to_azure_cons.
    rewrite (turn_raises R v c now data
                         (mkExn KeyError
                                (match v with
                                 | bridge.Browser => "'type'"
                                 | bridge.Twilio => "'event'"
                                 end)) [] f f);
      [reflexivity | | reflexivity].
    destruct v; cbn [bridge.on_message];
      unfold bridge.run_browser_agent.on_message,
        bridge.run_twilio_agent.on_message, bind, lift;
      rewrite E; cbn [getitem result effects pending raise ret];
      rewrite Hkey; reflexivity.
Qed.

Lemma unreadable_text_ends_the_loop_witness :
  bridge.forward_to_azure
    example.rt bridge.Browser bridge.initial
    [bridge.Message (float_of_int 3) "not json";
     bridge.Message (float_of_int 4) (example.render example.browser_start)]
    []
  = mkRan (Raise (mkExn JSONDecodeError
                        "Expecting value: line 1 column 1 (char 0)"))
          [] [].
Proof.
  destruct (unreadable_text_ends_the_loop
              example.rt bridge.Browser bridge.initial (float_of_int 3) "not json"
              [bridge.Message (float_of_int 4) (example.render example.browser_start)]
              []) as [Hjson _].
  apply (Hjson (mkExn JSONDecodeError
                      "Expecting value: line 1 column 1 (char 0)"));
    reflexivity.
Defined.

(** ** What the bridges forward *)

(** X19.  Each start envelope records its own stream identifier and clock
    reading, so the 1.2 seconds of the gate count from the latest one: a
    media frame handled while the clock is less than 1.2 past the reading
    of a second start envelope (by the float subtraction and comparison of
    the code) is discarded however long ago the first one came. *)
Theorem latest_start_restarts_the_gate
        (R : runtime) (c : bridge.closure) (t1 t2 now : float)
        (d1 d2 d3 : string) (p1 p2 p3 s1 s2 sid1 sid2 : value) (f : faults) :
  json_loads R d1 = Ok p1 ->
  getitem p1 "event" = Ok (PStr "start") ->
  getitem p1 "start" = Ok s1 ->
  getitem s1 "streamSid" = Ok sid1 ->
  json_loads R d2 = Ok p2 ->
  getitem p2 "event" = Ok (PStr "start") ->
  getitem p2 "start" = Ok s2 ->
  getitem s2 "streamSid" = Ok sid2 ->
  json_loads R d3 = Ok p3 ->
  getitem p3 "event" = Ok (PStr "media") ->
  float_lt (float_sub now t2) bridge.gate = true ->
  bridge.forward_to_azure
    R bridge.Twilio c
    [bridge.Message t1 d1; bridge.Message t2 d2; bridge.Message now d3] f
  = mkRan (Ok (bridge.Receiving, bridge.mkClosure sid2 true t2))
          [Log INFO ("Twilio Stream Started: " ++ str R sid1);
           Log INFO ("Twilio Stream Started: " ++ str R sid2)]
          f.
Proof.
  intros A1 A2 A3 A4 B1 B2 B3 B4 C1 C2 Hlt.
  rewrite forward_to_azure_cons.
  rewrite (turn_continues
             R bridge.Twilio c t1 d1 _ _ f f
             (start_records_the_clock R c t1 d1 p1 s1 sid1 f A1 A2 A3 A4)).
  cbn [result effects pending]. cbv zeta.
  rewrite forward_to_azure_cons.
  rewrite (turn_continues
             R bridge.Twilio _ t2 d2 _ _ f f
             (start_records_the_clock R _ t2 d2 p2 s2 sid2 f B1 B2 B3 B4)).
  cbn [result effects pending]. cbv zeta.
  rewrite forward_to_azure_cons.
  rewrite (turn_continues
             R bridge.Twilio _ now d3 _ _ f f
             (media_gated R (bridge.mkClosure sid2 true t2) now d3 p3 f C1 C2
                          Hlt)).
  reflexivity.
Qed.

(** Two starts, at 10 and at 100, and a frame at 100.5. *)
Lemma latest_start_restarts_the_gate_witness :
  bridge.forward_to_azure
    example.rt bridge.Twilio bridge.initial
    [bridge.Message (float_of_int 10)
                    (example.render example.start_envelope);
     bridge.Message (float_of_int 100)
                    (example.render example.start_envelope);
     bridge.Message (example.clock 1005)
                    (example.render (example.media_envelope "/w=="))]
    []
  = mkRan (Ok (bridge.Receiving,
               bridge.mkClosure
                 (PStr "MZ18ad3ab5a668481ce02b83e7395059f0") true
                 (float_of_int 100)))
          [Log INFO "Twilio Stream Started: MZ18ad3ab5a668481ce02b83e7395059f0";
           Log INFO "Twilio Stream Started: MZ18ad3ab5a668481ce02b83e7395059f0"]
          [].
Proof.
  apply (latest_start_restarts_the_gate
           example.rt bridge.initial
           (float_of_int 10) (float_of_int 100) (example.clock 1005)
           (example.render example.start_envelope)
           (example.render example.start_envelope)
           (example.render (example.media_envelope "/w=="))
           example.start_envelope example.start_envelope
           (example.media_envelope "/w==")
           (PDict [("streamSid", PStr "MZ18ad3ab5a668481ce02b83e7395059f0")])
           (PDict [("streamSid", PStr "MZ18ad3ab5a668481ce02b83e7395059f0")])
           (PStr "MZ18ad3ab5a668481ce02b83e7395059f0")
           (PStr "MZ18ad3ab5a668481ce02b83e7395059f0") []);
    try reflexivity.
Defined.

(** X20.  In the telephony variant the agent's audio reaches the client
    only under a stream identifier: without one, and for an empty delta,
    nothing is sent; with one, the delta is converted and sent in a media
    frame that carries the identifier.  A delta of odd length makes the
    conversion raise [audioop.error], and the exception leaves the handler
    with nothing sent. *)
Theorem outbound_audio_carries_the_stream_id
        (R : runtime) (c : bridge.closure) (delta : bytes) (f : faults) :
  (bridge.nonempty delta && truthy (bridge.stream_sid c) = false ->
   bridge.run_twilio_agent.on_event R c (bridge.RESPONSE_AUDIO_DELTA delta) f
   = mkRan (Ok tt) [] f)
  /\ (bridge.nonempty delta && truthy (bridge.stream_sid c) = true ->
      Nat.even (List.length delta) = true ->
      hd None f = None ->
      exists mulaw,
        transcoder.resample_pcm_24k_to_mulaw_8k delta = Ok mulaw
        /\ bridge.run_twilio_agent.on_event
             R c (bridge.RESPONSE_AUDIO_DELTA delta) f
           = mkRan (Ok tt)
                   [ToClient (media_frame (bridge.stream_sid c)
                                          (b64encode R mulaw))]
                   (tl f))
  /\ (bridge.nonempty delta && truthy (bridge.stream_sid c) = true ->
      Nat.even (List.length delta) = false ->
      bridge.run_twilio_agent.on_event
        R c (bridge.RESPONSE_AUDIO_DELTA delta) f
      = mkRan (Raise audioop.not_whole_frames) [] f).
Proof.
  split; [| split].
  - intro H. cbn [bridge.run_twilio_agent.on_event]. rewrite H. reflexivity.
  - intros H Heven Hf.
    destruct (uplink_even delta Heven) as (mulaw & E).
    exists mulaw. split; [exact E |].
    cbn [bridge.run_twilio_agent.on_event]. rewrite H.
    unfold bind, lift. rewrite E. cbn [ret result effects pending app].
    rewrite (io_ok _ f Hf). reflexivity.
  - intros H Hodd.
    cbn [bridge.run_twilio_agent.on_event]. rewrite H.
    unfold bind, lift. rewrite (uplink_odd delta Hodd).
    reflexivity.
Qed.

Lemma outbound_audio_carries_the_stream_id_witness :
  bridge.run_twilio_agent.on_event
    example.rt
    (bridge.mkClosure (PStr "MZ18ad3ab5a668481ce02b83e7395059f0") true
                      (float_of_int 100))
    (bridge.RESPONSE_AUDIO_DELTA [x01; x02; x03]) []
  = mkRan (Raise audioop.not_whole_frames) [] [].
Proof.
  destruct (outbound_audio_carries_the_stream_id
              example.rt
              (bridge.mkClosure
                 (PStr "MZ18ad3ab5a668481ce02b83e7395059f0") true
                 (float_of_int 100))
              [x01; x02; x03] []) as (_ & _ & Hodd).
  apply Hodd; reflexivity.
Defined.

(** X21.  Transcription, text-done, speech-stopped and unknown events are
    only taken note of, in both variants: their handler cannot fail, uses
    no socket and leaves at most log lines. *)
Theorem observational_events_touch_no_socket
        (R : runtime) (v : bridge.variant) (c : bridge.closure)
        (event : bridge.server_event) (f : faults) :
  observational event = true ->
  result (bridge.on_event R v c event f) = Ok tt
  /\ pending (bridge.on_event R v c event f) = f
  /\ Forall (fun e => is_log e = true)
            (effects (bridge.on_event R v c event f)).
Proof.
  intro H. destruct event; try discriminate H; destruct v;
    cbn [bridge.on_event bridge.run_browser_agent.on_event
         bridge.run_twilio_agent.on_event];
    repeat match goal with
           | |- context [String.eqb ?a ?b] => destruct (String.eqb a b)
           end;
    (split; [reflexivity | split; [reflexivity | repeat constructor]]).
Qed.

Lemma observational_events_touch_no_socket_witness :
  result (bridge.on_event
            example.rt bridge.Browser bridge.initial
            (bridge.RESPONSE_TEXT_DONE "Welcome to Ezdan.")
            [Some (mkExn ConnectionClosed "closed")])
  = Ok tt
  /\ pending (bridge.on_event
                example.rt bridge.Browser bridge.initial
                (bridge.RESPONSE_TEXT_DONE "Welcome to Ezdan.")
                [Some (mkExn ConnectionClosed "closed")])
     = [Some (mkExn ConnectionClosed "closed")]
  /\ Forall (fun e => is_log e = true)
            (effects (bridge.on_event
                        example.rt bridge.Browser bridge.initial
                        (bridge.RESPONSE_TEXT_DONE "Welcome to Ezdan.")
                        [Some (mkExn ConnectionClosed "closed")])).
Proof.
  apply (observational_events_touch_no_socket
           example.rt bridge.Browser bridge.initial
           (bridge.RESPONSE_TEXT_DONE "Welcome to Ezdan.")
           [Some (mkExn ConnectionClosed "closed")]).
  reflexivity.
Defined.

(** X22.  The browser variant forwards audio as it comes: the payload of an
    audio message is appended to the agent's input buffer undecoded, an
    audio message with an empty payload is skipped, and an audio message
    without a payload raises [KeyError]; a commit message becomes a commit
    command. *)
Theorem browser_audio_is_forwarded_unchanged
        (R : runtime) (c : bridge.closure) (data : string)
        (items : list (string * value)) (f : faults) :
  json_loads R data = Ok (PDict items) ->
  (lookup "type" items = Some (PStr "audio") ->
   (forall payload,
       lookup "payload" items = Some payload ->
       truthy payload = true ->
       hd None f = None ->
       bridge.run_browser_agent.on_message R c data f
       = mkRan (Ok (bridge.Continue, c))
               [ToAgent (input_audio_buffer_append payload)] (tl f))
   /\ (forall payload,
          lookup "payload" items = Some payload ->
          truthy payload = false ->
          bridge.run_browser_agent.on_message R c data f
          = mkRan (Ok (bridge.Continue, c)) [] f)
   /\ (lookup "payload" items = None ->
       bridge.run_browser_agent.on_message R c data f
       = mkRan (Raise (mkExn KeyError "'payload'")) [] f))
  /\ (lookup "type" items = Some (PStr "commit") ->
      hd None f = None ->
      bridge.run_browser_agent.on_message R c data f
      = mkRan (Ok (bridge.Continue, c))
              [ToAgent input_audio_buffer_commit] (tl f)).
Proof.
  intro E. split.
  - intro Ht. split; [| split].
    + intros payload Hp Htruthy Hf.
      unfold bridge.run_browser_agent.on_message, bind, lift.
      rewrite E. cbn [getitem ret result effects pending app].
      rewrite Ht. cbn [ret result effects pending app eq_str String.eqb
                       Ascii.eqb Bool.eqb].
      rewrite Hp. cbn [ret result effects pending app]. rewrite Htruthy.
      cbn [ret result effects pending app]. rewrite (io_ok _ f Hf).
      reflexivity.
    + intros payload Hp Hfalsy.
      unfold bridge.run_browser_agent.on_message, bind, lift.
      rewrite E. cbn [getitem ret result effects pending app].
      rewrite Ht. cbn [ret result effects pending app eq_str String.eqb
                       Ascii.eqb Bool.eqb].
      rewrite Hp. cbn [ret result effects pending app]. rewrite Hfalsy.
      reflexivity.
    + intro Hp.
      unfold bridge.run_browser_agent.on_message, bind, lift.
      rewrite E. cbn [getitem ret result effects pending app].
      rewrite Ht. cbn [ret result effects pending app eq_str String.eqb
                       Ascii.eqb Bool.eqb].
      rewrite Hp. reflexivity.
  - intros Ht Hf.
    unfold bridge.run_browser_agent.on_message, bind, lift.
    rewrite E. cbn [getitem ret result effects pending app].
    rewrite Ht. cbn [ret result effects pending app eq_str String.eqb
                     Ascii.eqb Bool.eqb].
    rewrite (io_ok _ f Hf). reflexivity.
Qed.

Lemma browser_audio_is_forwarded_unchanged_witness :
  bridge.run_browser_agent.on_message
    (mkRuntime example.example_getenv example.example_str
               (fun _ => Ok (PDict [("type", PStr "audio");
                                    ("payload", PStr "AAA=")]))
               example.example_b64decode example.example_b64encode
               example.example_requests_post)
    bridge.initial
    (example.render (PDict [("type", PStr "audio");
                            ("payload", PStr "AAA=")]))
    []
  = mkRan (Ok (bridge.Continue, bridge.initial))
          [ToAgent (input_audio_buffer_append (PStr "AAA="))] [].
Proof.
  destruct (browser_audio_is_forwarded_unchanged
              (mkRuntime example.example_getenv example.example_str
                         (fun _ => Ok (PDict [("type", PStr "audio");
                                              ("payload", PStr "AAA=")]))
                         example.example_b64decode example.example_b64encode
                         example.example_requests_post)
              bridge.initial
              (example.render (PDict [("type", PStr "audio");
                                      ("payload", PStr "AAA=")]))
              [("type", PStr "audio"); ("payload", PStr "AAA=")]
              [] eq_refl) as [Haudio _].
  destruct (Haudio eq_refl) as [Hforward _].
  apply (Hforward (PStr "AAA=")); reflexivity.
Defined.

(** ** What the coroutines never do *)

Section OnlyFacts.
Variable P : effect -> Prop.

Lemma only_ret {A} (a : A) : only P (ret a).
Proof. intro f. constructor. Qed.

Lemma only_raise {A} (e : exn) : only P (@raise A e).
Proof. intro f. constructor. Qed.

Lemma only_lift {A} (c : outcome A) : only P (lift c).
Proof. destruct c; [apply only_ret | apply only_raise]. Qed.

Lemma only_log lvl msg : P (Log lvl msg) -> only P (log lvl msg).
Proof. intros H f. repeat constructor. exact H. Qed.

Lemma only_create_task call_id name arguments :
  P (CreateTask call_id name arguments) ->
  only P (create_task call_id name arguments).
Proof. intros H f. repeat constructor. exact H. Qed.

Lemma only_io e : P e -> only P (io e).
Proof.
  intros H f. destruct f as [| [x |] r]; cbn [io effects];
    repeat constructor; exact H.
Qed.

Lemma only_bind {A B} (m : IO A) (k : A -> IO B) :
  only P m -> (forall a, only P (k a)) -> only P (bind m k).
Proof.
  intros Hm Hk f. unfold bind. pose proof (Hm f) as Hl.
  destruct (result (m f)) as [a | e]; cbn [effects]; [| exact Hl].
  apply Forall_app. split; [exact Hl | apply Hk].
Qed.

Lemma only_if {A} (b : bool) (m1 m2 : IO A) :
  only P m1 -> only P m2 -> only P (if b then m1 else m2).
Proof. destruct b; auto. Qed.

Lemma only_try_except {A} (m : IO A) (h : exn -> IO A) :
  only P m -> (forall e, only P (h e)) -> only P (try_except m h).
Proof.
  intros Hm Hh f. unfold try_except. pose proof (Hm f) as Hl.
  destruct (result (m f)) as [a | e]; cbn [effects]; [exact Hl |].
  apply Forall_app. split; [exact Hl | apply Hh].
Qed.

Lemma silent_only {A} (m : IO A) :
  (forall lvl msg, P (Log lvl msg)) -> silent m -> only P m.
Proof.
  intros Hlog Hs f. destruct (Hs f) as [_ Hl].
  eapply Forall_impl; [| exact Hl].
  intros e He. destruct e; try discriminate He. apply Hlog.
Qed.

End OnlyFacts.

Ltac only_step :=
  first
    [ apply only_ret | apply only_raise | apply only_lift
    | apply only_log; exact I
    | apply only_io; exact I
    | apply only_create_task; exact I
    | apply only_if
    | apply only_try_except; [| intro]
    | apply only_bind; [| intro] ].

Section HandlerFacts.
Variable R : runtime.
Import bridge.

Lemma on_message_uplink v c now data :
  only uplink_effect (on_message R v c now data).
Proof.
  destruct v; cbn [on_message];
    unfold run_browser_agent.on_message, run_twilio_agent.on_message;
    repeat only_step.
Qed.

Lemma forward_to_azure_turn_uplink v c inc :
  only uplink_effect (forward_to_azure_turn R v c inc).
Proof.
  unfold forward_to_azure_turn. apply only_try_except.
  - destruct inc as [now data | e]; [| apply only_raise].
    apply only_bind; [apply on_message_uplink |].
    intros [[|] c']; apply only_ret.
  - intro e. apply only_if; [| apply only_raise].
    apply only_bind; [| intro; apply only_ret].
    destruct v; apply only_log; exact I.
Qed.

Lemma forward_to_azure_uplink v input :
  forall c, only uplink_effect (forward_to_azure R v c input).
Proof.
  induction input as [| inc rest IH]; intro c; cbn [forward_to_azure].
  - apply only_ret.
  - apply only_bind; [apply forward_to_azure_turn_uplink |].
    intros [[|] c']; cbn [fst snd]; [apply IH | apply only_ret].
Qed.

Lemma on_event_downlink v c event :
  only downlink_effect (on_event R v c event).
Proof.
  destruct v, event; cbn [on_event run_browser_agent.on_event
                          run_twilio_agent.on_event];
    repeat only_step.
Qed.

Lemma forward_to_client_downlink v c events :
  only downlink_effect (forward_to_client R v c events).
Proof.
  induction events as [| event rest IH]; cbn [forward_to_client].
  - apply only_ret.
  - apply only_bind; [apply on_event_downlink | intro; exact IH].
Qed.

Lemma handle_tool_call_answers call_id name arguments :
  only (answer_effect call_id)
       (dispatcher.handle_tool_call R call_id name arguments).
Proof.
  unfold dispatcher.handle_tool_call.
  do 3 (apply only_bind; [apply only_log; exact I | intro]).
  apply only_try_except.
  - unfold dispatcher.dispatch.
    apply only_bind; [apply only_lift | intro args].
    apply only_bind.
    + apply only_if.
      * apply silent_only; [intros; exact I | apply search_branch_silent].
      * apply only_if.
        -- apply silent_only; [intros; exact I | apply details_branch_silent].
        -- repeat only_step.
    + intro out. apply only_bind; [apply only_log; exact I | intro].
      apply only_bind; [apply only_io; reflexivity | intro].
      apply only_io. exact I.
  - intro e. repeat only_step.
Qed.

End HandlerFacts.

(** X23.  The client-to-agent loop of either variant does nothing but
    append audio to the agent's input buffer, commit it and log: it never
    writes to the client, never creates or cancels a response, never sends
    a tool output and never creates a task, whatever the client sends and
    whatever the sockets do. *)
Theorem forward_to_azure_only_uploads
        (R : runtime) (v : bridge.variant) (c : bridge.closure)
        (input : list bridge.incoming) (f : faults) :
  Forall uplink_effect (effects (bridge.forward_to_azure R v c input f)).
Proof. apply forward_to_azure_uplink. Qed.

(** X24.  The agent-to-client loop of either variant never appends or
    commits audio, never creates a response and never sends a tool output:
    the one command it gives the agent is [response.cancel]; the rest is
    writes to the client, tool tasks and log lines. *)
Theorem forward_to_client_only_cancels
        (R : runtime) (v : bridge.variant) (c : bridge.closure)
        (events : list bridge.server_event) (f : faults) :
  Forall downlink_effect (effects (bridge.forward_to_client R v c events f)).
Proof. apply forward_to_client_downlink. Qed.

(** ** Invariants of a call *)

Section CallFacts.
Variable R : runtime.
Import bridge.









Lemma on_event_identifies v c event :
  only identified_task (on_event R v c event).
Proof.
  destruct v, event; cbn [on_event run_browser_agent.on_event
                          run_twilio_agent.on_event];
    try (destruct (truthy call_id) eqn:E;
         [apply only_create_task; exact E | apply only_ret]);
    repeat only_step.
Qed.

Lemma in_created call_id name arguments l :
  In (call_id, name, arguments) (created l) ->
  In (CreateTask call_id name arguments) l.
Proof.
  induction l as [| e l IH]; [intros [] |].
  destruct e; cbn [created]; intro H; try (right; exact (IH H)).
  destruct H as [H | H]; [inversion H; subst; left; reflexivity |].
  right. exact (IH H).
Qed.

Lemma in_did t e l : In e l -> In (Did t e) (did t l).
Proof. intro H. unfold did. apply in_map. exact H. Qed.

Lemma in_did_inv t t' e l : In (Did t e) (did t' l) -> t = t' /\ In e l.
Proof.
  unfold did. intro H. apply in_map_iff in H.
  destruct H as (e' & He & Hin). inversion He; subst. auto.
Qed.

End CallFacts.



Section OutputFacts.
Variable R : runtime.
Import bridge.

(** Every tool task waiting to run was created by the agent-to-client loop
    for a call that has an identifier, and so was the task behind every
    tool output in the history. *)
Lemma created_calls v s :
  reachable R v s ->
  (forall call_id name arguments,
      In (call_id, name, arguments) (tool_tasks s) ->
      truthy call_id = true
      /\ In (creation_entry call_id name arguments) (history s))
  /\ (forall call_id output,
         In (output_entry call_id output) (history s) ->
         truthy call_id = true
         /\ exists name arguments,
             In (creation_entry call_id name arguments) (history s)).
Proof.
  induction 1 as [f | s s' Hreach [I1 I2] Hstep].
  - cbn. split; [intros ? ? ? [] | intros ? ? []].
  - assert (Hold1 : forall new call_id name arguments,
               In (call_id, name, arguments) (tool_tasks s) ->
               truthy call_id = true
               /\ In (creation_entry call_id name arguments)
                     (history s ++ new)).
    { intros new cid name args Hin. destruct (I1 _ _ _ Hin) as [Ht Hc].
      split; [exact Ht | apply in_or_app; left; exact Hc]. }
    assert (Hold2 : forall new call_id output,
               In (output_entry call_id output) (history s) ->
               truthy call_id = true
               /\ exists name arguments,
                   In (creation_entry call_id name arguments)
                      (history s ++ new)).
    { intros new cid out Hin.
      destruct (I2 _ _ Hin) as (Ht & name & args & Hc).
      split; [exact Ht |]. exists name, args.
      apply in_or_app; left; exact Hc. }
    inversion Hstep; subst; cbn [tool_tasks history].
    + (* the connection fails *)
      split; assumption.
    + (* the connection is made and configured *)
      split; [intros; now apply Hold1 |].
      intros cid out Hin. unfold output_entry in Hin. apply in_app_or in Hin.
      destruct Hin as [Hin | Hin]; [exact (Hold2 _ _ _ Hin) |].
      apply in_did_inv in Hin. destruct Hin as [Ht _]. discriminate Ht.
    + (* a text from the client *)
      split; [intros; now apply Hold1 |].
      intros cid out Hin. unfold output_entry in Hin. apply in_app_or in Hin.
      destruct Hin as [Hin | [Hin | Hin]];
        [exact (Hold2 _ _ _ Hin) | discriminate |].
      apply in_did_inv in Hin. destruct Hin as [Ht _]. discriminate Ht.
    + (* an event from the agent *)
      split.
      * intros cid name args Hin. apply in_app_or in Hin.
        destruct Hin as [Hin | Hin]; [now apply Hold1 |].
        apply in_created in Hin.
        pose proof (on_event_identifies R v (vars s) event (socket_faults s))
          as Hid.
        rewrite Forall_forall in Hid. split; [exact (Hid _ Hin) |].
        apply in_or_app. right. right. apply in_did. exact Hin.
      * intros cid out Hin. unfold output_entry in Hin. apply in_app_or in Hin.
        destruct Hin as [Hin | [Hin | Hin]];
          [exact (Hold2 _ _ _ Hin) | discriminate |].
        apply in_did_inv in Hin. destruct Hin as [Ht _]. discriminate Ht.
    + split; assumption.
    + split; assumption.
    + split; assumption.
    + split; assumption.
    + (* the greeting *)
      split; [intros; now apply Hold1 |].
      intros cid out Hin. unfold output_entry in Hin. apply in_app_or in Hin.
      destruct Hin as [Hin | Hin]; [exact (Hold2 _ _ _ Hin) |].
      apply in_did_inv in Hin. destruct Hin as [Ht _]. discriminate Ht.
    + (* a tool task runs *)
      assert (Hmine : truthy call_id = true
                      /\ In (creation_entry call_id name arguments)
                            (history s)).
      { apply I1.
        match goal with Ht : tool_tasks s = _ |- _ => rewrite Ht end.
        apply in_or_app. right. left. reflexivity. }
      split.
      * intros cid nm args Hin. apply Hold1.
        match goal with Ht : tool_tasks s = _ |- _ => rewrite Ht end.
        apply in_app_or in Hin. apply in_or_app.
        destruct Hin as [Hin | Hin]; [left | right; right]; exact Hin.
      * intros cid out Hin. unfold output_entry in Hin. apply in_app_or in Hin.
        destruct Hin as [Hin | Hin]; [exact (Hold2 _ _ _ Hin) |].
        apply in_did_inv in Hin. destruct Hin as [_ Hin].
        pose proof (handle_tool_call_answers R call_id name arguments
                                             (socket_faults s)) as Hans.
        rewrite Forall_forall in Hans. specialize (Hans _ Hin).
        cbn [answer_effect] in Hans. subst cid.
        destruct Hmine as [Ht Hc]. split; [exact Ht |].
        exists name, arguments. apply in_or_app. left. exact Hc.
    + (* the call is torn down *)
      split; [intros; now apply Hold1 |].
      intros cid out Hin. unfold output_entry in Hin. apply in_app_or in Hin.
      destruct Hin as [Hin | Hin]; [exact (Hold2 _ _ _ Hin) |].
      apply in_did_inv in Hin. destruct Hin as [Ht _]. discriminate Ht.
Qed.

End OutputFacts.

(** X26.  Every tool output a call sends to the agent answers a function
    call the agent made in that call: its call identifier is not empty and
    is the one of a tool task the agent-to-client loop created before. *)
Theorem tool_outputs_answer_created_calls
        (R : runtime) (v : bridge.variant) (s : bridge.session)
        (call_id : value) (output : json_text) :
  bridge.reachable R v s ->
  In (output_entry call_id output) (bridge.history s) ->
  truthy call_id = true
  /\ exists name arguments,
      In (creation_entry call_id name arguments) (bridge.history s).
Proof.
  intros Hreach Hin.
  destruct (created_calls R v s Hreach) as [_ H]. exact (H _ _ Hin).
Qed.

(** A browser call in which the agent calls a tool that does not exist. *)
Lemma tool_outputs_answer_created_calls_witness :
  exists s,
    bridge.reachable example.rt bridge.Browser s
    /\ truthy (PStr "call_9") = true
    /\ exists name arguments,
        In (creation_entry (PStr "call_9") name arguments) (bridge.history s).
Proof.
  pose proof (reachable_gathering example.rt bridge.Browser []) as H0.
  eassert (H1 : bridge.reachable example.rt bridge.Browser _).
  { eapply bridge.reachable_step; [exact H0 |].
    eapply bridge.step_event
      with (event := bridge.RESPONSE_FUNCTION_CALL_ARGUMENTS_DONE
                       (PStr "call_9") (PStr "book_viewing")
                       (example.render example.search_arguments));
      reflexivity. }
  cbn in H1.
  eassert (H2 : bridge.reachable example.rt bridge.Browser _).
  { eapply bridge.reachable_step; [exact H1 |].
    eapply bridge.step_tool with (before := []); reflexivity. }
  cbn in H2.
  eexists. split; [exact H2 |].
  apply (tool_outputs_answer_created_calls
           _ _ _ (PStr "call_9")
           (json_dumps (PDict [("error", PStr "Unknown tool called.")]))
           H2).
  cbn. unfold output_entry. do 9 right. left. reflexivity.
Defined.
